(** * The extraction pipeline of seeded-extraction

    A shallow embedding of [app/core/extractors/*.py],
    [app/models/financial.py], [app/core/document_processor.py],
    [app/utils/excel_generator.py] and the extraction task of
    [app/api/routes.py], followed by the properties of the pipeline that its
    specification states and by further properties of the code.

    Conventions of the embedding.
    - A Python [str] is a Rocq [string], one [ascii] per character.  The
      embedding is exact on ASCII text; the currency symbols of
      [currency_patterns] appear as their UTF-8 bytes, and no case folding is
      done outside ASCII.
    - A Python [float] obtained by [float(s)] is the binary64 rounding of the
      decimal numeral [s].  The embedding keeps the exact rational value of
      the numeral ([Fin q]) and models neither the rounding nor the overflow
      to an infinity: two floats whose numerals have the same value here are
      the same float in Python.
    - A Python [dict] is an association list in insertion order; assigning to
      an existing key keeps its position.
    - Exceptions are explicit: a call that may raise returns an [outcome].
    - Logging has no effect on results and is left out.
    - What the code calls from outside, the document libraries, the clock,
      the generator of identifiers, the file system and the writer of
      workbooks, is a parameter of the embedding. *)

From Stdlib Require Import String Ascii List ZArith QArith Lia Bool Arith.
From Stdlib Require Import Sorted.
Import ListNotations.
Local Close Scope Q_scope.
Local Open Scope nat_scope.
Local Open Scope string_scope.
Local Open Scope list_scope.

(* ================================================================== *)
(** * Python primitives used by the extractors *)
(* ================================================================== *)

Module Py.

(** ** Exceptions *)

Inductive exn : Type := ValueError | KeyError | IndexError.

Inductive outcome (A : Type) : Type :=
| Returns (a : A)
| Raises (e : exn).
Arguments Returns {A} a.
Arguments Raises {A} e.

Definition bind {A B} (c : outcome A) (k : A -> outcome B) : outcome B :=
  match c with
  | Returns a => k a
  | Raises e => Raises e
  end.

(** [try: body / except ValueError: handler] *)
Definition try_except_ValueError {A} (body : outcome A) (handler : outcome A)
  : outcome A :=
  match body with
  | Raises ValueError => handler
  | other => other
  end.

(** [try: body / except Exception: handler]; every exception of the
    embedding derives from [Exception]. *)
Definition try_except_Exception {A} (body : outcome A) (handler : outcome A)
  : outcome A :=
  match body with
  | Raises _ => handler
  | other => other
  end.

(** ** Characters *)

Definition code (c : ascii) : nat := nat_of_ascii c.

Definition in_range (lo hi : nat) (c : ascii) : bool :=
  Nat.leb lo (code c) && Nat.leb (code c) hi.

(** [0-9] *)
Definition is_digit (c : ascii) : bool := in_range 48 57 c.

(** [str.isspace] on ASCII: TAB, LF, VT, FF, CR, FS, GS, RS, US and SPACE. *)
Definition is_space (c : ascii) : bool :=
  in_range 9 13 c || in_range 28 32 c.

Definition is_upper (c : ascii) : bool := in_range 65 90 c.
Definition is_lower (c : ascii) : bool := in_range 97 122 c.
Definition is_alpha (c : ascii) : bool := is_upper c || is_lower c.

Definition to_lower (c : ascii) : ascii :=
  if is_upper c then ascii_of_nat (code c + 32) else c.

(** ** Strings *)

(** [s.lower()] *)
Fixpoint lower (s : string) : string :=
  match s with
  | EmptyString => EmptyString
  | String c s' => String (to_lower c) (lower s')
  end.

Fixpoint lstrip (s : string) : string :=
  match s with
  | EmptyString => EmptyString
  | String c s' => if is_space c then lstrip s' else s
  end.

Fixpoint rstrip (s : string) : string :=
  match s with
  | EmptyString => EmptyString
  | String c s' =>
      match rstrip s' with
      | EmptyString => if is_space c then EmptyString else String c EmptyString
      | t => String c t
      end
  end.

(** [s.strip()] *)
Definition strip (s : string) : string := rstrip (lstrip s).

(** [s.startswith(p)] *)
Fixpoint startswith (p s : string) : bool :=
  match p, s with
  | EmptyString, _ => true
  | String a p', String b s' => Ascii.eqb a b && startswith p' s'
  | String _ _, EmptyString => false
  end.

(** [sub in s] *)
Fixpoint contains (sub s : string) : bool :=
  startswith sub s ||
  match s with
  | EmptyString => false
  | String _ s' => contains sub s'
  end.

(** [s.endswith(p)] *)
Fixpoint endswith (p s : string) : bool :=
  String.eqb p s ||
  match s with
  | EmptyString => false
  | String _ s' => endswith p s'
  end.

(** [s.replace(c, "")] for a one-character [c] *)
Fixpoint remove_char (c : ascii) (s : string) : string :=
  match s with
  | EmptyString => EmptyString
  | String d s' =>
      if Ascii.eqb d c then remove_char c s' else String d (remove_char c s')
  end.

(** [s.replace(c, d)] for one-character [c] and [d] *)
Fixpoint replace_char (c d : ascii) (s : string) : string :=
  match s with
  | EmptyString => EmptyString
  | String e s' =>
      String (if Ascii.eqb e c then d else e) (replace_char c d s')
  end.

(** [s.split(sep)] for a one-character [sep]; never empty. *)
Fixpoint split (sep : ascii) (s : string) : list string :=
  match s with
  | EmptyString => [EmptyString]
  | String c s' =>
      if Ascii.eqb c sep then EmptyString :: split sep s'
      else match split sep s' with
           | [] => [String c EmptyString]
           | h :: t => String c h :: t
           end
  end.

(** [s.split(sep, 1)] for a one-character [sep]: one or two parts. *)
Fixpoint split1 (sep : ascii) (s : string) : list string :=
  match s with
  | EmptyString => [EmptyString]
  | String c s' =>
      if Ascii.eqb c sep then [EmptyString; s']
      else match split1 sep s' with
           | [] => [String c EmptyString]
           | h :: t => String c h :: t
           end
  end.

(** [sep.join(parts)] *)
Fixpoint join (sep : string) (parts : list string) : string :=
  match parts with
  | [] => EmptyString
  | [p] => p
  | p :: ps => (p ++ sep ++ join sep ps)%string
  end.

(** [s[i:j]] for [0 <= i], [0 <= j] *)
Definition slice (i j : nat) (s : string) : string :=
  String.substring i (j - i) s.

(** [s[1:-1]] *)
Definition slice_1_m1 (s : string) : string :=
  slice 1 (String.length s - 1) s.

(** [l[i:j]] on a list, for [0 <= i], [0 <= j] *)
Definition lslice {A} (i j : nat) (l : list A) : list A :=
  firstn (j - i) (skipn i l).

(** [re.sub(r'[^...]', '', s)]: keep the characters of a class. *)
Fixpoint keep (p : ascii -> bool) (s : string) : string :=
  match s with
  | EmptyString => EmptyString
  | String c s' => if p c then String c (keep p s') else keep p s'
  end.

(** [sorted(list(set(l)))] on strings: insertion into a strictly increasing
    list. *)
Fixpoint insert_sorted (x : string) (l : list string) : list string :=
  match l with
  | [] => [x]
  | y :: l' =>
      if String.eqb x y then l
      else if String.ltb x y then x :: l
      else y :: insert_sorted x l'
  end.

Definition sorted_set (l : list string) : list string :=
  fold_right insert_sorted [] l.

(** ** Floats *)

Inductive pyfloat : Type :=
| Fin (q : Q)
| Inf (negative : bool)
| NaN.

(** [a == b] on floats *)
Definition float_eq (a b : pyfloat) : Prop :=
  match a, b with
  | Fin p, Fin q => Qeq p q
  | Inf s, Inf t => s = t
  | _, _ => False
  end.

Definition digit_val (c : ascii) : Z := Z.of_nat (code c - 48).

(** Value of a string of decimal digits, most significant first. *)
Fixpoint digits_val (acc : Z) (s : string) : Z :=
  match s with
  | EmptyString => acc
  | String c s' => digits_val (10 * acc + digit_val c)%Z s'
  end.

(** Longest prefix of digits, and the rest. *)
Fixpoint span_digits (s : string) : string * string :=
  match s with
  | EmptyString => (EmptyString, EmptyString)
  | String c s' =>
      if is_digit c
      then let (d, r) := span_digits s' in (String c d, r)
      else (EmptyString, s)
  end.

Definition is_underscore (o : option ascii) : bool :=
  match o with
  | Some p => Ascii.eqb p "_"
  | None => false
  end.

(** Underscores in a numeric literal: each one stands between two digits.
    Returns the literal without them; [prev] is the character before [s]. *)
Fixpoint strip_underscores (prev : option ascii) (s : string) : option string :=
  match s with
  | EmptyString => if is_underscore prev then None else Some EmptyString
  | String c s' =>
      if Ascii.eqb c "_" then
        match prev with
        | Some p => if is_digit p then strip_underscores (Some c) s' else None
        | None => None
        end
      else if is_underscore prev && negb (is_digit c) then None
      else option_map (String c) (strip_underscores (Some c) s')
  end.

(** Optional sign: [(negative, rest)]. *)
Definition take_sign (s : string) : bool * string :=
  match s with
  | String c r =>
      if Ascii.eqb c "-" then (true, r)
      else if Ascii.eqb c "+" then (false, r)
      else (false, s)
  | EmptyString => (false, s)
  end.

(** [m * 10^e] as a rational. *)
Definition scale10 (m e : Z) : Q :=
  if (0 <=? e)%Z then Qmake (m * 10 ^ e)%Z 1
  else Qmake m (Z.to_pos (10 ^ (- e))%Z).

(** Exponent part of a literal: [e], optional sign, at least one digit, up to
    the end of the string. *)
Definition parse_exponent (s : string) : option Z :=
  match s with
  | EmptyString => Some 0%Z
  | String c r =>
      if Ascii.eqb (to_lower c) "e" then
        let (neg, r1) := take_sign r in
        match span_digits r1 with
        | (String d ds, EmptyString) =>
            let e := digits_val 0 (String d ds) in
            Some (if neg then (- e)%Z else e)
        | _ => None
        end
      else None
  end.

(** Decimal literal without sign: digits, optional point and digits, at least
    one digit in all, optional exponent. *)
Definition parse_decimal (s : string) : option Q :=
  let (ip, r) := span_digits s in
  let (fp, r') :=
    match r with
    | String c r1 =>
        if Ascii.eqb c "." then span_digits r1 else (EmptyString, r)
    | EmptyString => (EmptyString, r)
    end in
  match String.length ip + String.length fp with
  | O => None
  | _ =>
      match parse_exponent r' with
      | Some e =>
          Some (scale10 (digits_val 0 (ip ++ fp))
                        (e - Z.of_nat (String.length fp)))
      | None => None
      end
  end.

(** A literal with optional sign: a decimal number, else an infinity or a
    NaN, in any case. *)
Definition parse_float_literal (s : string) : option pyfloat :=
  let (neg, r) := take_sign s in
  match parse_decimal r with
  | Some q => Some (Fin (if neg then Qopp q else q))
  | None =>
      let l := lower r in
      if String.eqb l "inf" || String.eqb l "infinity" then Some (Inf neg)
      else if String.eqb l "nan" then Some NaN
      else None
  end.

(** [float(s)] for a string [s] *)
Definition float (s : string) : outcome pyfloat :=
  match strip_underscores None (strip s) with
  | None => Raises ValueError
  | Some t =>
      match parse_float_literal t with
      | Some v => Returns v
      | None => Raises ValueError
      end
  end.

(** [int(s)] for a string [s] in base ten: blanks around, optional sign,
    digits with single underscores between them. *)
Definition int (s : string) : outcome Z :=
  let (neg, r) := take_sign (strip s) in
  match strip_underscores None r with
  | None => Raises ValueError
  | Some t =>
      match span_digits t with
      | (String d ds, EmptyString) =>
          let n := digits_val 0 (String d ds) in
          Returns (if neg then (- n)%Z else n)
      | _ => Raises ValueError
      end
  end.

(** ** Dictionaries *)

Class Eqb (K : Type) : Type := key_eqb : K -> K -> bool.

#[export] Instance string_Eqb : Eqb string := String.eqb.

(** Keys are compared by their value. *)
Class EqbLaws (K : Type) `{Eqb K} : Prop :=
  key_eqb_eq : forall a b : K, key_eqb a b = true <-> a = b.

Definition dict (K V : Type) : Type := list (K * V).

Section Dict.
Context {K V : Type} `{Eqb K}.

(** [d.get(k)] *)
Fixpoint get (d : dict K V) (k : K) : option V :=
  match d with
  | [] => None
  | (k', v) :: d' => if key_eqb k' k then Some v else get d' k
  end.

(** [d[k]] *)
Definition getitem (d : dict K V) (k : K) : outcome V :=
  match get d k with
  | Some v => Returns v
  | None => Raises KeyError
  end.

(** [d[k] = v] *)
Fixpoint setitem (d : dict K V) (k : K) (v : V) : dict K V :=
  match d with
  | [] => [(k, v)]
  | (k', v') :: d' =>
      if key_eqb k' k then (k', v) :: d' else (k', v') :: setitem d' k v
  end.

Definition keys (d : dict K V) : list K := map fst d.
Definition values (d : dict K V) : list V := map snd d.

(** [k in d] *)
Definition has_key (d : dict K V) (k : K) : bool :=
  match get d k with Some _ => true | None => false end.
End Dict.

(** [bool(s)] for a string: non-empty. *)
Definition nonempty (s : string) : bool :=
  match s with
  | EmptyString => false
  | String _ _ => true
  end.

(** [bool(d)] and [bool(l)]: non-empty. *)
Definition truthy {A} (l : list A) : bool :=
  match l with [] => false | _ => true end.

(** [{k: {} for k in ks}] *)
Definition dict_of_empty {K V} `{Eqb K} (ks : list K) : dict K (list V) :=
  fold_left (fun d k => setitem d k []) ks [].

(** [d[k][i] = v]: the inner dictionary is looked up, which raises [KeyError]
    when [k] is absent, and updated in place. *)
Definition setitem2 {K I V} `{Eqb K} `{Eqb I}
  (d : dict K (dict I V)) (k : K) (i : I) (v : V)
  : outcome (dict K (dict I V)) :=
  bind (getitem d k) (fun inner => Returns (setitem d k (setitem inner i v))).

(** The line separator. *)
Definition nl : string := String "010" EmptyString.

End Py.

Import Py.

Notation "x <- c ;; k" := (Py.bind c (fun x => k))
  (at level 61, c at next level, right associativity).

(* ================================================================== *)
(** * The regular expressions of Python's [re], as a backtracking matcher *)
(* ================================================================== *)

Module Re.

(** The constructs the extractors' patterns use.  Repetition bodies of those
    patterns always consume a character, so an iteration that consumes
    nothing simply fails. *)
Inductive regex : Type :=
| Eps                                (* the empty pattern *)
| Chr (p : ascii -> bool)            (* one character of a class *)
| Seq (r1 r2 : regex)                (* r1 r2 *)
| Alt (r1 r2 : regex)                (* r1|r2, left first *)
| Star (greedy : bool) (r : regex)   (* r* and r*? *)
| Group (n : nat) (r : regex)        (* capturing group number n *)
| Bol                                (* ^ *)
| Eol.                               (* $ *)

(** Captured groups: number and text. *)
Definition captures : Type := list (nat * string).

Fixpoint set_group (n : nat) (w : string) (caps : captures) : captures :=
  match caps with
  | [] => [(n, w)]
  | (m, v) :: caps' =>
      if Nat.eqb m n then (m, w) :: caps' else (m, v) :: set_group n w caps'
  end.

Fixpoint get_group (n : nat) (caps : captures) : option string :=
  match caps with
  | [] => None
  | (m, v) :: caps' => if Nat.eqb m n then Some v else get_group n caps'
  end.

Section Matcher.
Context {A : Type}.

(** What to do with the rest of the subject once a pattern has matched:
    rest, position of the rest in the subject, groups so far. *)
Definition cont : Type := string -> nat -> captures -> option A.

Definition first_of (a b : option A) : option A :=
  match a with
  | Some x => Some x
  | None => b
  end.

(** The iterations of [r*] and [r*?]; [step] matches [r] once.  [fuel]
    bounds the iterations by the length of the rest. *)
Fixpoint star_loop (step : string -> nat -> captures -> cont -> option A)
  (greedy : bool) (k : cont) (fuel : nat) (rest : string) (pos : nat)
  (caps : captures) {struct fuel} : option A :=
  match fuel with
  | O => k rest pos caps
  | S fuel' =>
      let again :=
        step rest pos caps
          (fun rest' pos' caps' =>
             if Nat.ltb pos pos'
             then star_loop step greedy k fuel' rest' pos' caps'
             else None) in
      if greedy then first_of again (k rest pos caps)
      else first_of (k rest pos caps) again
  end.

Fixpoint rmatch (r : regex) (rest : string) (pos : nat) (caps : captures)
  (k : cont) {struct r} : option A :=
  match r with
  | Eps => k rest pos caps
  | Chr p =>
      match rest with
      | String c rest' => if p c then k rest' (S pos) caps else None
      | EmptyString => None
      end
  | Seq r1 r2 =>
      rmatch r1 rest pos caps
        (fun rest' pos' caps' => rmatch r2 rest' pos' caps' k)
  | Alt r1 r2 =>
      first_of (rmatch r1 rest pos caps k) (rmatch r2 rest pos caps k)
  | Star greedy r1 =>
      star_loop (rmatch r1) greedy k (String.length rest) rest pos caps
  | Group n r1 =>
      rmatch r1 rest pos caps
        (fun rest' pos' caps' =>
           k rest' pos'
             (set_group n (String.substring 0 (pos' - pos) rest) caps'))
  | Bol => if Nat.eqb pos 0 then k rest pos caps else None
  | Eol =>
      match rest with
      | EmptyString => k rest pos caps
      | String "010" EmptyString => k rest pos caps
      | _ => None
      end
  end.
End Matcher.

(** A match object: [m.start()], [m.end()] and the groups. *)
Record rmatch_obj : Type := MkMatch {
  m_start : nat;
  m_end : nat;
  m_groups : captures
}.

Definition match_at (r : regex) (rest : string) (pos : nat)
  : option rmatch_obj :=
  rmatch r rest pos [] (fun _ pos' caps => Some (MkMatch pos pos' caps)).

(** Leftmost match in [rest], the part of the subject from [pos] on. *)
Fixpoint search_from (r : regex) (rest : string) (pos : nat)
  : option rmatch_obj :=
  match match_at r rest pos with
  | Some m => Some m
  | None =>
      match rest with
      | EmptyString => None
      | String _ rest' => search_from r rest' (S pos)
      end
  end.

(** [re.search(r, s)] *)
Definition search (r : regex) (s : string) : option rmatch_obj :=
  search_from r s 0.

(** [m.group(0)] *)
Definition group0 (s : string) (m : rmatch_obj) : string :=
  String.substring (m_start m) (m_end m - m_start m) s.

(** [m.group(n)] for a group that took part in the match *)
Definition group (n : nat) (m : rmatch_obj) : string :=
  match get_group n (m_groups m) with
  | Some w => w
  | None => EmptyString
  end.

Fixpoint drop (n : nat) (s : string) : string :=
  match n, s with
  | S n', String _ s' => drop n' s'
  | _, _ => s
  end.

(** All non-overlapping matches, left to right.  The patterns searched this
    way match at least one character. *)
Fixpoint matches_from (fuel : nat) (r : regex) (rest : string) (pos : nat)
  : list rmatch_obj :=
  match fuel with
  | O => []
  | S fuel' =>
      match search_from r rest pos with
      | None => []
      | Some m =>
          let next := Nat.max (m_end m) (S (m_start m)) in
          m :: matches_from fuel' r (drop (next - pos) rest) next
      end
  end.

Definition finditer (r : regex) (s : string) : list rmatch_obj :=
  matches_from (S (String.length s)) r s 0.

(** [re.findall(r, s)] for a pattern with exactly one group *)
Definition findall1 (r : regex) (s : string) : list string :=
  map (group 1) (finditer r s).

(** [re.findall(r, s)] for a pattern without groups *)
Definition findall0 (r : regex) (s : string) : list string :=
  map (group0 s) (finditer r s).

(** ** Pattern syntax *)

Definition chr (c : ascii) : regex := Chr (Ascii.eqb c).
Definition digit : regex := Chr is_digit.                 (* \d *)
Definition space : regex := Chr is_space.                 (* \s *)
Definition dot : regex := Chr (fun c => negb (Ascii.eqb c "010")).  (* . *)
Definition opt (r : regex) : regex := Alt r Eps.          (* r? *)
Definition plus (r : regex) : regex := Seq r (Star true r).      (* r+ *)
Definition plus_lazy (r : regex) : regex := Seq r (Star false r). (* r+? *)

(** A literal word; with [re.IGNORECASE] when [ci] is set. *)
Fixpoint lit (ci : bool) (w : string) : regex :=
  match w with
  | EmptyString => Eps
  | String c w' =>
      Seq (Chr (fun d => if ci then Ascii.eqb (to_lower d) (to_lower c)
                         else Ascii.eqb d c))
          (lit ci w')
  end.

Definition seqs (rs : list regex) : regex := fold_right Seq Eps rs.

Fixpoint alts (rs : list regex) : regex :=
  match rs with
  | [] => Chr (fun _ => false)
  | [r] => r
  | r :: rs' => Alt r (alts rs')
  end.

(** [\d{1,3}], [\d{3}], [\d{2}], [\d{1,2}] *)
Definition digit_1_3 : regex := Seq digit (opt (Seq digit (opt digit))).
Definition digit_3 : regex := Seq digit (Seq digit digit).
Definition digit_2 : regex := Seq digit digit.
Definition digit_1_2 : regex := Seq digit (opt digit).

End Re.

Import Re.

(* ================================================================== *)
(** * app/models/financial.py *)
(* ================================================================== *)

Module Financial.

Inductive Currency : Type := USD | EUR | GBP | JPY | CNY | Currency_UNKNOWN.

Inductive Unit : Type :=
  THOUSANDS | MILLIONS | BILLIONS | ACTUAL | Unit_UNKNOWN.

Inductive ConfidenceLevel : Type := HIGH | MEDIUM | LOW | MISSING.

Record ExtractedValue : Type := MkExtractedValue {
  value : option pyfloat;
  original_text : option string;
  confidence : ConfidenceLevel;
  notes : option string
}.

Inductive IncomeStatementItem : Type :=
| REVENUE
| COST_OF_REVENUE
| GROSS_PROFIT
| OPERATING_EXPENSES
| RND
| SGNA
| OPERATING_INCOME
| INTEREST_EXPENSE
| INCOME_TAX
| NET_INCOME
| EBITDA.

(** [item.value] *)
Definition item_value (i : IncomeStatementItem) : string :=
  match i with
  | REVENUE => "Revenue"
  | COST_OF_REVENUE => "Cost of Revenue"
  | GROSS_PROFIT => "Gross Profit"
  | OPERATING_EXPENSES => "Operating Expenses"
  | RND => "Research & Development"
  | SGNA => "Selling, General & Administrative"
  | OPERATING_INCOME => "Operating Income"
  | INTEREST_EXPENSE => "Interest Expense"
  | INCOME_TAX => "Income Tax"
  | NET_INCOME => "Net Income"
  | EBITDA => "EBITDA"
  end.

(** [list(IncomeStatementItem)]: the members in definition order. *)
Definition all_items : list IncomeStatementItem :=
  [REVENUE; COST_OF_REVENUE; GROSS_PROFIT; OPERATING_EXPENSES; RND; SGNA;
   OPERATING_INCOME; INTEREST_EXPENSE; INCOME_TAX; NET_INCOME; EBITDA].

Definition item_eqb (a b : IncomeStatementItem) : bool :=
  match a, b with
  | REVENUE, REVENUE
  | COST_OF_REVENUE, COST_OF_REVENUE
  | GROSS_PROFIT, GROSS_PROFIT
  | OPERATING_EXPENSES, OPERATING_EXPENSES
  | RND, RND
  | SGNA, SGNA
  | OPERATING_INCOME, OPERATING_INCOME
  | INTEREST_EXPENSE, INTEREST_EXPENSE
  | INCOME_TAX, INCOME_TAX
  | NET_INCOME, NET_INCOME
  | EBITDA, EBITDA => true
  | _, _ => false
  end.

#[export] Instance item_Eqb : Eqb IncomeStatementItem := item_eqb.

(** [Dict[IncomeStatementItem, ExtractedValue]] *)
Definition period_data : Type := dict IncomeStatementItem ExtractedValue.

(** [Dict[str, Dict[IncomeStatementItem, ExtractedValue]]] *)
Definition data_t : Type := dict string period_data.

(** [Dict[str, Dict[str, str]]] *)
Definition raw_t : Type := dict string (dict string string).

Record FinancialExtractionResult : Type := MkResult {
  document_name : string;
  extraction_date : string;
  currency : Currency;
  unit : Unit;
  confidence_overall : ConfidenceLevel;
  data : data_t;
  warnings : list string;
  missing_items : list IncomeStatementItem;
  raw_extracts : raw_t
}.

Definition set_document_name (r : FinancialExtractionResult) (n : string)
  : FinancialExtractionResult :=
  MkResult n (extraction_date r) (currency r) (unit r) (confidence_overall r)
           (data r) (warnings r) (missing_items r) (raw_extracts r).

Definition set_extraction_date (r : FinancialExtractionResult) (d : string)
  : FinancialExtractionResult :=
  MkResult (document_name r) d (currency r) (unit r) (confidence_overall r)
           (data r) (warnings r) (missing_items r) (raw_extracts r).

(** The three values a strategy returns: data, raw extracts, warnings. *)
Definition partial : Type := (data_t * raw_t * list string)%type.

(** [found_items]: [set()] updated with the keys of every period. *)
Definition found_items (d : data_t) : list IncomeStatementItem :=
  flat_map (fun year_data : period_data => keys year_data) (values d).

(** [list(all_items - found_items)].  Python leaves the order of a set
    unspecified; the embedding lists the members in definition order. *)
Definition set_difference (all found : list IncomeStatementItem)
  : list IncomeStatementItem :=
  filter (fun i => negb (existsb (item_eqb i) found)) all.

(** [any(d.values())] *)
Definition any_values {K V} (d : dict K (list V)) : bool :=
  existsb truthy (values d).

End Financial.

Import Financial.

(* ================================================================== *)
(** * app/core/extractors/base_extractor.py *)
(* ================================================================== *)

Module BaseExtractor.

(** The [mappings] dictionary in insertion order; the literal names
    ["ebitda"] twice, which leaves one entry at its first position. *)
Definition mappings : list (string * IncomeStatementItem) :=
  [ ("revenue", REVENUE);
    ("sales", REVENUE);
    ("total revenue", REVENUE);
    ("operating revenue", REVENUE);
    ("cost of revenue", COST_OF_REVENUE);
    ("cost of sales", COST_OF_REVENUE);
    ("cost of goods sold", COST_OF_REVENUE);
    ("cogs", COST_OF_REVENUE);
    ("gross profit", GROSS_PROFIT);
    ("gross margin", GROSS_PROFIT);
    ("operating expenses", OPERATING_EXPENSES);
    ("opex", OPERATING_EXPENSES);
    ("total operating expenses", OPERATING_EXPENSES);
    ("expenses", OPERATING_EXPENSES);
    ("research and development", RND);
    ("r&d", RND);
    ("research & development", RND);
    ("research and development expenses", RND);
    ("selling general and administrative", SGNA);
    ("sg&a", SGNA);
    ("selling, general & administrative", SGNA);
    ("selling, general and administrative", SGNA);
    ("selling general and admin", SGNA);
    ("operating income", OPERATING_INCOME);
    ("operating profit", OPERATING_INCOME);
    ("income from operations", OPERATING_INCOME);
    ("interest expense", INTEREST_EXPENSE);
    ("interest", INTEREST_EXPENSE);
    ("finance costs", INTEREST_EXPENSE);
    ("income tax", INCOME_TAX);
    ("tax expense", INCOME_TAX);
    ("provision for income taxes", INCOME_TAX);
    ("income tax expense", INCOME_TAX);
    ("net income", NET_INCOME);
    ("net profit", NET_INCOME);
    ("net earnings", NET_INCOME);
    ("bottom line", NET_INCOME);
    ("ebitda", EBITDA);
    ("earnings before interest", EBITDA) ].

(** [for key, value in mappings.items(): if key in text_lower: return value] *)
Fixpoint lookup_mappings (table : list (string * IncomeStatementItem))
  (text_lower : string) : option IncomeStatementItem :=
  match table with
  | [] => None
  | (key, value) :: table' =>
      if contains key text_lower then Some value
      else lookup_mappings table' text_lower
  end.

Definition _normalize_line_item (text : string) : option IncomeStatementItem :=
  let text_lower := strip (lower text) in
  match lookup_mappings mappings text_lower with
  | Some value => Some value
  | None =>
      if contains "r&d" text_lower || contains "research" text_lower
      then Some RND
      else if contains "sg&a" text_lower || contains "selling" text_lower
      then Some SGNA
      else None
  end.

End BaseExtractor.

Import BaseExtractor.

(* ================================================================== *)
(** * app/core/extractors/free_extractor.py *)
(* ================================================================== *)

Module FreeExtractor.

(** [r'\$?(\d{1,3}(?:,\d{3})*(?:\.\d{1,2})?)'] *)
Definition table_number_body : regex :=
  Seq digit_1_3
    (Seq (Star true (Seq (chr ",") digit_3))
         (opt (Seq (chr ".") digit_1_2))).

Definition table_number_re : regex :=
  Seq (opt (chr "$")) (Group 1 table_number_body).

(** The pattern [( \d+ \.? \d* )], written there without the blanks. *)
Definition kv_number_body : regex :=
  Seq (plus digit) (Seq (opt (chr ".")) (Star true digit)).

Definition kv_number_re : regex := Group 1 kv_number_body.

Definition _parse_number (num_str : string) : outcome pyfloat :=
  let num_str := strip (remove_char "," num_str) in
  float num_str.

Definition item_mapping : list (string * IncomeStatementItem) :=
  [ ("Revenue", REVENUE);
    ("Cost of revenue", COST_OF_REVENUE);
    ("Gross profit", GROSS_PROFIT);
    ("Research and development", RND);
    ("Selling, general and admin", SGNA);
    ("Total operating expenses", OPERATING_EXPENSES);
    ("Operating income", OPERATING_INCOME);
    ("Interest expense", INTEREST_EXPENSE);
    ("Income tax expense", INCOME_TAX);
    ("Net income", NET_INCOME);
    ("EBITDA", EBITDA) ].

Definition high (v : pyfloat) (line : string) : ExtractedValue :=
  MkExtractedValue (Some v) (Some line) HIGH None.

(** The loop [for item_text, standard_item in item_mapping.items()] on one
    stripped line; it ends at the [break] after a row has been stored. *)
Fixpoint table_items (items : list (string * IncomeStatementItem))
  (line : string) (st : data_t * raw_t) : outcome (data_t * raw_t) :=
  match items with
  | [] => Returns st
  | (item_text, standard_item) :: items' =>
      if contains item_text line then
        match findall1 table_number_re line with
        | n0 :: n1 :: _ =>
            val1 <- _parse_number n0 ;;
            val2 <- _parse_number n1 ;;
            d1 <- setitem2 (fst st) "2023" standard_item (high val1 line) ;;
            d2 <- setitem2 d1 "2022" standard_item (high val2 line) ;;
            r1 <- setitem2 (snd st) "2023" (item_value standard_item) line ;;
            r2 <- setitem2 r1 "2022" (item_value standard_item) line ;;
            Returns (d2, r2)
        | _ => table_items items' line st
        end
      else table_items items' line st
  end.

(** The loop [for line in lines] of [_extract_table_format]. *)
Fixpoint table_lines (lines : list string) (st : data_t * raw_t)
  : outcome (data_t * raw_t) :=
  match lines with
  | [] => Returns st
  | line :: lines' =>
      let line := strip line in
      if negb (nonempty line)
         || contains "CONSOLIDATED" line || contains "In millions" line
      then table_lines lines' st
      else st' <- table_items item_mapping line st ;; table_lines lines' st'
  end.

Definition _extract_table_format (lines : list string) : outcome partial :=
  let data : data_t := [("2023", []); ("2022", [])] in
  let raw : raw_t := [("2023", []); ("2022", [])] in
  let warnings : list string := [] in
  st <- table_lines lines (data, raw) ;;
  Returns (fst st, snd st, warnings).

Definition key_mapping : dict string IncomeStatementItem :=
  [ ("Revenue", REVENUE);
    ("Expenses", OPERATING_EXPENSES);
    ("Net Income", NET_INCOME) ].

(** The loop [for line in lines] of [_extract_key_value_format]. *)
Fixpoint key_value_lines (lines : list string) (st : data_t * raw_t)
  : outcome (data_t * raw_t) :=
  match lines with
  | [] => Returns st
  | line :: lines' =>
      if contains ":" line then
        match split1 ":" line with
        | parts0 :: parts1 :: _ =>
            let key := strip parts0 in
            let value_str := strip parts1 in
            match findall1 kv_number_re value_str with
            | n0 :: _ =>
                value <- float n0 ;;
                match get key_mapping key with
                | Some standard_item =>
                    d <- setitem2 (fst st) "Current" standard_item
                           (high value line) ;;
                    r <- setitem2 (snd st) "Current"
                           (item_value standard_item) line ;;
                    key_value_lines lines' (d, r)
                | None => key_value_lines lines' st
                end
            | [] => key_value_lines lines' st
            end
        | _ => Raises IndexError
        end
      else key_value_lines lines' st
  end.

Definition _extract_key_value_format (lines : list string) : outcome partial :=
  let data : data_t := [("Current", [])] in
  let raw : raw_t := [("Current", [])] in
  let warnings : list string := [] in
  st <- key_value_lines lines (data, raw) ;;
  Returns (fst st, snd st, warnings).

Definition _extract_line_by_line (lines : list string) : outcome partial :=
  let data : data_t := [] in
  let raw : raw_t := [] in
  let warnings := ["Using basic line-by-line extraction"] in
  Returns (data, raw, warnings).

(** [data and any(data.values())] *)
Definition found_any (p : partial) : bool :=
  let '(data, _, _) := p in truthy data && any_values data.

Definition _try_all_methods (lines : list string) : outcome partial :=
  p1 <- _extract_table_format lines ;;
  if found_any p1 then Returns p1
  else
    p2 <- _extract_key_value_format lines ;;
    if found_any p2 then Returns p2
    else _extract_line_by_line lines.

Definition _detect_currency (text : string) : Currency :=
  if contains "$" text then USD else Currency_UNKNOWN.

Definition _detect_unit (text : string) : Unit :=
  if contains "millions" (lower text) then MILLIONS else Unit_UNKNOWN.

Definition extract (text : string) : outcome FinancialExtractionResult :=
  let lines := split "010" text in
  p <- _try_all_methods lines ;;
  let '(data, raw_extracts, warnings) := p in
  let currency := _detect_currency text in
  let unit := _detect_unit text in
  let missing_items := set_difference all_items (found_items data) in
  Returns (MkResult "Free_Extracted" "" currency unit
             (if truthy data then HIGH else LOW)
             data warnings missing_items raw_extracts).

End FreeExtractor.

(* ================================================================== *)
(** * app/core/extractors/pattern_extractor.py *)
(* ================================================================== *)

Module PatternExtractor.

(** ** The tables of [__init__] *)

(** [Unit(name)] and [Currency(name)]: look a member up by its value. *)
Definition Unit_of_value (v : string) : outcome Unit :=
  if String.eqb v "thousands" then Returns THOUSANDS
  else if String.eqb v "millions" then Returns MILLIONS
  else if String.eqb v "billions" then Returns BILLIONS
  else if String.eqb v "actual" then Returns ACTUAL
  else if String.eqb v "UNKNOWN" then Returns Unit_UNKNOWN
  else Raises ValueError.

Definition Currency_of_value (v : string) : outcome Currency :=
  if String.eqb v "USD" then Returns USD
  else if String.eqb v "EUR" then Returns EUR
  else if String.eqb v "GBP" then Returns GBP
  else if String.eqb v "JPY" then Returns JPY
  else if String.eqb v "CNY" then Returns CNY
  else if String.eqb v "UNKNOWN" then Returns Currency_UNKNOWN
  else Raises ValueError.

Definition word (w : string) : regex := lit false w.

(** [word_s w] is the pattern [ws?]. *)
Definition word_s (w : string) : regex := Seq (word w) (opt (chr "s")).

Definition unit_patterns : list (string * regex) :=
  [ ("thousands",
     alts [word "thousand"; word "thousands"; word "k"; word "000's"]);
    ("millions",
     alts [word "million"; word "millions"; word "m"; word "mn"; word "mln"]);
    ("billions",
     alts [word "billion"; word "billions"; word "b"; word "bn"]) ].

Definition currency_patterns : list (string * regex) :=
  [ ("USD", alts [word "$"; word_s "dollar"; word "usd"]);
    ("EUR", alts [word "€"; word_s "euro"; word "eur"]);
    ("GBP", alts [word "£"; word_s "pound"; word "gbp"]);
    ("JPY", alts [word "¥"; word "yen"; word "jpy"]);
    ("CNY", alts [word "¥"; word "yuan"; word "cny"; word "rmb"]) ].

(** [r'20\d{2}|19\d{2}'] *)
Definition year_pattern : regex :=
  Alt (Seq (word "20") digit_2) (Seq (word "19") digit_2).

(** The number token shared by the patterns of this class:
    [\d{1,3}(?:[,\s]\d{3})*(?:\.\d{2})?] *)
Definition number_token : regex :=
  Seq digit_1_3
    (Seq (Star true
            (Seq (Chr (fun c => Ascii.eqb c "," || is_space c)) digit_3))
         (opt (Seq (chr ".") digit_2))).

(** ** [_parse_number] *)

(** [s.index(c)] *)
Fixpoint index (c : ascii) (s : string) : outcome nat :=
  match s with
  | EmptyString => Raises ValueError
  | String d s' =>
      if Ascii.eqb d c then Returns 0
      else i <- index c s' ;; Returns (S i)
  end.

Definition _parse_number (number_str : string) : outcome (option pyfloat) :=
  try_except_ValueError
    (let number_str := remove_char " " (remove_char "," number_str) in
     let number_str :=
       if startswith "(" number_str && endswith ")" number_str
       then ("-" ++ slice_1_m1 number_str)%string
       else number_str in
     number_str <-
       (if contains "." number_str && contains "," number_str then
          i <- index "." number_str ;;
          j <- index "," number_str ;;
          if Nat.ltb i j
          then Returns (replace_char "," "." (remove_char "." number_str))
          else Returns number_str
        else Returns number_str) ;;
     v <- float number_str ;;
     Returns (Some v))
    (Returns None).

(** ** [_detect_currency], [_detect_unit] *)

Definition is_some {A} (o : option A) : bool :=
  match o with Some _ => true | None => false end.

(** [for name, pattern in table.items(): if re.search(pattern, text_lower):
    return make(name)], then the default. *)
Fixpoint first_match {A} (make : string -> outcome A) (default : A)
  (table : list (string * regex)) (text_lower : string) : outcome A :=
  match table with
  | [] => Returns default
  | (name, pattern) :: table' =>
      if is_some (search pattern text_lower) then make name
      else first_match make default table' text_lower
  end.

Definition _detect_currency (text : string) : outcome Currency :=
  let text_lower := lower text in
  first_match Currency_of_value Currency_UNKNOWN currency_patterns text_lower.

Definition _detect_unit (text : string) : outcome Unit :=
  let text_lower := lower text in
  first_match Unit_of_value Unit_UNKNOWN unit_patterns text_lower.

(** ** Years *)

(** [r'(20\d{2})\s+(20\d{2})'] *)
Definition table_year_pattern : regex :=
  seqs [ Group 1 (Seq (word "20") digit_2);
         plus space;
         Group 2 (Seq (word "20") digit_2) ].

Fixpoint _extract_years_from_table (lines : list string) : list string :=
  match lines with
  | [] => []
  | line :: lines' =>
      match search table_year_pattern line with
      | Some m => [group 1 m; group 2 m]
      | None => _extract_years_from_table lines'
      end
  end.

Definition _extract_years (text : string) : list string :=
  sorted_set (findall0 year_pattern text).

(** [[y for y in years if 2020 <= int(y) <= 2025]] *)
Fixpoint recent_years (years : list string) : outcome (list string) :=
  match years with
  | [] => Returns []
  | y :: years' =>
      n <- int y ;;
      rest <- recent_years years' ;;
      if (2020 <=? n)%Z && (n <=? 2025)%Z then Returns (y :: rest)
      else Returns rest
  end.

Definition _is_recent_year (text : string) : outcome bool :=
  let years := findall0 year_pattern text in
  recent <- recent_years years ;;
  Returns (Nat.ltb 0 (List.length recent)).

(** ** The table method *)

Definition label_char (c : ascii) : bool :=
  is_alpha c || is_space c || Ascii.eqb c ",".

(** [r'^([A-Za-z\s,]+?)\s+\$?(N)\s+\$?(N)$'], [N] the number token *)
Definition row_pattern : regex :=
  seqs [ Bol; Group 1 (plus_lazy (Chr label_char));
         plus space; opt (chr "$"); Group 2 number_token;
         plus space; opt (chr "$"); Group 3 number_token; Eol ].

(** [r'^\s+([A-Za-z\s,]+?)\s+\$?(N)\s+\$?(N)$'] *)
Definition indented_row_pattern : regex :=
  seqs [ Bol; plus space; Group 1 (plus_lazy (Chr label_char));
         plus space; opt (chr "$"); Group 2 number_token;
         plus space; opt (chr "$"); Group 3 number_token; Eol ].

Definition header_words : list string :=
  ["consolidated"; "statement"; "in millions"; "except per share"].

(** [for i, line in enumerate(lines): if all(str(year) in line for year in
    years): start_idx = i + 1; break], from [start_idx = 0]. *)
Fixpoint find_table_start (lines : list string) (years : list string)
  (i : nat) : nat :=
  match lines with
  | [] => 0
  | line :: lines' =>
      if forallb (fun year => contains year line) years then i + 1
      else find_table_start lines' years (S i)
  end.

Definition extracted (v : option pyfloat) (line : string) : ExtractedValue :=
  MkExtractedValue v (Some line) HIGH None.

(** The loop [for line_num in range(start_idx, len(lines))]; [y0], [y1] are
    [years[0]], [years[1]]. *)
Fixpoint table_rows (rows : list string) (y0 y1 : string)
  (st : data_t * raw_t) : outcome (data_t * raw_t) :=
  match rows with
  | [] => Returns st
  | row :: rows' =>
      let line := strip row in
      if negb (nonempty line)
         || Nat.ltb (String.length line) 5
      then table_rows rows' y0 y1 st
      else if existsb (fun x => contains x (lower line)) header_words
      then table_rows rows' y0 y1 st
      else
        let found :=
          match search row_pattern line with
          | Some m => Some m
          | None => search indented_row_pattern line
          end in
        match found with
        | Some m =>
            let item_name := strip (group 1 m) in
            val1 <- _parse_number (group 2 m) ;;
            val2 <- _parse_number (group 3 m) ;;
            match _normalize_line_item item_name with
            | Some standard_item =>
                d1 <- setitem2 (fst st) y1 standard_item
                        (extracted val1 line) ;;
                d2 <- setitem2 d1 y0 standard_item (extracted val2 line) ;;
                r1 <- setitem2 (snd st) y1 (item_value standard_item) line ;;
                r2 <- setitem2 r1 y0 (item_value standard_item) line ;;
                table_rows rows' y0 y1 (d2, r2)
            | None => table_rows rows' y0 y1 st
            end
        | None => table_rows rows' y0 y1 st
        end
  end.

Definition _extract_from_table (lines : list string) (years : list string)
  : outcome partial :=
  let data : data_t := dict_of_empty years in
  let raw_extracts : raw_t := dict_of_empty years in
  let warnings : list string := [] in
  match years with
  | y0 :: y1 :: _ =>
      let start_idx := find_table_start lines years 0 in
      st <- table_rows (skipn start_idx lines) y0 y1 (data, raw_extracts) ;;
      Returns (fst st, snd st, warnings)
  | _ => Returns ([], [], ["No years found in table"])
  end.

(** ** The context-window method *)

Definition _get_item_variations (item : IncomeStatementItem) : list string :=
  match item with
  | REVENUE => ["revenue"; "sales"; "total revenue"; "operating revenue"]
  | COST_OF_REVENUE =>
      ["cost of revenue"; "cost of sales"; "cost of goods sold"; "cogs"]
  | GROSS_PROFIT => ["gross profit"; "gross margin"]
  | OPERATING_EXPENSES =>
      ["operating expenses"; "opex"; "operating costs";
       "total operating expenses"; "expenses"]
  | RND =>
      ["research and development"; "r&d"; "research & development";
       "research and development expenses"]
  | SGNA =>
      ["selling, general and administrative"; "sg&a";
       "selling, general & administrative"; "selling general and admin";
       "selling general and administrative"]
  | OPERATING_INCOME =>
      ["operating income"; "operating profit"; "income from operations"]
  | INTEREST_EXPENSE => ["interest expense"; "interest"; "finance costs"]
  | INCOME_TAX =>
      ["income tax"; "tax expense"; "provision for income taxes";
       "income tax expense"]
  | NET_INCOME => ["net income"; "net profit"; "net earnings"; "bottom line"]
  | EBITDA => ["ebitda"; "earnings before interest"]
  end.

(** [rf'{variation}.*?(N)'] under [re.IGNORECASE]; the variations hold no
    character that is special in a pattern. *)
Definition line_item_pattern (variation : string) : regex :=
  seqs [ lit true variation; Star false dot; Group 1 number_token ].

Definition line_item_result : Type :=
  (option pyfloat * ConfidenceLevel * option string)%type.

(** The loop [for variation in item_variations] of [_extract_line_item]. *)
Fixpoint try_variations (variations : list string) (context year : string)
  : outcome line_item_result :=
  match variations with
  | [] => Returns (None, MISSING, None)
  | variation :: variations' =>
      match search (line_item_pattern variation) context with
      | Some m =>
          let value_str := group 1 m in
          value <- _parse_number value_str ;;
          let surrounding_text :=
            slice (m_start m - 50)
                  (Nat.min (String.length context) (m_end m + 50)) context in
          ok <- (if contains year surrounding_text then Returns true
                 else _is_recent_year surrounding_text) ;;
          if ok then Returns (value, HIGH, Some (group0 context m))
          else try_variations variations' context year
      | None => try_variations variations' context year
      end
  end.

Definition _extract_line_item (context : string) (item : IncomeStatementItem)
  (year : string) : outcome line_item_result :=
  let item_variations := _get_item_variations item in
  try_variations item_variations context year.

(** [lines[start:end]] for every line that mentions the year. *)
Fixpoint year_windows (all_lines lines : list string) (i : nat)
  (year : string) (context_lines : nat) : list string :=
  match lines with
  | [] => []
  | line :: lines' =>
      (if contains year line then
         let start := i - context_lines in
         let end_ := Nat.min (List.length all_lines) (i + context_lines + 1) in
         lslice start end_ all_lines
       else [])
      ++ year_windows all_lines lines' (S i) year context_lines
  end.

Definition _get_year_context (text year : string) : string :=
  let lines := split "010" text in
  let year_lines := year_windows lines lines 0 year 5 in
  join nl year_lines.

(** The loop [for item in IncomeStatementItem] of [_extract_for_year]. *)
Fixpoint for_year_items (items : list IncomeStatementItem)
  (year_context year : string)
  (st : period_data * dict string string)
  : outcome (period_data * dict string string) :=
  match items with
  | [] => Returns st
  | item :: items' =>
      r <- _extract_line_item year_context item year ;;
      let '(value, confidence, original_text) := r in
      match value with
      | Some _ =>
          let d := setitem (fst st) item
                     (MkExtractedValue value original_text confidence None) in
          let raw := setitem (snd st) (item_value item)
                       (match original_text with
                        | Some t => t
                        | None => EmptyString
                        end) in
          for_year_items items' year_context year (d, raw)
      | None => for_year_items items' year_context year st
      end
  end.

Definition _extract_for_year (text year : string)
  : outcome (period_data * dict string string) :=
  let year_context := _get_year_context text year in
  for_year_items all_items year_context year ([], []).

(** The loop [for year in years] of [_extract_line_by_line]. *)
Fixpoint line_by_line_years (years : list string) (text : string)
  (st : data_t * raw_t) : outcome (data_t * raw_t) :=
  match years with
  | [] => Returns st
  | year :: years' =>
      r <- _extract_for_year text year ;;
      let '(year_data, year_raw) := r in
      if truthy year_data
      then line_by_line_years years' text
             (setitem (fst st) year year_data, setitem (snd st) year year_raw)
      else line_by_line_years years' text st
  end.

Definition _extract_line_by_line (text : string) (years : list string)
  : outcome partial :=
  st <- line_by_line_years years text ([], []) ;;
  Returns (fst st, snd st, []).

(** ** The simple key-value method *)

(** The class kept by [re.sub(r'[^\d.-]', '', s)] *)
Definition numeric_char (c : ascii) : bool :=
  is_digit c || Ascii.eqb c "." || Ascii.eqb c "-".

(** The loop [for line_num, line in enumerate(lines)]. *)
Fixpoint simple_kv_lines (lines : list string) (st : data_t * raw_t)
  : outcome (data_t * raw_t) :=
  match lines with
  | [] => Returns st
  | line :: lines' =>
      let line := strip line in
      if negb (nonempty line) || negb (contains ":" line)
      then simple_kv_lines lines' st
      else
        match split1 ":" line with
        | [parts0; parts1] =>
            let key := strip parts0 in
            let value_str := strip parts1 in
            st' <-
              try_except_ValueError
                (let value_str_clean := keep numeric_char value_str in
                 if negb (nonempty value_str_clean)
                 then Returns st
                 else
                   value <- float value_str_clean ;;
                   match _normalize_line_item key with
                   | Some standard_item =>
                       d <- setitem2 (fst st) "Current" standard_item
                              (extracted (Some value) line) ;;
                       r <- setitem2 (snd st) "Current"
                              (item_value standard_item) line ;;
                       Returns (d, r)
                   | None => Returns st
                   end)
                (Returns st) ;;
            simple_kv_lines lines' st'
        | _ => simple_kv_lines lines' st
        end
  end.

Definition _extract_simple_key_value (lines : list string) : outcome partial :=
  let data : data_t := [("Current", [])] in
  let raw_extracts : raw_t := [("Current", [])] in
  let warnings : list string := [] in
  st <- simple_kv_lines lines (data, raw_extracts) ;;
  Returns (fst st, snd st, warnings).

(** ** [extract] *)

(** [all(len(data.get(year, {})) == 0 for year in years)] *)
Definition all_empty (data : data_t) (years : list string) : bool :=
  forallb (fun year =>
             match get data year with
             | Some year_data => Nat.eqb (List.length year_data) 0
             | None => true
             end) years.

Definition extract (text : string) : outcome FinancialExtractionResult :=
  let lines := split "010" text in
  let years := _extract_years_from_table lines in
  let years := if truthy years then years else _extract_years text in
  currency <- _detect_currency text ;;
  unit <- _detect_unit text ;;
  let p0 : partial := ([], [], []) in
  p1 <-
    (if truthy years && Nat.leb 2 (List.length years) then
       p <- _extract_from_table lines years ;;
       let '(data, _, _) := p in
       if negb (truthy data) || all_empty data years
       then _extract_line_by_line text years
       else Returns p
     else Returns p0) ;;
  p2 <-
    (let '(data, _, _) := p1 in
     if negb (truthy data)
        || all_empty data (if truthy years then years else ["Current"])
     then _extract_simple_key_value lines
     else Returns p1) ;;
  let '(data, raw_extracts, warnings) := p2 in
  let missing_items := set_difference all_items (found_items data) in
  let warnings :=
    if truthy missing_items
    then warnings ++
           [("Missing items: " ++ join ", " (map item_value missing_items))
              %string]
    else warnings in
  Returns (MkResult "Pattern_Extracted" "" currency unit
             (if truthy data then MEDIUM else LOW)
             data warnings missing_items raw_extracts).

End PatternExtractor.

(* ================================================================== *)
(** * app/core/document_processor.py *)
(* ================================================================== *)

Module DocumentProcessor.

(** [_extract_financial_data]; [now] is [datetime.now().isoformat()].  The
    [try] block either returns the default engine's result or falls through
    to the fallback, also when it raised. *)
Definition _extract_financial_data (text filename now : string)
  : outcome FinancialExtractionResult :=
  returned <-
    try_except_Exception
      (result <- FreeExtractor.extract text ;;
       let result := set_document_name result filename in
       let result := set_extraction_date result now in
       if truthy (data result) && any_values (data result)
       then Returns (Some result)
       else Returns None)
      (Returns None) ;;
  match returned with
  | Some result => Returns result
  | None =>
      result <- PatternExtractor.extract text ;;
      let result := set_document_name result filename in
      let result := set_extraction_date result now in
      Returns result
  end.

End DocumentProcessor.

(* ================================================================== *)
(** * More of Python: paths, sorting, the truth of a float *)
(* ================================================================== *)

Module PyPath.

(** [s.rfind(c)] for a one-character [c]: the last index, or -1. *)
Fixpoint rfind_from (c : ascii) (s : string) (i : nat) (last : Z) : Z :=
  match s with
  | EmptyString => last
  | String d s' =>
      rfind_from c s' (S i) (if Ascii.eqb d c then Z.of_nat i else last)
  end.

Definition rfind (c : ascii) (s : string) : Z := rfind_from c s 0 (-1)%Z.

(** The loop of [genericpath._splitext] that skips the leading dots of the
    last component: is there a character other than a dot in [p[i:j]]? *)
Definition other_than_dots (p : string) (i j : nat) : bool :=
  negb (String.eqb (keep (fun c => negb (Ascii.eqb c ".")) (slice i j p))
                   EmptyString).

(** [os.path.splitext(p)] of [posixpath] *)
Definition splitext (p : string) : string * string :=
  let sepIndex := rfind "/" p in
  let dotIndex := rfind "." p in
  if (sepIndex <? dotIndex)%Z
     && other_than_dots p (Z.to_nat (sepIndex + 1)) (Z.to_nat dotIndex)
  then (slice 0 (Z.to_nat dotIndex) p,
        slice (Z.to_nat dotIndex) (String.length p) p)
  else (p, EmptyString).

(** [os.path.join(a, b)] of [posixpath] *)
Definition join (a b : string) : string :=
  if startswith "/" b then b
  else if negb (nonempty a) || endswith "/" a then (a ++ b)%string
  else (a ++ "/" ++ b)%string.

End PyPath.

Module PyBuiltins.

(** [sorted(l)] for a list of strings *)
Fixpoint insert (x : string) (l : list string) : list string :=
  match l with
  | [] => [x]
  | y :: l' => if String.ltb x y then x :: l else y :: insert x l'
  end.

Definition sorted (l : list string) : list string := fold_right insert [] l.

(** [bool(x)] for a float: zero is false, a NaN and the infinities are
    true. *)
Definition float_bool (x : pyfloat) : bool :=
  match x with
  | Fin q => negb (Qeq_bool q 0)
  | _ => true
  end.

End PyBuiltins.

(* ================================================================== *)
(** * app/utils/excel_generator.py *)
(* ================================================================== *)

Module ExcelGenerator.

(** [c.value] for the members of [Currency] and [Unit] *)
Definition currency_value (c : Currency) : string :=
  match c with
  | USD => "USD"
  | EUR => "EUR"
  | GBP => "GBP"
  | JPY => "JPY"
  | CNY => "CNY"
  | Currency_UNKNOWN => "UNKNOWN"
  end.

Definition unit_value (u : Unit) : string :=
  match u with
  | THOUSANDS => "thousands"
  | MILLIONS => "millions"
  | BILLIONS => "billions"
  | ACTUAL => "actual"
  | Unit_UNKNOWN => "UNKNOWN"
  end.

(** What a cell of a sheet holds: a string or a number. *)
Inductive cell : Type :=
| Text (s : string)
| Number (x : pyfloat).

(** A data frame: the column names and the rows. *)
Record frame : Type := MkFrame {
  columns : list cell;
  rows : list (list cell)
}.

(** [df.to_excel(writer, sheet_name=..., index=False)] *)
Definition sheet : Type := (string * frame)%type.

(** The cell of one item under one year: [value_obj.value if
    value_obj.value else 'N/A'] when [year in result.data and item in
    result.data[year]], else ['N/A']. *)
Definition cell_of (result : FinancialExtractionResult)
  (item : IncomeStatementItem) (year : string) : cell :=
  match get (data result) year with
  | Some year_data =>
      match get year_data item with
      | Some value_obj =>
          match value value_obj with
          | Some x => if PyBuiltins.float_bool x then Number x else Text "N/A"
          | None => Text "N/A"
          end
      | None => Text "N/A"
      end
  | None => Text "N/A"
  end.

(** [data_rows]: the header row, then one row for every item. *)
Definition data_rows (result : FinancialExtractionResult)
  : list (list cell) :=
  let years := PyBuiltins.sorted (keys (data result)) in
  let header := Text "Line Item" :: map Text years in
  header ::
  map (fun item => Text (item_value item) :: map (cell_of result item) years)
      all_items.

(** [pd.DataFrame(data_rows[1:], columns=data_rows[0])] *)
Definition financial_data (result : FinancialExtractionResult) : frame :=
  let data_rows := data_rows result in
  MkFrame (hd [] data_rows) (tl data_rows).

(** [pd.DataFrame(metadata)]: one row for every property.  The members of
    [Currency] and [Unit] are non-empty strings, hence true. *)
Definition metadata (result : FinancialExtractionResult) : frame :=
  MkFrame [Text "Property"; Text "Value"]
    [ [Text "Document Name"; Text (document_name result)];
      [Text "Extraction Date"; Text (extraction_date result)];
      [Text "Currency";
       Text (if nonempty (currency_value (currency result))
             then currency_value (currency result) else "Unknown")];
      [Text "Unit";
       Text (if nonempty (unit_value (unit result))
             then unit_value (unit result) else "Unknown")];
      [Text "Status"; Text "Success"] ].

Definition missing_data (result : FinancialExtractionResult) : frame :=
  MkFrame [Text "Missing Line Items"]
    (map (fun item => [Text (item_value item)]) (missing_items result)).

(** The sheets written inside the [with] block, in their order. *)
Definition sheets (result : FinancialExtractionResult) : list sheet :=
  [("Financial Data", financial_data result);
   ("Metadata", metadata result)]
  ++ (if truthy (missing_items result)
      then [("Missing Items", missing_data result)]
      else []).

(** [generate]; [write_workbook] stands for the writer of pandas, which may
    raise.  The error report of the handler is written to a file and leaves
    no trace in the result. *)
Definition generate
  (write_workbook : string -> list sheet -> outcome Datatypes.unit)
  (result : FinancialExtractionResult) (output_path : string)
  : outcome bool :=
  try_except_Exception
    (_ <- write_workbook output_path (sheets result) ;;
     Returns true)
    (Returns false).

End ExcelGenerator.

(* ================================================================== *)
(** * app/core/document_processor.py: from the file to the workbook *)
(* ================================================================== *)

Module Processor.

(** What the processor calls from outside: the readers of the document
    libraries, the clock, the generator of identifiers and the writer of
    workbooks.  An exception of a library is any [Raises]. *)
Record services : Type := MkServices {
  (** [page.extract_text()] for the pages of [pdfplumber.open(file_path)] *)
  pdf_pages : string -> outcome (list (option string));
  (** [paragraph.text] for the paragraphs of [Document(file_path)] *)
  docx_paragraphs : string -> outcome (list string);
  (** [open(file_path, 'r', encoding='utf-8', errors='ignore').read()] *)
  read_text : string -> outcome string;
  (** [str(uuid.uuid4())] *)
  uuid4 : string;
  (** [datetime.now().isoformat()] *)
  now : string;
  (** the [with pd.ExcelWriter(output_path)] block with its sheets *)
  write_workbook :
    string -> list ExcelGenerator.sheet -> outcome Datatypes.unit;
  (** [settings.output_dir] *)
  output_dir : string
}.

Section WithServices.
Variable sv : services.

(** The loop [for page in pdf.pages]. *)
Fixpoint pages_text (pages : list (option string)) (text : string) : string :=
  match pages with
  | [] => text
  | page_text :: pages' =>
      match page_text with
      | Some t =>
          if nonempty t then pages_text pages' (text ++ t ++ nl)%string
          else pages_text pages' text
      | None => pages_text pages' text
      end
  end.

Definition _extract_from_pdf (file_path : string) : outcome string :=
  pages <- pdf_pages sv file_path ;;
  Returns (pages_text pages EmptyString).

Definition _extract_from_docx (file_path : string) : outcome string :=
  paragraphs <- docx_paragraphs sv file_path ;;
  Returns (Py.join nl paragraphs).

Definition _extract_from_txt (file_path : string) : outcome string :=
  read_text sv file_path.

Definition _extract_text (file_path filename : string)
  : outcome (option string) :=
  let file_ext := lower (snd (PyPath.splitext filename)) in
  try_except_Exception
    (if String.eqb file_ext ".pdf" then
       text <- _extract_from_pdf file_path ;; Returns (Some text)
     else if String.eqb file_ext ".docx" then
       text <- _extract_from_docx file_path ;; Returns (Some text)
     else if String.eqb file_ext ".txt" then
       text <- _extract_from_txt file_path ;; Returns (Some text)
     else Returns None)
    (Returns None).

(** [not text] for an optional string *)
Definition no_text (text : option string) : bool :=
  match text with
  | Some t => negb (nonempty t)
  | None => true
  end.

(** [process_document]; past [if not text] the text is a string. *)
Definition process_document (file_path filename : string)
  : outcome (option string) :=
  try_except_Exception
    (text <- _extract_text file_path filename ;;
     if no_text text then Returns None
     else
       let text := match text with Some t => t | None => EmptyString end in
       extraction_result <-
         DocumentProcessor._extract_financial_data text filename (now sv) ;;
       let output_filename := (uuid4 sv ++ "_extraction.xlsx")%string in
       let output_path := PyPath.join (output_dir sv) output_filename in
       _ <- ExcelGenerator.generate (write_workbook sv)
              extraction_result output_path ;;
       Returns (Some output_filename))
    (Returns None).

End WithServices.

End Processor.

(* ================================================================== *)
(** * app/api/routes.py: upload, extraction and its task *)
(* ================================================================== *)

Module Routes.

Inductive ExtractionStatus : Type := PENDING | PROCESSING | COMPLETED | FAILED.

(** An entry of [processing_tasks]; the keys "output_file" and "message"
    are absent until the task sets them. *)
Record task : Type := MkTask {
  status : ExtractionStatus;
  file_id : string;
  file_path : string;
  original_filename : string;
  output_file : option string;
  message : option string
}.

Definition tasks_t : Type := dict string task.

Record ExtractionResponse : Type := MkResponse {
  r_task_id : string;
  r_status : ExtractionStatus;
  r_message : option string;
  r_output_file : option string
}.

(** What a route gives: a response, [raise HTTPException(status_code,
    detail)], or an exception that no handler of the route catches. *)
Inductive http (A : Type) : Type :=
| Ok (a : A)
| HTTPException (status_code : nat) (detail : string)
| Unhandled.
Arguments Ok {A} a.
Arguments HTTPException {A} status_code detail.
Arguments Unhandled {A}.

(** The defaults of [settings]: [allowed_extensions], [upload_dir],
    [max_file_size]. *)
Definition allowed_extensions : list string := [".pdf"; ".docx"; ".txt"].
Definition upload_dir : string := "uploads".
Definition max_file_size : Z := (10 * 1024 * 1024)%Z.

Inductive DocumentType : Type := PDF | DOCX | TXT.

(** [DocumentType(v)], as the response model validates its field *)
Definition DocumentType_of_value (v : string) : option DocumentType :=
  if String.eqb v "pdf" then Some PDF
  else if String.eqb v "docx" then Some DOCX
  else if String.eqb v "txt" then Some TXT
  else None.

Record UploadResponse : Type := MkUpload {
  u_filename : string;
  u_file_id : string;
  u_document_type : DocumentType;
  u_size : Z;
  u_upload_time : string;
  u_message : string
}.

(** [upload_document] for an upload named [filename] of [file_size] bytes;
    [save] is the copy of the upload to a path, [new_id] is
    [str(uuid.uuid4())] and [now] is [datetime.now()]. *)
Definition upload_document (save : string -> outcome Datatypes.unit)
  (new_id now : string) (filename : string) (file_size : Z)
  : http UploadResponse :=
  let file_ext := lower (snd (PyPath.splitext filename)) in
  if negb (existsb (String.eqb file_ext) allowed_extensions) then
    HTTPException 400
      ("File type " ++ file_ext
       ++ " not allowed. Allowed types: ['.pdf', '.docx', '.txt']")
  else if (max_file_size <? file_size)%Z then
    HTTPException 400 "File too large. Max size: 10485760 bytes"
  else
    let file_id := new_id in
    let safe_filename := (file_id ++ file_ext)%string in
    let file_path := PyPath.join upload_dir safe_filename in
    match save file_path with
    | Raises _ => HTTPException 500 "Failed to save file"
    | Returns _ =>
        match
          DocumentType_of_value
            (slice 1 (String.length file_ext) file_ext)
        with
        | Some document_type =>
            Ok (MkUpload filename file_id document_type file_size now
                  "File uploaded successfully")
        | None => Unhandled
        end
    end.

(** The loop [for ext in settings.allowed_extensions]; [exists_] is
    [os.path.exists]. *)
Fixpoint find_file (exists_ : string -> bool) (file_id : string)
  (exts : list string) : option (string * string) :=
  match exts with
  | [] => None
  | ext :: exts' =>
      let potential_path := PyPath.join upload_dir (file_id ++ ext) in
      if exists_ potential_path
      then Some (potential_path, ("document" ++ ext)%string)
      else find_file exists_ file_id exts'
  end.

(** The arguments of a scheduled [process_document_task]. *)
Definition scheduled : Type := (string * string * string)%type.

(** [extract_document]; [new_id] is [str(uuid.uuid4())].  Returns the tasks,
    the response and the call handed to the background tasks. *)
Definition extract_document (exists_ : string -> bool) (new_id : string)
  (processing_tasks : tasks_t) (file_id : string)
  : http (tasks_t * ExtractionResponse * scheduled) :=
  match find_file exists_ file_id allowed_extensions with
  | Some (file_path, original_filename) =>
      if negb (nonempty file_path)
      then HTTPException 404 "File not found"
      else
        let task_id := new_id in
        let processing_tasks :=
          setitem processing_tasks task_id
            (MkTask PENDING file_id file_path original_filename None None) in
        Ok (processing_tasks,
            MkResponse task_id PENDING (Some "Extraction started") None,
            (task_id, file_path, original_filename))
  | None => HTTPException 404 "File not found"
  end.

Definition get_extraction_status (processing_tasks : tasks_t)
  (task_id : string) : http ExtractionResponse :=
  match get processing_tasks task_id with
  | None => HTTPException 404 "Task not found"
  | Some task =>
      Ok (MkResponse task_id (status task) (message task) (output_file task))
  end.

(** [processing_tasks[task_id]["status"] = s] *)
Definition set_status (processing_tasks : tasks_t) (task_id : string)
  (s : ExtractionStatus) : outcome tasks_t :=
  task <- getitem processing_tasks task_id ;;
  Returns (setitem processing_tasks task_id
             (MkTask s (file_id task) (file_path task)
                (original_filename task) (output_file task) (message task))).

(** [processing_tasks[task_id].update({...})] with the keys given *)
Definition update (processing_tasks : tasks_t) (task_id : string)
  (s : ExtractionStatus) (out : option string) (msg : string)
  : outcome tasks_t :=
  task <- getitem processing_tasks task_id ;;
  Returns (setitem processing_tasks task_id
             (MkTask s (file_id task) (file_path task)
                (original_filename task)
                (match out with
                 | Some f => Some f
                 | None => output_file task
                 end)
                (Some msg))).

(** [process_document_task].  The tasks are a global: the handler sees them
    as the body left them.  [describe e] is [str(e)]. *)
Definition process_document_task (sv : Processor.services)
  (describe : exn -> string)
  (processing_tasks : tasks_t) (task_id file_path original_filename : string)
  : outcome tasks_t :=
  let handler (processing_tasks : tasks_t) (e : exn) :=
    update processing_tasks task_id FAILED None
      ("Processing error: " ++ describe e) in
  match set_status processing_tasks task_id PROCESSING with
  | Raises e => handler processing_tasks e
  | Returns processing_tasks =>
      match
        output_filename <-
          Processor.process_document sv file_path original_filename ;;
        match output_filename with
        | Some f =>
            if nonempty f then
              update processing_tasks task_id COMPLETED (Some f)
                "Extraction completed successfully"
            else
              update processing_tasks task_id FAILED None
                "Failed to extract data from document"
        | None =>
            update processing_tasks task_id FAILED None
              "Failed to extract data from document"
        end
      with
      | Raises e => handler processing_tasks e
      | Returns processing_tasks => Returns processing_tasks
      end
  end.

End Routes.

(** ** A setting for the examples *)

Module Setting.

(** Services with a one-page PDF, an empty DOCX and an empty text file; the
    writer of workbooks fails. *)
Definition one_page_pdf : Processor.services :=
  Processor.MkServices
    (fun _ => Returns [Some "Revenue: 10"])
    (fun _ => Returns [])
    (fun _ => Returns EmptyString)
    "0f8fad5b"
    "2024-01-01T00:00:00"
    (fun _ _ => Raises ValueError)
    "outputs".

(** A file system that holds one upload. *)
Definition one_upload (path : string) : bool :=
  String.eqb path "uploads/7.pdf".

End Setting.

(* ================================================================== *)
(** * Notions used to state the properties *)
(* ================================================================== *)

Module Sem.

(** The words of [L*]. *)
Inductive star_lang (L : string -> Prop) : string -> Prop :=
| star_nil : star_lang L EmptyString
| star_cons (w1 w2 : string) :
    L w1 -> star_lang L w2 -> star_lang L (w1 ++ w2)%string.

(** The words a pattern can consume, whatever the context. *)
Fixpoint lang (r : regex) (w : string) : Prop :=
  match r with
  | Eps => w = EmptyString
  | Chr p => exists c, p c = true /\ w = String c EmptyString
  | Seq r1 r2 =>
      exists w1 w2, w = (w1 ++ w2)%string /\ lang r1 w1 /\ lang r2 w2
  | Alt r1 r2 => lang r1 w \/ lang r2 w
  | Star _ r1 => star_lang (lang r1) w
  | Group _ r1 => lang r1 w
  | Bol => w = EmptyString
  | Eol => w = EmptyString
  end.

(** Strings of decimal digits. *)
Fixpoint all_digits (s : string) : bool :=
  match s with
  | EmptyString => true
  | String c s' => is_digit c && all_digits s'
  end.

(** Strings without a given character. *)
Fixpoint lacks (c : ascii) (s : string) : bool :=
  match s with
  | EmptyString => true
  | String d s' => negb (Ascii.eqb d c) && lacks c s'
  end.

Fixpoint no_space (s : string) : bool :=
  match s with
  | EmptyString => true
  | String c s' => negb (is_space c) && no_space s'
  end.

(** What follows the integer digits of a plain decimal numeral: nothing, or
    a point and digits. *)
Definition fraction_part (fp' : string) : Prop :=
  fp' = EmptyString \/
  exists fp, fp' = String "." fp /\ all_digits fp = true.


(** ** Statements about results *)

(** [missing_items] is the universe without the items found under any
    period. *)
Definition missing_items_ok (r : FinancialExtractionResult) : Prop :=
  NoDup (missing_items r) /\
  forall i : IncomeStatementItem,
    In i (missing_items r) <->
    ~ exists period year_data,
        In (period, year_data) (data r) /\ In i (keys year_data).

(** [v2023], [v2022] were read from [line] by the default engine's table
    method for [item]: the line names the item, and the values are its first
    and second number, HIGH, with the line as provenance. *)
Definition table_row (line : string) (item : IncomeStatementItem)
  (v2023 v2022 : ExtractedValue) : Prop :=
  exists item_text n0 n1 rest x0 x1,
    In (item_text, item) FreeExtractor.item_mapping /\
    contains item_text line = true /\
    findall1 FreeExtractor.table_number_re line = n0 :: n1 :: rest /\
    FreeExtractor._parse_number n0 = Returns x0 /\
    FreeExtractor._parse_number n1 = Returns x1 /\
    v2023 = FreeExtractor.high x0 line /\
    v2022 = FreeExtractor.high x1 line.

(** What the default engine's table method may hold for the lines of a
    document: every item is absent from both periods, or was read for both
    from one line. *)
Definition table_data_ok (lines : list string) (d2023 d2022 : period_data)
  : Prop :=
  forall item : IncomeStatementItem,
    (get d2023 item = None /\ get d2022 item = None) \/
    exists line v1 v2,
      In line (map strip lines) /\
      get d2023 item = Some v1 /\ get d2022 item = Some v2 /\
      table_row line item v1 v2.


(** ** Statements about the normalizer *)

(** Entry [i] of the table is the first whose phrase occurs in [t]. *)
Definition first_hit (table : list (string * IncomeStatementItem))
  (t : string) (i : nat) (phrase : string) (item : IncomeStatementItem)
  : Prop :=
  nth_error table i = Some (phrase, item) /\
  contains phrase t = true /\
  forall j phrase' item',
    j < i -> nth_error table j = Some (phrase', item') ->
    contains phrase' t = false.

(** No phrase of the table occurs in [t]. *)
Definition no_hit (table : list (string * IncomeStatementItem)) (t : string)
  : Prop :=
  forall phrase item, In (phrase, item) table -> contains phrase t = false.

(** The table lookup as the specification words it: the first entry whose
    phrase is a substring of the label, or whose label is a substring of the
    phrase. *)
Fixpoint lookup_either_way (table : list (string * IncomeStatementItem))
  (label : string) : option IncomeStatementItem :=
  match table with
  | [] => None
  | (phrase, item) :: table' =>
      if contains phrase label || contains label phrase then Some item
      else lookup_either_way table' label
  end.

(** The normalizer as the specification words it. *)
Definition normalize_either_way (text : string) : option IncomeStatementItem :=
  let label := strip (lower text) in
  match lookup_either_way mappings label with
  | Some item => Some item
  | None =>
      if contains "r&d" label || contains "research" label then Some RND
      else if contains "sg&a" label || contains "selling" label then Some SGNA
      else None
  end.


(** ** Auxiliary notions of the proofs and the scenarios *)

(** What a successful run of a matcher tells: a word of [L] was consumed and
    the continuation succeeded on the rest. *)
Definition sound_for {A : Type} (L : string -> Prop)
  (run : string -> nat -> captures -> @cont A -> option A) : Prop :=
  forall rest pos caps k x,
    run rest pos caps k = Some x ->
    exists w rest' caps',
      rest = (w ++ rest')%string /\ L w /\
      k rest' (pos + String.length w) caps' = Some x.

(** The state of the table loop: both periods are present throughout. *)
Definition table_state (a b : period_data) (ra rb : dict string string)
  : data_t * raw_t :=
  ([("2023", a); ("2022", b)], [("2023", ra); ("2022", rb)]).

(** The only exception a computation can raise is [ValueError]. *)
Definition only_ValueError {A} (c : outcome A) : Prop :=
  forall e, c = Raises e -> e = ValueError.

(** [r] matches at the start of a string exactly when one of [ws] is a
    prefix of it, provided what follows the pattern succeeds. *)
Definition recognizes (r : regex) (ws : list string) : Prop :=
  forall (rest : string) (pos : nat) (caps : captures)
         (k : @cont rmatch_obj),
    (forall r' p c, PatternExtractor.is_some (k r' p c) = true) ->
    PatternExtractor.is_some (rmatch r rest pos caps k)
    = existsb (fun w => startswith w rest) ws.

(** The document of the table scenario and its row. *)
Definition table_scenario : list string :=
  ["2022 2023"; "Revenue $1,100.2 $1,234.5"].

(** The key-value scenario. *)
Definition key_value_scenario : string :=
  ("Revenue: 1234.5" ++ nl ++ "Net Income: 88.1")%string.

(** A document whose years stand on separate lines. *)
Definition separate_years_scenario : string :=
  ("Fiscal 2022" ++ nl ++ "Fiscal 2023" ++ nl ++ "Revenue 100 200")%string.

End Sem.

Import Sem.

(* ================================================================== *)
(** * Notions used to state the further properties *)
(* ================================================================== *)

Module Props.

(** [data[period][item]] exists and is [v]. *)
Definition entry (d : data_t) (period : string) (item : IncomeStatementItem)
  (v : ExtractedValue) : Prop :=
  exists year_data,
    get d period = Some year_data /\ get year_data item = Some v.

(** [v] was read by the default engine's key-value method from [line] for
    [item]: the text before the first colon is, trimmed, a key of
    [key_mapping], and the value is the first number after the colon. *)
Definition key_value_row (line : string) (item : IncomeStatementItem)
  (v : ExtractedValue) : Prop :=
  exists parts0 parts1 n0 rest x,
    split1 ":" line = [parts0; parts1] /\
    get FreeExtractor.key_mapping (strip parts0) = Some item /\
    findall1 FreeExtractor.kv_number_re (strip parts1) = n0 :: rest /\
    float n0 = Returns x /\
    v = FreeExtractor.high x line.

(** Every entry of the period "Current" was read from a line. *)
Definition key_value_data_ok (lines : list string) (c : period_data) : Prop :=
  forall item v,
    get c item = Some v ->
    exists line, In line lines /\ key_value_row line item v.

(** Patterns without capturing groups. *)
Fixpoint group_free (r : regex) : bool :=
  match r with
  | Seq r1 r2 | Alt r1 r2 => group_free r1 && group_free r2
  | Star _ r1 => group_free r1
  | Group _ _ => false
  | _ => true
  end.

(** A successful run consumed a word of [L] and left the groups as they
    were. *)
Definition keeps_groups {A : Type} (L : string -> Prop)
  (run : string -> nat -> captures -> @cont A -> option A) : Prop :=
  forall rest pos caps k x,
    run rest pos caps k = Some x ->
    exists w rest',
      rest = (w ++ rest')%string /\ L w /\
      k rest' (pos + String.length w) caps = Some x.

(** Strings of whitespace. *)
Fixpoint all_space (s : string) : bool :=
  match s with
  | EmptyString => true
  | String c s' => is_space c && all_space s'
  end.

(** The years of a table header: 20dd. *)
Definition header_year (y : string) : Prop :=
  exists d, y = ("20" ++ d)%string /\ all_digits d = true /\
            String.length d = 2.

(** [v1], [v0] were read from [line] by the pattern engine's table method
    for [item]: the line is a label, blanks, the first number, blanks and
    the second number, each number with an optional dollar sign before it;
    the label names the item, [v1] holds the first number and [v0] the
    second, HIGH, with the line as provenance. *)
Definition pattern_table_row (line : string) (item : IncomeStatementItem)
  (v1 v0 : ExtractedValue) : Prop :=
  exists m ws1 c1 ws2 c2 val1 val0,
    search PatternExtractor.row_pattern line = Some m /\
    line = (group 1 m ++ ws1 ++ c1 ++ group 2 m
            ++ ws2 ++ c2 ++ group 3 m)%string /\
    (all_space ws1 = true /\ ws1 <> EmptyString) /\
    (all_space ws2 = true /\ ws2 <> EmptyString) /\
    (c1 = EmptyString \/ c1 = "$") /\ (c2 = EmptyString \/ c2 = "$") /\
    lang PatternExtractor.number_token (group 2 m) /\
    lang PatternExtractor.number_token (group 3 m) /\
    _normalize_line_item (strip (group 1 m)) = Some item /\
    PatternExtractor._parse_number (group 2 m) = Returns val1 /\
    PatternExtractor._parse_number (group 3 m) = Returns val0 /\
    v1 = PatternExtractor.extracted val1 line /\
    v0 = PatternExtractor.extracted val0 line.

(** What the pattern engine's table method may hold under the periods [y0]
    and [y1]: every item is absent from both, or was read for both from one
    line. *)
Definition pattern_table_ok (lines : list string) (d0 d1 : period_data)
  : Prop :=
  forall item : IncomeStatementItem,
    (get d1 item = None /\ get d0 item = None) \/
    exists line v1 v0,
      In line (map strip lines) /\
      get d1 item = Some v1 /\ get d0 item = Some v0 /\
      pattern_table_row line item v1 v0.

(** [v] was read from [line] by the pattern engine's simple key-value
    method for [item]: the line splits at its first colon into a key that
    names the item and a value text; [v] holds [float] of the digits, points
    and minus signs of the value text, in their order, and the line as
    provenance. *)
Definition simple_kv_row (line : string) (item : IncomeStatementItem)
  (v : ExtractedValue) : Prop :=
  exists parts0 parts1 x,
    split1 ":" line = [parts0; parts1] /\
    _normalize_line_item (strip parts0) = Some item /\
    float (keep PatternExtractor.numeric_char (strip parts1)) = Returns x /\
    v = PatternExtractor.extracted (Some x) line.

Definition simple_kv_ok (lines : list string) (c : period_data) : Prop :=
  forall item v, get c item = Some v ->
    exists line, In line (map strip lines) /\ simple_kv_row line item v.

(** Every entry of the data satisfies [P]. *)
Definition all_entries (P : ExtractedValue -> Prop) (d : data_t) : Prop :=
  forall period year_data item v,
    get d period = Some year_data -> get year_data item = Some v -> P v.

(** A value marked HIGH, without a note, with a provenance text. *)
Definition marked_high (v : ExtractedValue) : Prop :=
  confidence v = HIGH /\ notes v = None /\
  exists t, original_text v = Some t.

(** The years the pattern engine calls recent. *)
Definition recent : list string :=
  ["2020"; "2021"; "2022"; "2023"; "2024"; "2025"].





(** [v] was read by the pattern engine's context-window method for [item]
    and [year] in [context]: a variation of the item's name occurs in the
    context, in any case of the letters, followed on the same line by a
    number token; the provenance is the text from the variation to the
    token, the value is the token's number, and the year or a recent year
    stands within fifty characters of that text. *)
Definition line_item_hit (context year : string) (item : IncomeStatementItem)
  (v : ExtractedValue) : Prop :=
  exists variation m x pre name gap post,
    In variation (PatternExtractor._get_item_variations item) /\
    search (PatternExtractor.line_item_pattern variation) context = Some m /\
    context = (pre ++ name ++ gap ++ group 1 m ++ post)%string /\
    lower name = lower variation /\
    lacks "010" gap = true /\
    lang PatternExtractor.number_token (group 1 m) /\
    group0 context m = (name ++ gap ++ group 1 m)%string /\
    PatternExtractor._parse_number (group 1 m) = Returns (Some x) /\
    (let surrounding_text :=
       slice (m_start m - 50)
             (Nat.min (String.length context) (m_end m + 50)) context in
     contains year surrounding_text = true \/
     PatternExtractor._is_recent_year surrounding_text = Returns true) /\
    v = MkExtractedValue (Some x) (Some (group0 context m)) HIGH None.

End Props.

Import Props.

(* ================================================================== *)
(** * Strings *)
(* ================================================================== *)

(** Rewrite a call [f x y] of the goal with an equation [f a b = _] that
    writes the same arguments with other names for their types. *)
Ltac rewrite_call f E :=
  match type of E with
  | f ?a ?b = _ =>
      match goal with
      | |- context [f ?x ?y] => change (f x y) with (f a b)
      end
  end;
  rewrite E.

Section StringFacts.

Lemma append_nil_r (s : string) : (s ++ "")%string = s.
Proof. induction s as [|c s IH]; simpl; [reflexivity | now rewrite IH]. Qed.

Lemma append_assoc (a b c : string) :
  ((a ++ b) ++ c)%string = (a ++ (b ++ c))%string.
Proof. induction a as [|x a IH]; simpl; [reflexivity | now rewrite IH]. Qed.

Lemma length_append (a b : string) :
  String.length (a ++ b) = String.length a + String.length b.
Proof. induction a as [|x a IH]; simpl; [reflexivity | now rewrite IH]. Qed.

Lemma substring_prefix (w rest : string) :
  String.substring 0 (String.length w) (w ++ rest) = w.
Proof.
  induction w as [|c w IH]; simpl.
  - destruct rest; reflexivity.
  - now rewrite IH.
Qed.

End StringFacts.

(* ================================================================== *)
(** * Soundness of the matcher *)
(* ================================================================== *)

Section MatcherSound.
Context {A : Type}.

Lemma first_of_some (a b : option A) (x : A) :
  first_of a b = Some x -> a = Some x \/ b = Some x.
Proof. destruct a; simpl; auto. Qed.

Lemma star_loop_sound (L : string -> Prop)
  (step : string -> nat -> captures -> @cont A -> option A) greedy :
  sound_for L step ->
  forall fuel,
    sound_for (star_lang L)
      (fun rest pos caps k => star_loop step greedy k fuel rest pos caps).
Proof.
  intros Hstep fuel.
  induction fuel as [|fuel IH]; intros rest pos caps k0 x H.
  - simpl in H. exists EmptyString, rest, caps.
    rewrite Nat.add_0_r. repeat split; auto. constructor.
  - simpl in H.
    assert (Hcases :
      step rest pos caps
        (fun rest' pos' caps' =>
           if Nat.ltb pos pos'
           then star_loop step greedy k0 fuel rest' pos' caps'
           else None) = Some x
      \/ k0 rest pos caps = Some x).
    { destruct greedy; apply first_of_some in H; tauto. }
    destruct Hcases as [Hstep1 | Hk].
    + apply Hstep in Hstep1.
      destruct Hstep1 as (w1 & rest1 & caps1 & -> & HL & Hnext).
      destruct (Nat.ltb pos (pos + String.length w1)); [|discriminate].
      apply IH in Hnext.
      destruct Hnext as (w2 & rest2 & caps2 & -> & HL2 & Hk).
      exists (w1 ++ w2)%string, rest2, caps2.
      rewrite append_assoc, length_append, Nat.add_assoc.
      repeat split; auto. now constructor.
    + exists EmptyString, rest, caps.
      rewrite Nat.add_0_r. repeat split; auto. constructor.
Qed.

Lemma rmatch_sound (r : regex) : sound_for (A := A) (lang r) (rmatch r).
Proof.
  induction r as [|p|r1 IH1 r2 IH2|r1 IH1 r2 IH2|g r1 IH1|n r1 IH1| |];
    intros rest pos caps k x H; simpl in H.
  - exists EmptyString, rest, caps. rewrite Nat.add_0_r. simpl. auto.
  - destruct rest as [|c rest']; [discriminate|].
    destruct (p c) eqn:Hp; [|discriminate].
    exists (String c EmptyString), rest', caps. simpl.
    rewrite Nat.add_1_r. repeat split; eauto.
  - apply IH1 in H. destruct H as (w1 & rest1 & caps1 & -> & HL1 & H).
    apply IH2 in H. destruct H as (w2 & rest2 & caps2 & -> & HL2 & H).
    exists (w1 ++ w2)%string, rest2, caps2.
    rewrite append_assoc, length_append, Nat.add_assoc.
    repeat split; auto. simpl. eauto.
  - apply first_of_some in H. destruct H as [H | H].
    + apply IH1 in H. destruct H as (w & rest' & caps' & -> & HL & H).
      exists w, rest', caps'. simpl. auto.
    + apply IH2 in H. destruct H as (w & rest' & caps' & -> & HL & H).
      exists w, rest', caps'. simpl. auto.
  - apply (star_loop_sound (lang r1) (rmatch r1) g IH1) in H.
    exact H.
  - apply IH1 in H. destruct H as (w & rest' & caps' & -> & HL & H).
    eexists w, rest', _. simpl. repeat split; eauto.
  - destruct (Nat.eqb pos 0); [|discriminate].
    exists EmptyString, rest, caps. rewrite Nat.add_0_r. simpl. auto.
  - assert (Hk : k rest pos caps = Some x).
    { destruct rest as [|c [|d rest']]; auto.
      - destruct c as [[] [] [] [] [] [] [] []]; try discriminate; auto.
      - destruct c as [[] [] [] [] [] [] [] []]; discriminate. }
    exists EmptyString, rest, caps. rewrite Nat.add_0_r. simpl. auto.
Qed.

End MatcherSound.

(* ================================================================== *)
(** * Tokens found by a pattern *)
(* ================================================================== *)

Section Tokens.

Lemma search_from_match_at (r : regex) (rest : string) :
  forall pos m,
    search_from r rest pos = Some m ->
    exists rest' pos', match_at r rest' pos' = Some m.
Proof.
  induction rest as [|c rest IH]; intros pos m H; simpl in H.
  - destruct (match_at r EmptyString pos) eqn:E; [|discriminate].
    inversion H; subst. eauto.
  - destruct (match_at r (String c rest) pos) eqn:E.
    + inversion H; subst. eauto.
    + eauto.
Qed.

Lemma matches_from_match_at (r : regex) (fuel : nat) :
  forall rest pos m,
    In m (matches_from fuel r rest pos) ->
    exists rest' pos', match_at r rest' pos' = Some m.
Proof.
  induction fuel as [|fuel IH]; intros rest pos m H; simpl in H.
  - contradiction.
  - destruct (search_from r rest pos) as [m0|] eqn:E; [|contradiction].
    destruct H as [<- | H].
    + eapply search_from_match_at; eauto.
    + eapply IH; eauto.
Qed.

Lemma get_set_group (n : nat) (w : string) (caps : captures) :
  get_group n (set_group n w caps) = Some w.
Proof.
  induction caps as [|[m v] caps IH]; simpl.
  - now rewrite Nat.eqb_refl.
  - destruct (Nat.eqb m n) eqn:E; simpl; rewrite E; auto.
Qed.

(** The text of group 1 of a pattern [pre(body)] is a word of [body]. *)
Lemma match_at_group1 (pre body : regex) (rest : string) (pos : nat)
  (m : rmatch_obj) :
  match_at (Seq pre (Group 1 body)) rest pos = Some m ->
  lang body (group 1 m).
Proof.
  unfold match_at. simpl. intros H.
  apply rmatch_sound in H.
  destruct H as (w1 & rest1 & caps1 & -> & _ & H).
  apply rmatch_sound in H.
  destruct H as (w2 & rest2 & caps2 & -> & HL & H).
  inversion H; subst; clear H.
  unfold group; simpl.
  replace (pos + String.length w1 + String.length w2
           - (pos + String.length w1)) with (String.length w2) by lia.
  now rewrite substring_prefix, get_set_group.
Qed.

Lemma findall1_lang (pre body : regex) (s tok : string) :
  In tok (findall1 (Seq pre (Group 1 body)) s) -> lang body tok.
Proof.
  unfold findall1, finditer. intros H.
  apply in_map_iff in H. destruct H as (m & <- & H).
  apply matches_from_match_at in H. destruct H as (rest & pos & H).
  eapply match_at_group1; eauto.
Qed.

End Tokens.

(* ================================================================== *)
(** * [float] on plain decimal numerals *)
(* ================================================================== *)

Section FloatFacts.

Lemma digit_not_space (c : ascii) : is_digit c = true -> is_space c = false.
Proof.
  unfold is_digit, is_space, in_range. intros H.
  apply andb_true_iff in H. destruct H as [H1 H2].
  apply Nat.leb_le in H1. apply Nat.leb_le in H2.
  apply orb_false_iff; split; apply andb_false_iff.
  - right. apply Nat.leb_gt. lia.
  - right. apply Nat.leb_gt. lia.
Qed.

Lemma digit_neq (c d : ascii) :
  is_digit c = true -> is_digit d = false -> Ascii.eqb c d = false.
Proof.
  intros Hc Hd. destruct (Ascii.eqb c d) eqn:E; [|reflexivity].
  apply Ascii.eqb_eq in E. subst. congruence.
Qed.

Lemma all_digits_app (a b : string) :
  all_digits (a ++ b) = all_digits a && all_digits b.
Proof.
  induction a as [|c a IH]; simpl; [reflexivity|].
  now rewrite IH, andb_assoc.
Qed.

Lemma no_space_app (a b : string) :
  no_space (a ++ b) = no_space a && no_space b.
Proof.
  induction a as [|c a IH]; simpl; [reflexivity|].
  now rewrite IH, andb_assoc.
Qed.

Lemma lacks_app (c : ascii) (a b : string) :
  lacks c (a ++ b) = lacks c a && lacks c b.
Proof.
  induction a as [|d a IH]; simpl; [reflexivity|].
  now rewrite IH, andb_assoc.
Qed.

Lemma all_digits_no_space (s : string) :
  all_digits s = true -> no_space s = true.
Proof.
  induction s as [|c s IH]; simpl; [reflexivity|].
  intros H. apply andb_true_iff in H. destruct H as [Hc Hs].
  now rewrite (digit_not_space c Hc), IH.
Qed.

Lemma all_digits_lacks (c : ascii) (s : string) :
  is_digit c = false -> all_digits s = true -> lacks c s = true.
Proof.
  intros Hc. induction s as [|d s IH]; simpl; [reflexivity|].
  intros H. apply andb_true_iff in H. destruct H as [Hd Hs].
  now rewrite (digit_neq d c Hd Hc), IH.
Qed.

Lemma lstrip_no_space (s : string) : no_space s = true -> lstrip s = s.
Proof.
  destruct s as [|c s]; simpl; [reflexivity|].
  intros H. apply andb_true_iff in H. destruct H as [Hc _].
  apply negb_true_iff in Hc. now rewrite Hc.
Qed.

Lemma rstrip_no_space (s : string) : no_space s = true -> rstrip s = s.
Proof.
  induction s as [|c s IH]; simpl; [reflexivity|].
  intros H. apply andb_true_iff in H. destruct H as [Hc Hs].
  apply negb_true_iff in Hc. rewrite (IH Hs), Hc.
  destruct s; reflexivity.
Qed.

Lemma strip_no_space (s : string) : no_space s = true -> strip s = s.
Proof.
  intros H. unfold strip. now rewrite (lstrip_no_space s H), rstrip_no_space.
Qed.

Lemma strip_underscores_lacks (s : string) :
  lacks "_" s = true ->
  forall prev, is_underscore prev = false ->
    strip_underscores prev s = Some s.
Proof.
  induction s as [|c s IH]; simpl; intros H prev Hp.
  - now rewrite Hp.
  - apply andb_true_iff in H. destruct H as [Hc Hs].
    apply negb_true_iff in Hc. rewrite Hc, Hp. simpl.
    rewrite (IH Hs (Some c) Hc). reflexivity.
Qed.

Lemma remove_char_app (c : ascii) (a b : string) :
  remove_char c (a ++ b) = (remove_char c a ++ remove_char c b)%string.
Proof.
  induction a as [|d a IH]; simpl; [reflexivity|].
  destruct (Ascii.eqb d c); simpl; now rewrite IH.
Qed.

Lemma remove_char_lacks (c : ascii) (s : string) :
  lacks c s = true -> remove_char c s = s.
Proof.
  induction s as [|d s IH]; simpl; [reflexivity|].
  intros H. apply andb_true_iff in H. destruct H as [Hd Hs].
  apply negb_true_iff in Hd. now rewrite Hd, IH.
Qed.

(** [span_digits] stops where the digits stop. *)
Lemma span_digits_app (ip r : string) :
  all_digits ip = true ->
  match r with
  | EmptyString => True
  | String c _ => is_digit c = false
  end ->
  span_digits (ip ++ r) = (ip, r).
Proof.
  intros Hip Hr. induction ip as [|c ip IH]; simpl.
  - destruct r as [|c r]; simpl; [reflexivity | now rewrite Hr].
  - simpl in Hip. apply andb_true_iff in Hip. destruct Hip as [Hc Hip].
    now rewrite Hc, (IH Hip).
Qed.

Lemma parse_decimal_plain (ip fp' : string) :
  all_digits ip = true -> ip <> EmptyString -> fraction_part fp' ->
  exists q, parse_decimal (ip ++ fp') = Some q.
Proof.
  intros Hip Hne Hfp. unfold parse_decimal.
  destruct ip as [|c ip]; [congruence|].
  destruct Hfp as [-> | (fp & -> & Hfp)].
  - rewrite (span_digits_app (String c ip) EmptyString Hip I).
    simpl. eauto.
  - rewrite (span_digits_app (String c ip) (String "." fp) Hip eq_refl).
    replace (Ascii.eqb "." ".") with true by reflexivity.
    pose proof (span_digits_app fp EmptyString Hfp I) as E.
    rewrite append_nil_r in E. rewrite E. simpl. eauto.
Qed.

Lemma float_plain (ip fp' : string) :
  all_digits ip = true -> ip <> EmptyString -> fraction_part fp' ->
  exists q, float (ip ++ fp') = Returns (Fin q).
Proof.
  intros Hip Hne Hfp.
  assert (Hns : no_space (ip ++ fp') = true).
  { rewrite no_space_app, (all_digits_no_space ip Hip).
    destruct Hfp as [-> | (fp & -> & Hfp)]; simpl; auto.
    now apply all_digits_no_space. }
  assert (Hu : lacks "_" (ip ++ fp') = true).
  { rewrite lacks_app, (all_digits_lacks "_" ip eq_refl Hip).
    destruct Hfp as [-> | (fp & -> & Hfp)]; simpl; auto.
    now apply all_digits_lacks. }
  destruct (parse_decimal_plain ip fp' Hip Hne Hfp) as [q Hq].
  exists q. unfold float.
  rewrite (strip_no_space _ Hns), (strip_underscores_lacks _ Hu None eq_refl).
  unfold parse_float_literal, take_sign.
  destruct ip as [|c ip]; [congruence|]. simpl in Hip.
  apply andb_true_iff in Hip. destruct Hip as [Hc _].
  change ((String c ip ++ fp')%string) with (String c (ip ++ fp')) in *.
  cbv iota.
  rewrite (digit_neq c "-" Hc eq_refl), (digit_neq c "+" Hc eq_refl).
  now rewrite Hq.
Qed.

End FloatFacts.

(* ================================================================== *)
(** * The number tokens of the default engine *)
(* ================================================================== *)

Section NumberTokens.

Lemma lang_chr (c : ascii) (w : string) :
  lang (chr c) w -> w = String c EmptyString.
Proof.
  unfold chr. cbn [lang]. intros (d & Hd & ->).
  apply Ascii.eqb_eq in Hd. now subst.
Qed.

Lemma lang_digit (w : string) :
  lang digit w -> exists c, is_digit c = true /\ w = String c EmptyString.
Proof. unfold digit. cbn [lang]. auto. Qed.

Lemma lang_opt (r : regex) (w : string) :
  lang (opt r) w -> lang r w \/ w = EmptyString.
Proof. unfold opt. cbn [lang]. auto. Qed.

Lemma lang_seq (r1 r2 : regex) (w : string) :
  lang (Seq r1 r2) w ->
  exists w1 w2, w = (w1 ++ w2)%string /\ lang r1 w1 /\ lang r2 w2.
Proof. cbn [lang]. auto. Qed.

Ltac digits_done :=
  cbn [all_digits append];
  repeat match goal with H : is_digit _ = true |- _ => rewrite H; clear H end;
  try split; (reflexivity || discriminate).

Lemma lang_digit_1_2 (w : string) :
  lang digit_1_2 w -> all_digits w = true /\ w <> EmptyString.
Proof.
  unfold digit_1_2. intros H.
  apply lang_seq in H. destruct H as (a & b & -> & Ha & Hb).
  apply lang_digit in Ha. destruct Ha as (c & Hc & ->).
  apply lang_opt in Hb. destruct Hb as [Hb | ->].
  - apply lang_digit in Hb. destruct Hb as (d & Hd & ->). digits_done.
  - digits_done.
Qed.

Lemma lang_digit_1_3 (w : string) :
  lang digit_1_3 w -> all_digits w = true /\ w <> EmptyString.
Proof.
  unfold digit_1_3. intros H.
  apply lang_seq in H. destruct H as (a & b & -> & Ha & Hb).
  apply lang_digit in Ha. destruct Ha as (c & Hc & ->).
  apply lang_opt in Hb. destruct Hb as [Hb | ->]; [|digits_done].
  apply lang_digit_1_2 in Hb. destruct Hb as [Hb _].
  cbn [all_digits append]. rewrite Hc, Hb. split; [reflexivity | discriminate].
Qed.

Lemma lang_digit_2 (w : string) : lang digit_2 w -> all_digits w = true.
Proof.
  unfold digit_2. intros H.
  apply lang_seq in H. destruct H as (a & b & -> & Ha & Hb).
  apply lang_digit in Ha, Hb.
  destruct Ha as (c & Hc & ->). destruct Hb as (d & Hd & ->). digits_done.
Qed.

Lemma lang_digit_3 (w : string) : lang digit_3 w -> all_digits w = true.
Proof.
  unfold digit_3. intros H.
  apply lang_seq in H. destruct H as (a & b & -> & Ha & Hb).
  apply lang_digit in Ha. destruct Ha as (c & Hc & ->).
  apply lang_digit_2 in Hb.
  cbn [all_digits append]. now rewrite Hc, Hb.
Qed.

Lemma lang_star_digit (g : bool) (w : string) :
  lang (Star g digit) w -> all_digits w = true.
Proof.
  cbn [lang]. induction 1 as [|w1 w2 H1 _ IH]; [reflexivity|].
  apply lang_digit in H1. destruct H1 as (c & Hc & ->).
  cbn [all_digits append]. now rewrite Hc, IH.
Qed.

Lemma lang_thousands_groups (w : string) :
  star_lang (lang (Seq (chr ",") digit_3)) w ->
  all_digits (remove_char "," w) = true.
Proof.
  induction 1 as [|w1 w2 H1 _ IH]; [reflexivity|].
  apply lang_seq in H1. destruct H1 as (a & b & -> & Ha & Hb).
  apply lang_chr in Ha. subst a.
  apply lang_digit_3 in Hb.
  rewrite !remove_char_app.
  change (remove_char "," ",") with EmptyString.
  rewrite (remove_char_lacks "," b (all_digits_lacks "," b eq_refl Hb)).
  cbn [append]. now rewrite all_digits_app, Hb, IH.
Qed.

Lemma lang_table_fraction (w : string) :
  lang (opt (Seq (chr ".") digit_1_2)) w ->
  fraction_part w /\ remove_char "," w = w.
Proof.
  intros H. apply lang_opt in H. destruct H as [H | ->].
  - apply lang_seq in H. destruct H as (a & b & -> & Ha & Hb).
    apply lang_chr in Ha. subst a.
    apply lang_digit_1_2 in Hb. destruct Hb as [Hb _].
    rewrite remove_char_app.
    change (remove_char "," ".") with "."%string.
    rewrite (remove_char_lacks "," b (all_digits_lacks "," b eq_refl Hb)).
    split; [right; cbn [append]; eauto | reflexivity].
  - split; [now left | reflexivity].
Qed.

(** Without its commas, a token of the table pattern is a plain decimal
    numeral. *)
Lemma table_token_shape (w : string) :
  lang FreeExtractor.table_number_body w ->
  exists ip fp',
    remove_char "," w = (ip ++ fp')%string /\
    all_digits ip = true /\ ip <> EmptyString /\ fraction_part fp'.
Proof.
  unfold FreeExtractor.table_number_body. intros H.
  apply lang_seq in H. destruct H as (a & bc & -> & Ha & H).
  apply lang_seq in H. destruct H as (b & c & -> & Hb & Hc).
  apply lang_digit_1_3 in Ha. destruct Ha as [Ha Hne].
  cbn [lang] in Hb. apply lang_thousands_groups in Hb.
  apply lang_table_fraction in Hc. destruct Hc as [Hc Hc'].
  exists (a ++ remove_char "," b)%string, c.
  rewrite !remove_char_app, Hc', append_assoc.
  rewrite (remove_char_lacks "," a (all_digits_lacks "," a eq_refl Ha)).
  rewrite all_digits_app, Ha, Hb.
  repeat split; auto.
  destruct a; [congruence | discriminate].
Qed.

Lemma plain_no_space (ip fp' : string) :
  all_digits ip = true -> fraction_part fp' ->
  no_space (ip ++ fp') = true.
Proof.
  intros Hip Hfp. rewrite no_space_app, (all_digits_no_space ip Hip).
  destruct Hfp as [-> | (fp & -> & Hfp)]; [reflexivity|].
  cbn [no_space]. now rewrite (all_digits_no_space fp Hfp).
Qed.

Lemma free_parse_number_token (w : string) :
  lang FreeExtractor.table_number_body w ->
  exists q, FreeExtractor._parse_number w = Returns (Fin q).
Proof.
  intros H. apply table_token_shape in H.
  destruct H as (ip & fp' & E & Hip & Hne & Hfp).
  unfold FreeExtractor._parse_number. rewrite E.
  rewrite (strip_no_space _ (plain_no_space ip fp' Hip Hfp)).
  now apply float_plain.
Qed.

Lemma kv_token_float (w : string) :
  lang FreeExtractor.kv_number_body w ->
  exists q, float w = Returns (Fin q).
Proof.
  unfold FreeExtractor.kv_number_body, plus. intros H.
  apply lang_seq in H. destruct H as (a & bc & -> & Ha & H).
  apply lang_seq in H. destruct H as (b & c & -> & Hb & Hc).
  apply lang_seq in Ha. destruct Ha as (a1 & a2 & -> & Ha1 & Ha2).
  apply lang_star_digit in Ha2, Hc.
  apply lang_digit in Ha1. destruct Ha1 as (d & Hd & ->).
  apply lang_opt in Hb. destruct Hb as [Hb | ->].
  - apply lang_chr in Hb. subst b.
    apply (float_plain (String d a2) (String "." c)).
    + cbn [all_digits]. now rewrite Hd, Ha2.
    + discriminate.
    + right. eauto.
  - cbn [append].
    pose proof (float_plain (String d (a2 ++ c)) EmptyString) as F.
    rewrite append_nil_r in F. apply F.
    + cbn [all_digits]. now rewrite Hd, all_digits_app, Ha2, Hc.
    + discriminate.
    + now left.
Qed.

End NumberTokens.

(* ================================================================== *)
(** * Dictionaries *)
(* ================================================================== *)

#[export] Instance string_EqbLaws : EqbLaws string.
Proof. intros a b. apply String.eqb_eq. Qed.

#[export] Instance item_EqbLaws : EqbLaws IncomeStatementItem.
Proof.
  intros a b. split.
  - destruct a, b; simpl; intros H; (reflexivity || discriminate H).
  - intros ->. destruct b; reflexivity.
Qed.

Section DictFacts.
Context {K V : Type} `{EqbLaws K}.

Lemma key_eqb_refl (k : K) : key_eqb k k = true.
Proof. now apply key_eqb_eq. Qed.

Lemma key_eqb_neq (a b : K) : a <> b -> key_eqb a b = false.
Proof.
  intros Hne. destruct (key_eqb a b) eqn:E; [|reflexivity].
  apply key_eqb_eq in E. contradiction.
Qed.

Lemma get_setitem_same (d : dict K V) (k : K) (v : V) :
  get (setitem d k v) k = Some v.
Proof.
  induction d as [|[k' v'] d IH]; simpl.
  - now rewrite key_eqb_refl.
  - destruct (key_eqb k' k) eqn:E; simpl; rewrite E; auto.
Qed.

Lemma get_setitem_other (d : dict K V) (k k' : K) (v : V) :
  k <> k' -> get (setitem d k v) k' = get d k'.
Proof.
  intros Hne. induction d as [|[k0 v0] d IH]; simpl.
  - now rewrite (key_eqb_neq k k' Hne).
  - destruct (key_eqb k0 k) eqn:E; simpl.
    + apply key_eqb_eq in E. subst k0.
      now rewrite (key_eqb_neq k k' Hne).
    + now rewrite IH.
Qed.

Lemma has_key_setitem (d : dict K V) (k k' : K) (v : V) :
  has_key d k' = true -> has_key (setitem d k v) k' = true.
Proof.
  unfold has_key.
  induction d as [|[k0 v0] d IH]; simpl; [discriminate|].
  destruct (key_eqb k0 k) eqn:E1; simpl;
    destruct (key_eqb k0 k') eqn:E2; auto.
Qed.

End DictFacts.

(* ================================================================== *)
(** * The missing items *)
(* ================================================================== *)

Section MissingItems.

Lemma all_items_complete (i : IncomeStatementItem) : In i all_items.
Proof. destruct i; simpl; tauto. Qed.

Lemma all_items_nodup : NoDup all_items.
Proof.
  unfold all_items.
  repeat (constructor; [simpl; intuition discriminate|]). constructor.
Qed.

Lemma existsb_item_eqb (i : IncomeStatementItem)
  (l : list IncomeStatementItem) :
  existsb (item_eqb i) l = true <-> In i l.
Proof.
  rewrite existsb_exists. split.
  - intros (x & Hx & E). apply (key_eqb_eq (K := IncomeStatementItem)) in E.
    now subst.
  - intros Hi. exists i. split; [assumption|].
    now apply (key_eqb_eq (K := IncomeStatementItem)).
Qed.

Lemma set_difference_spec (found : list IncomeStatementItem)
  (i : IncomeStatementItem) :
  In i (set_difference all_items found) <-> ~ In i found.
Proof.
  unfold set_difference. rewrite filter_In, negb_true_iff. split.
  - intros [_ Hn] Hi. apply existsb_item_eqb in Hi. congruence.
  - intros Hn. split; [apply all_items_complete|].
    destruct (existsb (item_eqb i) found) eqn:E; [|reflexivity].
    apply existsb_item_eqb in E. contradiction.
Qed.

Lemma found_items_spec (d : data_t) (i : IncomeStatementItem) :
  In i (found_items d) <->
  exists period year_data, In (period, year_data) d /\ In i (keys year_data).
Proof.
  unfold found_items, values. rewrite in_flat_map. split.
  - intros (yd & Hyd & Hi). apply in_map_iff in Hyd.
    destruct Hyd as ([p yd'] & E & Hin). simpl in E. subst. eauto.
  - intros (p & yd & Hin & Hi). exists yd. split; [|assumption].
    apply in_map_iff. exists (p, yd). auto.
Qed.

(** A result assembled with [list(all_items - found_items)] meets the
    invariant, whatever its data. *)
Lemma assembled_missing_items_ok (r : FinancialExtractionResult) :
  missing_items r = set_difference all_items (found_items (data r)) ->
  missing_items_ok r.
Proof.
  intros E. unfold missing_items_ok. rewrite E. split.
  - apply NoDup_filter, all_items_nodup.
  - intros i. rewrite set_difference_spec, found_items_spec. tauto.
Qed.

End MissingItems.

(* ================================================================== *)
(** * The default engine always returns *)
(* ================================================================== *)

Section FreeFacts.

(** Group 1 of a pattern that is one group. *)
Lemma match_at_only_group (body : regex) (rest : string) (pos : nat)
  (m : rmatch_obj) :
  match_at (Group 1 body) rest pos = Some m -> lang body (group 1 m).
Proof.
  unfold match_at. simpl. intros H.
  apply rmatch_sound in H.
  destruct H as (w & rest' & caps' & -> & HL & H).
  inversion H; subst; clear H.
  unfold group; simpl.
  replace (pos + String.length w - pos) with (String.length w) by lia.
  now rewrite substring_prefix, get_set_group.
Qed.

Lemma table_tokens_parse (line tok : string) :
  In tok (findall1 FreeExtractor.table_number_re line) ->
  exists q, FreeExtractor._parse_number tok = Returns (Fin q).
Proof.
  intros H. apply findall1_lang in H. now apply free_parse_number_token.
Qed.

Lemma kv_tokens_parse (value_str tok : string) :
  In tok (findall1 FreeExtractor.kv_number_re value_str) ->
  exists q, float tok = Returns (Fin q).
Proof.
  unfold findall1, finditer, FreeExtractor.kv_number_re. intros H.
  apply in_map_iff in H. destruct H as (m & <- & H).
  apply matches_from_match_at in H. destruct H as (rest & pos & H).
  apply match_at_only_group in H. now apply kv_token_float.
Qed.

Lemma split1_two_parts (c : ascii) (s : string) :
  contains (String c EmptyString) s = true ->
  exists a b, split1 c s = [a; b].
Proof.
  induction s as [|d s IH]; cbn [contains startswith split1];
    [discriminate|].
  destruct (Ascii.eqb d c) eqn:E; [eauto|].
  rewrite Ascii.eqb_sym, E. cbn [andb orb].
  intros Hs. destruct (IH Hs) as (a & b & ->). eauto.
Qed.

Lemma table_items_ok (all : list string) (line : string) :
  In line (map strip all) ->
  forall items, incl items FreeExtractor.item_mapping ->
  forall a b ra rb, table_data_ok all a b ->
  exists a' b' ra' rb',
    FreeExtractor.table_items items line (table_state a b ra rb)
    = Returns (table_state a' b' ra' rb') /\
    table_data_ok all a' b'.
Proof.
  intros Hline items.
  induction items as [|[item_text standard_item] items IH];
    intros Hincl a b ra rb Hok; simpl.
  - eauto 6.
  - assert (Hincl' : incl items FreeExtractor.item_mapping).
    { intros x Hx. apply Hincl. now right. }
    destruct (contains item_text line) eqn:Hc; [|now apply IH].
    destruct (findall1 FreeExtractor.table_number_re line)
      as [|n0 [|n1 rest]] eqn:F; [now apply IH | now apply IH |].
    destruct (table_tokens_parse line n0) as [q0 E0]; [rewrite F; simpl; auto|].
    destruct (table_tokens_parse line n1) as [q1 E1]; [rewrite F; simpl; auto|].
    rewrite E0, E1. simpl.
    eexists _, _, _, _. split; [reflexivity|].
    intros item.
    destruct (item_eqb standard_item item) eqn:Ei.
    + apply (key_eqb_eq (K := IncomeStatementItem)) in Ei. subst item.
      right. exists line, (FreeExtractor.high (Fin q0) line),
        (FreeExtractor.high (Fin q1) line).
      rewrite !get_setitem_same. repeat split; auto.
      exists item_text, n0, n1, rest, (Fin q0), (Fin q1).
      repeat split; auto. apply Hincl. now left.
    + assert (Hne : standard_item <> item).
      { intros ->. destruct item; discriminate Ei. }
      rewrite !(get_setitem_other _ _ _ _ Hne). apply Hok.
Qed.

Lemma table_lines_ok (all : list string) :
  forall lines, incl lines all ->
  forall a b ra rb, table_data_ok all a b ->
  exists a' b' ra' rb',
    FreeExtractor.table_lines lines (table_state a b ra rb)
    = Returns (table_state a' b' ra' rb') /\
    table_data_ok all a' b'.
Proof.
  induction lines as [|line lines IH]; intros Hincl a b ra rb Hok;
    cbn [FreeExtractor.table_lines].
  - eauto 6.
  - assert (Hincl' : incl lines all).
    { intros x Hx. apply Hincl. now right. }
    destruct (negb (nonempty (strip line))
              || contains "CONSOLIDATED" (strip line)
              || contains "In millions" (strip line)).
    + now apply IH.
    + destruct (table_items_ok all (strip line)) with
        (items := FreeExtractor.item_mapping) (a := a) (b := b)
        (ra := ra) (rb := rb) as (a1 & b1 & ra1 & rb1 & E & Hok1); auto.
      * apply in_map. apply Hincl. now left.
      * apply incl_refl.
      * rewrite E. cbn [bind]. now apply IH.
Qed.

Lemma extract_table_format_ok (lines : list string) :
  exists d2023 d2022 raw,
    FreeExtractor._extract_table_format lines
    = Returns ([("2023", d2023); ("2022", d2022)], raw, []) /\
    table_data_ok lines d2023 d2022.
Proof.
  unfold FreeExtractor._extract_table_format.
  destruct (table_lines_ok lines lines (incl_refl _) [] [] [] [])
    as (a & b & ra & rb & E & Hok).
  - intros item. left. auto.
  - cbv zeta. rewrite_call FreeExtractor.table_lines E.
    cbn [bind fst snd table_state]. eauto.
Qed.

Lemma key_value_lines_ok (lines : list string) :
  forall c rc,
  exists c' rc',
    FreeExtractor.key_value_lines lines ([("Current", c)], [("Current", rc)])
    = Returns ([("Current", c')], [("Current", rc')]).
Proof.
  induction lines as [|line lines IH]; intros c rc;
    cbn [FreeExtractor.key_value_lines].
  - eauto.
  - destruct (contains ":" line) eqn:Hc; [|apply IH].
    destruct (split1_two_parts ":" line Hc) as (p0 & p1 & ->).
    destruct (findall1 FreeExtractor.kv_number_re (strip p1))
      as [|n0 rest] eqn:F; [apply IH|].
    destruct (kv_tokens_parse (strip p1) n0) as [q E];
      [rewrite F; simpl; auto|].
    rewrite E. cbn [bind].
    destruct (get FreeExtractor.key_mapping (strip p0)); [|apply IH].
    cbn. apply IH.
Qed.

Lemma extract_key_value_format_ok (lines : list string) :
  exists c rc,
    FreeExtractor._extract_key_value_format lines
    = Returns ([("Current", c)], [("Current", rc)], []).
Proof.
  unfold FreeExtractor._extract_key_value_format.
  destruct (key_value_lines_ok lines [] []) as (c & rc & E).
  cbv zeta. rewrite_call FreeExtractor.key_value_lines E.
  cbn [bind fst snd]. eauto.
Qed.

Lemma try_all_methods_returns (lines : list string) :
  exists p, FreeExtractor._try_all_methods lines = Returns p.
Proof.
  unfold FreeExtractor._try_all_methods.
  destruct (extract_table_format_ok lines) as (a & b & raw & E & _).
  rewrite E. simpl.
  match goal with |- context [if ?c then _ else _] => destruct c end;
    [eauto|].
  destruct (extract_key_value_format_ok lines) as (c & rc & E').
  rewrite E'. simpl.
  match goal with |- context [if ?c then _ else _] => destruct c end;
    unfold FreeExtractor._extract_line_by_line; eauto.
Qed.

(** The default engine never raises, and assembles its result from what
    [_try_all_methods] found. *)
Lemma free_extract_returns (text : string) :
  exists r,
    FreeExtractor.extract text = Returns r /\
    missing_items r = set_difference all_items (found_items (data r)).
Proof.
  unfold FreeExtractor.extract.
  destruct (try_all_methods_returns (split "010" text)) as ([[d raw] w] & E).
  cbv zeta. rewrite E. cbn [bind].
  eexists. split; [reflexivity|]. reflexivity.
Qed.

End FreeFacts.

(* ================================================================== *)
(** * The pattern engine's number parser *)
(* ================================================================== *)

Section PatternParseNumber.

Lemma only_ValueError_returns {A} (a : A) : only_ValueError (Returns a).
Proof. intros e H. discriminate H. Qed.

Lemma only_ValueError_bind {A B} (c : outcome A) (k : A -> outcome B) :
  only_ValueError c -> (forall a, only_ValueError (k a)) ->
  only_ValueError (a <- c ;; k a).
Proof.
  intros Hc Hk e. destruct c as [a|e']; simpl.
  - apply Hk.
  - intros H. inversion H; subst. now apply Hc.
Qed.

Lemma float_only_ValueError (s : string) : only_ValueError (float s).
Proof.
  intros e. unfold float.
  destruct (strip_underscores None (strip s)) as [t|]; [|congruence].
  destruct (parse_float_literal t); [discriminate | congruence].
Qed.

Lemma index_only_ValueError (c : ascii) (s : string) :
  only_ValueError (PatternExtractor.index c s).
Proof.
  induction s as [|d s IH]; simpl.
  - intros e H. congruence.
  - destruct (Ascii.eqb d c); [apply only_ValueError_returns|].
    apply only_ValueError_bind; [assumption|].
    intros a. apply only_ValueError_returns.
Qed.

Lemma try_except_ValueError_returns {A} (body : outcome A) (a : A) :
  only_ValueError body ->
  exists r, try_except_ValueError body (Returns a) = Returns r.
Proof.
  intros H. destruct body as [r|e]; simpl; [eauto|].
  rewrite (H e eq_refl). eauto.
Qed.

(** [_parse_number] returns a float or [None] on every string. *)
Lemma pattern_parse_number_returns (number_str : string) :
  exists r, PatternExtractor._parse_number number_str = Returns r.
Proof.
  unfold PatternExtractor._parse_number.
  apply try_except_ValueError_returns.
  apply only_ValueError_bind.
  - match goal with |- context [if ?c then _ else _] => destruct c end.
    + apply only_ValueError_bind; [apply index_only_ValueError|]. intros i.
      apply only_ValueError_bind; [apply index_only_ValueError|]. intros j.
      destruct (Nat.ltb i j); apply only_ValueError_returns.
    + apply only_ValueError_returns.
  - intros s. apply only_ValueError_bind; [apply float_only_ValueError|].
    intros v. apply only_ValueError_returns.
Qed.

End PatternParseNumber.

(* ================================================================== *)
(** * Patterns that are alternatives of words *)
(* ================================================================== *)

Section WordPatterns.

Lemma rmatch_word (w : string) :
  forall (rest : string) (pos : nat) (caps : captures) (k : @cont rmatch_obj),
    rmatch (PatternExtractor.word w) rest pos caps k
    = if startswith w rest
      then k (drop (String.length w) rest) (pos + String.length w) caps
      else None.
Proof.
  unfold PatternExtractor.word.
  induction w as [|c w IH]; intros rest pos caps k; cbn [lit rmatch].
  - cbn. now rewrite Nat.add_0_r.
  - destruct rest as [|d rest]; [reflexivity|].
    cbn [startswith drop String.length].
    rewrite (Ascii.eqb_sym c d).
    destruct (Ascii.eqb d c); [|reflexivity].
    rewrite IH. cbn [andb]. now rewrite Nat.add_succ_r.
Qed.

Lemma is_some_first_of {A} (a b : option A) :
  PatternExtractor.is_some (first_of a b)
  = PatternExtractor.is_some a || PatternExtractor.is_some b.
Proof. destruct a; reflexivity. Qed.

Lemma recognizes_word (w : string) :
  recognizes (PatternExtractor.word w) [w].
Proof.
  intros rest pos caps k Hk. rewrite rmatch_word. simpl.
  destruct (startswith w rest); [now rewrite Hk | reflexivity].
Qed.

Lemma recognizes_word_s (w : string) :
  recognizes (PatternExtractor.word_s w) [w].
Proof.
  intros rest pos caps k Hk. unfold PatternExtractor.word_s. simpl.
  rewrite rmatch_word. simpl.
  destruct (startswith w rest); [|reflexivity].
  now rewrite is_some_first_of, Hk, !orb_true_r.
Qed.

Lemma recognizes_alt (r1 r2 : regex) (ws1 ws2 : list string) :
  recognizes r1 ws1 -> recognizes r2 ws2 ->
  recognizes (Alt r1 r2) (ws1 ++ ws2).
Proof.
  intros H1 H2 rest pos caps k Hk. simpl.
  now rewrite is_some_first_of, existsb_app, (H1 _ _ _ _ Hk), (H2 _ _ _ _ Hk).
Qed.

Lemma existsb_contains (ws : list string) (c : ascii) (s : string) :
  existsb (fun w => contains w (String c s)) ws
  = existsb (fun w => startswith w (String c s)) ws
    || existsb (fun w => contains w s) ws.
Proof.
  induction ws as [|w ws IH]; [reflexivity|].
  cbn [existsb]. rewrite IH.
  change (contains w (String c s))
    with (startswith w (String c s) || contains w s).
  destruct (startswith w (String c s)), (contains w s),
    (existsb (fun w0 => startswith w0 (String c s)) ws),
    (existsb (fun w0 => contains w0 s) ws); reflexivity.
Qed.

Lemma existsb_pointwise {A} (f g : A -> bool) (l : list A) :
  (forall x, f x = g x) -> existsb f l = existsb g l.
Proof.
  intros Hfg. induction l as [|x l IH]; [reflexivity|].
  cbn [existsb]. now rewrite Hfg, IH.
Qed.

Lemma search_from_recognizes (r : regex) (ws : list string) :
  recognizes r ws ->
  forall (s : string) (pos : nat),
    PatternExtractor.is_some (search_from r s pos)
    = existsb (fun w => contains w s) ws.
Proof.
  intros Hr. induction s as [|c s IH]; intros pos.
  - cbn [search_from].
    assert (E : PatternExtractor.is_some (match_at r EmptyString pos)
                = existsb (fun w => contains w EmptyString) ws).
    { unfold match_at. rewrite Hr by reflexivity.
      apply existsb_pointwise. intros w. cbn [contains].
      now rewrite orb_false_r. }
    destruct (match_at r EmptyString pos); exact E.
  - cbn [search_from]. rewrite existsb_contains, <- (IH (S pos)).
    assert (E : PatternExtractor.is_some (match_at r (String c s) pos)
                = existsb (fun w => startswith w (String c s)) ws).
    { unfold match_at. now rewrite Hr. }
    rewrite <- E. destruct (match_at r (String c s) pos); reflexivity.
Qed.

(** [re.search] with such a pattern is a test for substrings. *)
Lemma search_recognizes (r : regex) (ws : list string) (s : string) :
  recognizes r ws ->
  PatternExtractor.is_some (search r s) = existsb (fun w => contains w s) ws.
Proof. intros Hr. now apply search_from_recognizes. Qed.

End WordPatterns.

(* ================================================================== *)
(** * Currency and unit detection *)
(* ================================================================== *)

Section Detection.

Lemma first_match_returns {A} (make : string -> outcome A) (default : A)
  (table : list (string * regex)) (text_lower : string) :
  (forall name pattern, In (name, pattern) table ->
     exists v, make name = Returns v) ->
  exists v,
    PatternExtractor.first_match make default table text_lower = Returns v.
Proof.
  induction table as [|[name pattern] table IH]; intros Hmake; simpl.
  - eauto.
  - destruct (PatternExtractor.is_some (search pattern text_lower)).
    + apply (Hmake name pattern). now left.
    + apply IH. intros n p Hin. apply (Hmake n p). now right.
Qed.

(** The first entry whose pattern matches decides. *)
Lemma first_match_first {A} (make : string -> outcome A) (default : A)
  (table : list (string * regex)) (text_lower : string) :
  forall i name pattern,
    nth_error table i = Some (name, pattern) ->
    PatternExtractor.is_some (search pattern text_lower) = true ->
    (forall j name' pattern',
       j < i -> nth_error table j = Some (name', pattern') ->
       PatternExtractor.is_some (search pattern' text_lower) = false) ->
    PatternExtractor.first_match make default table text_lower = make name.
Proof.
  induction table as [|[n p] table IH]; intros i name pattern Hi Hm Hbefore.
  - destruct i; discriminate Hi.
  - destruct i as [|i]; simpl in *.
    + inversion Hi; subst. now rewrite Hm.
    + rewrite (Hbefore 0 n p (Nat.lt_0_succ i) eq_refl).
      apply (IH i name pattern Hi Hm).
      intros j n' p' Hj Hnth. apply (Hbefore (S j) n' p'); [lia | exact Hnth].
Qed.

Lemma first_match_none {A} (make : string -> outcome A) (default : A)
  (table : list (string * regex)) (text_lower : string) :
  (forall name pattern, In (name, pattern) table ->
     PatternExtractor.is_some (search pattern text_lower) = false) ->
  PatternExtractor.first_match make default table text_lower = Returns default.
Proof.
  induction table as [|[n p] table IH]; intros Hnone; simpl.
  - reflexivity.
  - rewrite (Hnone n p (or_introl eq_refl)).
    apply IH. intros n' p' Hin. apply (Hnone n' p'). now right.
Qed.

Lemma detect_currency_returns (text : string) :
  exists c, PatternExtractor._detect_currency text = Returns c.
Proof.
  apply first_match_returns. intros name pattern Hin.
  cbn [In] in Hin.
  repeat (destruct Hin as [Hin | Hin];
          [inversion Hin; subst; eexists; reflexivity|]).
  contradiction.
Qed.

Lemma detect_unit_returns (text : string) :
  exists u, PatternExtractor._detect_unit text = Returns u.
Proof.
  apply first_match_returns. intros name pattern Hin.
  cbn [In] in Hin.
  repeat (destruct Hin as [Hin | Hin];
          [inversion Hin; subst; eexists; reflexivity|]).
  contradiction.
Qed.

Lemma usd_pattern_words :
  recognizes
    (alts [PatternExtractor.word "$"; PatternExtractor.word_s "dollar";
           PatternExtractor.word "usd"])
    ["$"; "dollar"; "usd"].
Proof.
  cbn [alts]. apply (recognizes_alt _ _ ["$"] ["dollar"; "usd"]).
  - apply recognizes_word.
  - apply (recognizes_alt _ _ ["dollar"] ["usd"]).
    + apply recognizes_word_s.
    + apply recognizes_word.
Qed.

Lemma thousands_pattern_words :
  recognizes
    (alts [PatternExtractor.word "thousand"; PatternExtractor.word "thousands";
           PatternExtractor.word "k"; PatternExtractor.word "000's"])
    ["thousand"; "thousands"; "k"; "000's"].
Proof.
  cbn [alts].
  apply (recognizes_alt _ _ ["thousand"] ["thousands"; "k"; "000's"]);
    [apply recognizes_word|].
  apply (recognizes_alt _ _ ["thousands"] ["k"; "000's"]);
    [apply recognizes_word|].
  apply (recognizes_alt _ _ ["k"] ["000's"]); apply recognizes_word.
Qed.

Lemma millions_pattern_words :
  recognizes
    (alts [PatternExtractor.word "million"; PatternExtractor.word "millions";
           PatternExtractor.word "m"; PatternExtractor.word "mn";
           PatternExtractor.word "mln"])
    ["million"; "millions"; "m"; "mn"; "mln"].
Proof.
  cbn [alts].
  apply (recognizes_alt _ _ ["million"] ["millions"; "m"; "mn"; "mln"]);
    [apply recognizes_word|].
  apply (recognizes_alt _ _ ["millions"] ["m"; "mn"; "mln"]);
    [apply recognizes_word|].
  apply (recognizes_alt _ _ ["m"] ["mn"; "mln"]); [apply recognizes_word|].
  apply (recognizes_alt _ _ ["mn"] ["mln"]); apply recognizes_word.
Qed.

Lemma prefix_trans (a b s : string) :
  startswith a b = true -> startswith b s = true ->
  startswith a s = true.
Proof.
  revert b s. induction a as [|c a IH]; intros b s Hab Hbs; [reflexivity|].
  destruct b as [|d b]; [discriminate|]. destruct s as [|e s]; [discriminate|].
  cbn [startswith] in *.
  apply andb_true_iff in Hab. destruct Hab as [Hcd Hab].
  apply andb_true_iff in Hbs. destruct Hbs as [Hde Hbs].
  apply Ascii.eqb_eq in Hcd, Hde. subst.
  rewrite Ascii.eqb_refl. cbn [andb]. eauto.
Qed.

Lemma contains_prefix_mono (a b s : string) :
  startswith a b = true -> contains b s = true -> contains a s = true.
Proof.
  intros Hab. induction s as [|c s IH]; cbn [contains]; intros H;
    apply orb_true_iff in H; apply orb_true_iff; destruct H as [H | H].
  - left. eapply prefix_trans; eauto.
  - discriminate.
  - left. eapply prefix_trans; eauto.
  - right. auto.
Qed.

Lemma contains_dollar_lower (s : string) :
  contains "$" s = true -> contains "$" (lower s) = true.
Proof.
  induction s as [|d s IH]; [discriminate|].
  cbn [contains lower]. intros H. apply orb_true_iff in H.
  apply orb_true_iff. destruct H as [H | H]; [left | right; auto].
  cbn [startswith] in H. rewrite andb_true_r in H.
  apply Ascii.eqb_eq in H. subst d. reflexivity.
Qed.

(** A text with a dollar sign is in US dollars. *)
Lemma detect_currency_dollar (text : string) :
  contains "$" text = true ->
  PatternExtractor._detect_currency text = Returns USD.
Proof.
  intros H. apply contains_dollar_lower in H.
  unfold PatternExtractor._detect_currency, PatternExtractor.currency_patterns.
  cbn [PatternExtractor.first_match].
  rewrite (search_recognizes _ _ _ usd_pattern_words).
  cbn [existsb]. now rewrite H.
Qed.

(** A text that says "millions" and has none of the words for thousands is
    in millions. *)
Lemma detect_unit_millions (text : string) :
  contains "millions" (lower text) = true ->
  contains "thousand" (lower text) = false ->
  contains "k" (lower text) = false ->
  contains "000's" (lower text) = false ->
  PatternExtractor._detect_unit text = Returns MILLIONS.
Proof.
  intros Hm Ht Hk H0.
  assert (Hts : contains "thousands" (lower text) = false).
  { destruct (contains "thousands" (lower text)) eqn:E; [|reflexivity].
    apply (contains_prefix_mono "thousand") in E; [congruence | reflexivity]. }
  unfold PatternExtractor._detect_unit, PatternExtractor.unit_patterns.
  cbn [PatternExtractor.first_match].
  rewrite (search_recognizes _ _ _ thousands_pattern_words).
  rewrite (search_recognizes _ _ _ millions_pattern_words).
  cbn [existsb]. now rewrite Ht, Hts, Hk, H0, Hm, orb_true_r.
Qed.

End Detection.

(* ================================================================== *)
(** * The normalizer *)
(* ================================================================== *)

Section Normalizer.

Lemma lookup_mappings_first (t : string)
  (table : list (string * IncomeStatementItem)) :
  forall i phrase item,
    first_hit table t i phrase item ->
    lookup_mappings table t = Some item.
Proof.
  induction table as [|[p0 i0] table IH];
    intros i phrase item (Hnth & Hc & Hbefore).
  - destruct i; discriminate Hnth.
  - destruct i as [|i]; simpl in *.
    + inversion Hnth; subst. now rewrite Hc.
    + rewrite (Hbefore 0 p0 i0 (Nat.lt_0_succ i) eq_refl).
      apply (IH i phrase item). repeat split; auto.
      intros j p' i' Hj Hn. apply (Hbefore (S j) p' i'); [lia | exact Hn].
Qed.

Lemma lookup_mappings_none (t : string)
  (table : list (string * IncomeStatementItem)) :
  no_hit table t -> lookup_mappings table t = None.
Proof.
  induction table as [|[p0 i0] table IH]; intros Hno; simpl.
  - reflexivity.
  - rewrite (Hno p0 i0 (or_introl eq_refl)).
    apply IH. intros p i Hin. apply (Hno p i). now right.
Qed.

Lemma lookup_mappings_none_inv (t : string)
  (table : list (string * IncomeStatementItem)) :
  lookup_mappings table t = None -> no_hit table t.
Proof.
  induction table as [|[p0 i0] table IH]; cbn [lookup_mappings].
  - intros _ p i [].
  - destruct (contains p0 t) eqn:Hc; [discriminate|].
    intros H p i [Hin | Hin].
    + now inversion Hin; subst.
    + now apply (IH H p i).
Qed.

(** A result of the lookup is the item of the first phrase that occurs. *)
Lemma lookup_mappings_some (t : string)
  (table : list (string * IncomeStatementItem)) (item : IncomeStatementItem) :
  lookup_mappings table t = Some item ->
  exists i phrase, first_hit table t i phrase item.
Proof.
  induction table as [|[p0 i0] table IH]; simpl; [discriminate|].
  destruct (contains p0 t) eqn:Hc.
  - intros H. inversion H; subst. exists 0, p0. repeat split; auto.
    intros j p' i' Hj. lia.
  - intros H. destruct (IH H) as (i & phrase & Hnth & Hc' & Hbefore).
    exists (S i), phrase. repeat split; auto.
    intros [|j] p' i' Hj Hn; simpl in Hn.
    + inversion Hn; subst. exact Hc.
    + apply (Hbefore j p' i'); [lia | exact Hn].
Qed.

End Normalizer.

(* ================================================================== *)
(** * The pattern engine without two years *)
(* ================================================================== *)

Section PatternFacts.

Lemma extract_years_from_table_none (lines : list string) :
  (forall line, In line lines ->
     search PatternExtractor.table_year_pattern line = None) ->
  PatternExtractor._extract_years_from_table lines = [].
Proof.
  induction lines as [|line lines IH]; intros Hnone; simpl.
  - reflexivity.
  - rewrite (Hnone line (or_introl eq_refl)).
    apply IH. intros l Hl. apply Hnone. now right.
Qed.

Lemma simple_kv_lines_ok (lines : list string) :
  forall c rc,
  exists c' rc',
    PatternExtractor.simple_kv_lines lines
      ([("Current", c)], [("Current", rc)])
    = Returns ([("Current", c')], [("Current", rc')]).
Proof.
  induction lines as [|line lines IH]; intros c rc; simpl.
  - eauto.
  - match goal with |- context [if ?b then _ else _] => destruct b end;
      [apply IH|].
    destruct (split1 ":" (strip line)) as [|p0 [|p1 [|p2 ps]]];
      try apply IH.
    match goal with |- context [if ?b then _ else _] => destruct b end;
      simpl; [apply IH|].
    destruct (float (keep PatternExtractor.numeric_char (strip p1)))
      as [v|e] eqn:F; simpl.
    + destruct (_normalize_line_item (strip p0)); simpl; apply IH.
    + rewrite (float_only_ValueError _ e F). simpl. apply IH.
Qed.

Lemma extract_simple_key_value_ok (lines : list string) :
  exists c rc,
    PatternExtractor._extract_simple_key_value lines
    = Returns ([("Current", c)], [("Current", rc)], []).
Proof.
  unfold PatternExtractor._extract_simple_key_value.
  destruct (simple_kv_lines_ok lines [] []) as (c & rc & E).
  cbv zeta. rewrite_call PatternExtractor.simple_kv_lines E.
  cbn [bind fst snd]. eauto.
Qed.

(** With fewer than two years the table method is not run, and the data of
    the result are those of the simple key-value method. *)
Lemma pattern_extract_without_years (text : string) :
  let lines := split "010" text in
  PatternExtractor._extract_years_from_table lines = [] ->
  List.length (PatternExtractor._extract_years text) < 2 ->
  exists c rc r,
    PatternExtractor._extract_simple_key_value lines
    = Returns ([("Current", c)], [("Current", rc)], []) /\
    PatternExtractor.extract text = Returns r /\
    data r = [("Current", c)] /\ raw_extracts r = [("Current", rc)] /\
    missing_items r = set_difference all_items (found_items (data r)).
Proof.
  intros lines Hnone Hfew.
  destruct (extract_simple_key_value_ok lines) as (c & rc & E).
  destruct (detect_currency_returns text) as (cur & Ec).
  destruct (detect_unit_returns text) as (u & Eu).
  exists c, rc. unfold PatternExtractor.extract.
  fold lines. rewrite Hnone, Ec, Eu. cbn [truthy bind].
  destruct (PatternExtractor._extract_years text) as [|y0 [|y1 ys]];
    [| |cbn [List.length] in Hfew; lia];
    cbn [truthy andb List.length Nat.leb bind negb orb];
    rewrite E; cbn [bind];
    (eexists; split; [reflexivity|]; split; [reflexivity|]; repeat split).
Qed.

End PatternFacts.

Section PatternAssembly.

Lemma Returns_inj {A} (a b : A) : Returns a = Returns b -> a = b.
Proof. intros H. now inversion H. Qed.

(** Whatever the strategies found, the pattern engine computes the missing
    items from the data it returns. *)
Lemma pattern_extract_assembled (text : string)
  (r : FinancialExtractionResult) :
  PatternExtractor.extract text = Returns r ->
  missing_items r = set_difference all_items (found_items (data r)).
Proof.
  unfold PatternExtractor.extract. cbv zeta.
  destruct (PatternExtractor._detect_currency text) as [c|]; cbn [bind];
    [|discriminate].
  destruct (PatternExtractor._detect_unit text) as [u|]; cbn [bind];
    [|discriminate].
  match goal with |- context [bind ?c _] =>
    destruct c as [[[d1 r1] w1]|] end; cbn [bind]; [|discriminate].
  match goal with |- context [bind ?c _] =>
    destruct c as [[[d2 r2] w2]|] end; cbn [bind]; [|discriminate].
  intros H. apply Returns_inj in H. subst r. reflexivity.
Qed.

End PatternAssembly.

(* ================================================================== *)
(** * The pattern engine always returns *)
(* ================================================================== *)

Section Spans.

Lemma drop_app (a b : string) : drop (String.length a) (a ++ b) = b.
Proof. induction a as [|c a IH]; simpl; [now destruct b | exact IH]. Qed.

Lemma substring_skip (a s : string) (n : nat) :
  String.substring (String.length a) n (a ++ s) = String.substring 0 n s.
Proof. induction a as [|c a IH]; simpl; [reflexivity | exact IH]. Qed.

Lemma match_at_span (r : regex) (rest : string) (pos : nat) (m : rmatch_obj) :
  match_at r rest pos = Some m ->
  m_start m = pos /\
  exists w rest',
    rest = (w ++ rest')%string /\ lang r w /\
    m_end m = pos + String.length w.
Proof.
  unfold match_at. intros H. apply rmatch_sound in H.
  destruct H as (w & rest' & caps' & -> & HL & H).
  inversion H; subst; clear H. simpl. eauto 6.
Qed.

Lemma search_from_span (r : regex) (rest : string) :
  forall pos m,
    search_from r rest pos = Some m ->
    exists pre w post,
      rest = (pre ++ w ++ post)%string /\ lang r w /\
      m_start m = pos + String.length pre /\
      m_end m = m_start m + String.length w.
Proof.
  induction rest as [|c rest IH]; intros pos m H; cbn [search_from] in H.
  - destruct (match_at r EmptyString pos) as [m0|] eqn:E; [|discriminate].
    inversion H; subst. apply match_at_span in E.
    destruct E as (Hs & w & rest' & E & HL & He).
    exists EmptyString, w, rest'. simpl. rewrite Hs, He, Nat.add_0_r. auto.
  - destruct (match_at r (String c rest) pos) as [m0|] eqn:E.
    + inversion H; subst. apply match_at_span in E.
      destruct E as (Hs & w & rest' & E & HL & He).
      exists EmptyString, w, rest'. simpl. rewrite Hs, He, Nat.add_0_r. auto.
    + apply IH in H. destruct H as (pre & w & post & -> & HL & Hs & He).
      exists (String c pre), w, post. simpl. repeat split; auto. lia.
Qed.

Lemma matches_from_tokens (r : regex) (s : string) :
  (forall w, lang r w -> w <> EmptyString) ->
  forall fuel done rest m,
    s = (done ++ rest)%string ->
    In m (matches_from fuel r rest (String.length done)) ->
    lang r (group0 s m).
Proof.
  intros Hne. induction fuel as [|fuel IH]; intros done rest m Hs Hin.
  - contradiction.
  - cbn [matches_from] in Hin.
    destruct (search_from r rest (String.length done)) as [m0|] eqn:E;
      [|contradiction].
    apply search_from_span in E.
    destruct E as (pre & w & post & -> & HL & Hst & Hen).
    destruct Hin as [<- | Hin].
    + unfold group0. rewrite Hen, Hst, Hs.
      replace (String.length done + String.length pre + String.length w
               - (String.length done + String.length pre))
        with (String.length w) by lia.
      rewrite <- length_append, <- append_assoc, substring_skip.
      now rewrite substring_prefix.
    + assert (Hw : 0 < String.length w).
      { specialize (Hne w HL). destruct w; [congruence | simpl; lia]. }
      replace (Nat.max (m_end m0) (S (m_start m0))) with (m_end m0) in Hin
        by lia.
      apply (IH (done ++ pre ++ w)%string post m).
      * now rewrite Hs, !append_assoc.
      * rewrite !length_append.
        replace (String.length done + (String.length pre + String.length w))
          with (m_end m0) by lia.
        replace (m_end m0 - String.length done)
          with (String.length (pre ++ w)) in Hin
          by (rewrite length_append; lia).
        rewrite <- append_assoc, drop_app in Hin. exact Hin.
Qed.

Lemma findall0_lang (r : regex) (s tok : string) :
  (forall w, lang r w -> w <> EmptyString) ->
  In tok (findall0 r s) -> lang r tok.
Proof.
  intros Hne H. unfold findall0, finditer in H.
  apply in_map_iff in H. destruct H as (m & <- & H).
  apply (matches_from_tokens r s Hne _ EmptyString s m eq_refl H).
Qed.
End Spans.

Section PatternTotal.

Lemma lang_word (w x : string) : lang (PatternExtractor.word w) x -> x = w.
Proof.
  unfold PatternExtractor.word. revert x.
  induction w as [|c w IH]; intros x H; cbn [lit lang] in H.
  - exact H.
  - destruct H as (a & b & -> & (d & Hd & ->) & Hb).
    apply Ascii.eqb_eq in Hd. subst d. now rewrite (IH b Hb).
Qed.

Lemma lang_year_pattern (y : string) :
  lang PatternExtractor.year_pattern y ->
  all_digits y = true /\ y <> EmptyString.
Proof.
  unfold PatternExtractor.year_pattern. cbn [lang].
  intros [H | H]; destruct H as (a & b & -> & Ha & Hb);
    apply lang_word in Ha; subst a; apply lang_digit_2 in Hb;
    cbn [append all_digits]; rewrite Hb; split;
    (reflexivity || discriminate).
Qed.

Lemma int_digits (y : string) :
  all_digits y = true -> y <> EmptyString -> exists n, int y = Returns n.
Proof.
  intros Hd Hne. unfold int.
  rewrite (strip_no_space y (all_digits_no_space y Hd)).
  destruct y as [|c y]; [congruence|].
  pose proof Hd as Hd'. cbn [all_digits] in Hd'.
  apply andb_true_iff in Hd'. destruct Hd' as [Hc _].
  unfold take_sign.
  rewrite (digit_neq c "-" Hc eq_refl), (digit_neq c "+" Hc eq_refl).
  rewrite (strip_underscores_lacks _ (all_digits_lacks "_" _ eq_refl Hd)
             None eq_refl).
  pose proof (span_digits_app (String c y) EmptyString Hd I) as E.
  rewrite append_nil_r in E. rewrite E. eauto.
Qed.

Lemma recent_years_returns (years : list string) :
  (forall y, In y years -> exists n, int y = Returns n) ->
  exists l, PatternExtractor.recent_years years = Returns l.
Proof.
  induction years as [|y years IH]; intros Hint; simpl.
  - eauto.
  - destruct (Hint y (or_introl eq_refl)) as [n ->].
    destruct IH as [l ->]; [intros z Hz; apply Hint; now right|].
    simpl. destruct ((2020 <=? n)%Z && (n <=? 2025)%Z); eauto.
Qed.

Lemma is_recent_year_returns (text : string) :
  exists b, PatternExtractor._is_recent_year text = Returns b.
Proof.
  unfold PatternExtractor._is_recent_year.
  destruct (recent_years_returns
              (findall0 PatternExtractor.year_pattern text)) as [l ->].
  - intros y Hy. apply findall0_lang in Hy.
    + apply lang_year_pattern in Hy. destruct Hy. now apply int_digits.
    + intros w Hw. now apply lang_year_pattern in Hw.
  - simpl. eauto.
Qed.

Lemma try_variations_returns (context year : string)
  (variations : list string) :
  exists r, PatternExtractor.try_variations variations context year = Returns r.
Proof.
  induction variations as [|v vs IH]; simpl; [eauto|].
  destruct (search (PatternExtractor.line_item_pattern v) context) as [m|];
    [|exact IH].
  destruct (pattern_parse_number_returns (group 1 m)) as [value ->]. simpl.
  match goal with |- context [if ?c then _ else _] => destruct c end; simpl.
  - eauto.
  - match goal with |- context [PatternExtractor._is_recent_year ?t] =>
      destruct (is_recent_year_returns t) as [b ->] end.
    simpl. destruct b; [eauto | exact IH].
Qed.

Lemma for_year_items_returns (year_context year : string)
  (items : list IncomeStatementItem) :
  forall st,
  exists st',
    PatternExtractor.for_year_items items year_context year st = Returns st'.
Proof.
  induction items as [|item items IH]; intros st; simpl; [eauto|].
  unfold PatternExtractor._extract_line_item.
  destruct (try_variations_returns year_context year
              (PatternExtractor._get_item_variations item))
    as [[[value confidence] original_text] ->].
  simpl. destruct value; apply IH.
Qed.

Lemma line_by_line_years_returns (text : string) (years : list string) :
  forall st,
  exists st', PatternExtractor.line_by_line_years years text st = Returns st'.
Proof.
  induction years as [|year years IH]; intros st; simpl; [eauto|].
  unfold PatternExtractor._extract_for_year.
  match goal with |- context [PatternExtractor.for_year_items ?i ?c ?y ?s] =>
    destruct (for_year_items_returns c y i s) as [[year_data year_raw] ->] end.
  simpl. destruct (truthy year_data); apply IH.
Qed.

Lemma extract_line_by_line_returns (text : string) (years : list string) :
  exists p, PatternExtractor._extract_line_by_line text years = Returns p.
Proof.
  unfold PatternExtractor._extract_line_by_line.
  destruct (line_by_line_years_returns text years ([], [])) as [st ->].
  simpl. eauto.
Qed.

Lemma has_key_setitem_same {K V} `{EqbLaws K} (d : dict K V) (k : K) (v : V) :
  has_key (setitem d k v) k = true.
Proof. unfold has_key. now rewrite get_setitem_same. Qed.

Lemma dict_of_empty_has_key {V} (years : list string) (y : string) :
  In y years -> has_key (dict_of_empty (V := V) years) y = true.
Proof.
  unfold dict_of_empty. intros Hin.
  assert (G : forall ks (acc : dict string (list V)),
             In y ks \/ has_key acc y = true ->
             has_key (fold_left (fun d k => setitem d k []) ks acc) y = true).
  { induction ks as [|k ks IH]; intros acc [Hk | Hacc]; simpl.
    - contradiction.
    - exact Hacc.
    - destruct Hk as [-> | Hk].
      + apply IH. right. apply has_key_setitem_same.
      + apply IH. now left.
    - apply IH. right. now apply has_key_setitem. }
  apply G. now left.
Qed.

Lemma setitem2_returns {K I V} `{EqbLaws K} `{Eqb I}
  (d : dict K (dict I V)) (k : K) (i : I) (v : V) :
  has_key d k = true ->
  exists d',
    setitem2 d k i v = Returns d' /\
    forall k', has_key d k' = true -> has_key d' k' = true.
Proof.
  unfold setitem2, getitem, has_key at 1. intros Hk.
  destruct (get d k) as [inner|]; [|discriminate]. simpl.
  eexists. split; [reflexivity|].
  intros k' Hk'. now apply has_key_setitem.
Qed.

Lemma table_rows_returns (y0 y1 : string) (rows : list string) :
  forall st : data_t * raw_t,
    has_key (fst st) y0 = true -> has_key (fst st) y1 = true ->
    has_key (snd st) y0 = true -> has_key (snd st) y1 = true ->
    exists st', PatternExtractor.table_rows rows y0 y1 st = Returns st'.
Proof.
  induction rows as [|row rows IH]; intros [d r] Hd0 Hd1 Hr0 Hr1;
    cbn [fst snd] in *; cbn [PatternExtractor.table_rows].
  - eauto.
  - destruct (negb (nonempty (strip row))
              || Nat.ltb (String.length (strip row)) 5);
      [now apply IH|].
    destruct (existsb (fun x => contains x (lower (strip row)))
                PatternExtractor.header_words);
      [now apply IH|].
    destruct (match search PatternExtractor.row_pattern (strip row) with
              | Some m => Some m
              | None => search PatternExtractor.indented_row_pattern
                          (strip row)
              end) as [m|]; [|now apply IH].
    destruct (pattern_parse_number_returns (group 2 m)) as [val1 ->].
    destruct (pattern_parse_number_returns (group 3 m)) as [val2 ->].
    cbn [bind fst snd].
    destruct (_normalize_line_item (strip (group 1 m))) as [item|];
      [|now apply IH].
    destruct (setitem2_returns d y1 item
                (PatternExtractor.extracted val1 (strip row)) Hd1)
      as (d1 & -> & Hk1).
    cbn [bind].
    destruct (setitem2_returns d1 y0 item
                (PatternExtractor.extracted val2 (strip row)) (Hk1 _ Hd0))
      as (d2 & -> & Hk2).
    cbn [bind].
    destruct (setitem2_returns r y1 (item_value item) (strip row) Hr1)
      as (r1 & -> & Hk3).
    cbn [bind].
    destruct (setitem2_returns r1 y0 (item_value item) (strip row)
                (Hk3 _ Hr0))
      as (r2 & -> & Hk4).
    cbn [bind]. apply IH; cbn [fst snd]; auto.
Qed.

Lemma extract_from_table_returns (lines years : list string) :
  exists p, PatternExtractor._extract_from_table lines years = Returns p.
Proof.
  unfold PatternExtractor._extract_from_table. cbv zeta.
  destruct years as [|y0 [|y1 ys]]; [eauto | eauto |].
  match goal with
  | |- context [PatternExtractor.table_rows ?rows ?a ?b ?st] =>
      destruct (table_rows_returns a b rows st) as [st' ->]
  end;
    try (cbn [fst snd]; apply dict_of_empty_has_key; cbn [In]; auto).
  cbn [bind]. eauto.
Qed.

(** The pattern engine never raises. *)
Lemma pattern_extract_returns (text : string) :
  exists r, PatternExtractor.extract text = Returns r.
Proof.
  unfold PatternExtractor.extract. cbv zeta.
  destruct (detect_currency_returns text) as [c ->].
  destruct (detect_unit_returns text) as [u ->].
  cbn [bind].
  assert (Hkv : forall (b : bool) (p1 : partial),
            exists p2,
              (if b
               then PatternExtractor._extract_simple_key_value
                      (split "010" text)
               else Returns p1) = Returns p2).
  { intros b p1. destruct b; [|eauto].
    destruct (extract_simple_key_value_ok (split "010" text))
      as (c3 & rc3 & ->). eauto. }
  match goal with
  | |- context [bind (if ?b then _ else _) _] => destruct b
  end.
  - match goal with
    | |- context [PatternExtractor._extract_from_table ?l ?y] =>
        destruct (extract_from_table_returns l y) as [[[d1 r1] w1] ->]
    end.
    cbn [bind].
    match goal with
    | |- context [bind (if ?b then _ else _) _] => destruct b
    end.
    + match goal with
      | |- context [PatternExtractor._extract_line_by_line ?t ?y] =>
          destruct (extract_line_by_line_returns t y) as [[[d2 r2] w2] ->]
      end.
      cbn [bind].
      match goal with
      | |- context [bind (if ?b then _ else _) _] =>
          destruct (Hkv b (d2, r2, w2)) as [[[d3 r3] w3] ->]
      end.
      cbn [bind]. eexists. reflexivity.
    + cbn [bind].
      match goal with
      | |- context [bind (if ?b then _ else _) _] =>
          destruct (Hkv b (d1, r1, w1)) as [[[d3 r3] w3] ->]
      end.
      cbn [bind]. eexists. reflexivity.
  - cbn [bind].
    match goal with
    | |- context [bind (if ?b then _ else _) _] =>
        destruct (Hkv b (([], [], []) : partial)) as [[[d3 r3] w3] ->]
    end.
    cbn [bind]. eexists. reflexivity.
Qed.

End PatternTotal.

(* ================================================================== *)
(** * The properties of the specification *)
(* ================================================================== *)

(** On the table scenario the default engine's table method stores 1100.2
    under "2023" and 1234.5 under "2022", HIGH, with the row as provenance. *)
Lemma free_table_scenario :
  FreeExtractor._extract_table_format table_scenario
  = Returns
      ([("2023", [(REVENUE, FreeExtractor.high (Fin 1100.2)
                              "Revenue $1,100.2 $1,234.5")]);
        ("2022", [(REVENUE, FreeExtractor.high (Fin 1234.5)
                              "Revenue $1,100.2 $1,234.5")])],
       [("2023", [("Revenue", "Revenue $1,100.2 $1,234.5")]);
        ("2022", [("Revenue", "Revenue $1,100.2 $1,234.5")])],
       []).
Proof. vm_compute. reflexivity. Qed.

(** With two decimals on each number the pattern engine's table method
    matches the row and stores the first number, 1100.2, under the second
    header year and the second number, 1234.5, under the first, both HIGH
    with the row as provenance. *)
Lemma pattern_table_two_decimals :
  exists v2023 v2022,
    PatternExtractor._extract_from_table
      ["2022 2023"; "Revenue $1,100.20 $1,234.50"] ["2022"; "2023"]
    = Returns
        ([("2022", [(REVENUE, PatternExtractor.extracted (Some v2022)
                                "Revenue $1,100.20 $1,234.50")]);
          ("2023", [(REVENUE, PatternExtractor.extracted (Some v2023)
                                "Revenue $1,100.20 $1,234.50")])],
         [("2022", [("Revenue", "Revenue $1,100.20 $1,234.50")]);
          ("2023", [("Revenue", "Revenue $1,100.20 $1,234.50")])],
         [])
    /\ float_eq v2023 (Fin 1100.2) /\ float_eq v2022 (Fin 1234.5).
Proof.
  exists (Fin 1100.20), (Fin 1234.50).
  split; [vm_compute; reflexivity|]. split; reflexivity.
Qed.

(** Through the whole pipeline: a row the default engine does not know
    ("Sales") reaches the pattern engine, whose table method skips it for its
    single decimals; the context-window method then reads "1,100" for both
    years. *)
Lemma pipeline_one_decimal_row (filename now : string) :
  exists r,
    DocumentProcessor._extract_financial_data
      ("2022 2023" ++ nl ++ "Sales $1,100.2 $1,234.5") filename now
    = Returns r
    /\ data r
      = [("2022", [(REVENUE,
                    MkExtractedValue (Some (Fin 1100)) (Some "Sales $1,100")
                      HIGH None)]);
         ("2023", [(REVENUE,
                    MkExtractedValue (Some (Fin 1100)) (Some "Sales $1,100")
                      HIGH None)])].
Proof. eexists. split; vm_compute; reflexivity. Qed.

(** C1.  The table scenario, a header line "2022 2023" followed by the row
    "Revenue $1,100.2 $1,234.5", run through the pattern engine's table
    method: the header years are found, but neither row pattern accepts a
    number with a single decimal, so the row is skipped and both periods stay
    empty, where the specification expects 1100.2 under "2023" and 1234.5
    under "2022". *)
Theorem C1_pattern_table_skips_the_scenario_row :
  PatternExtractor._extract_years_from_table table_scenario = ["2022"; "2023"]
  /\ search PatternExtractor.row_pattern "Revenue $1,100.2 $1,234.5" = None
  /\ search PatternExtractor.indented_row_pattern "Revenue $1,100.2 $1,234.5"
     = None
  /\ PatternExtractor._extract_from_table table_scenario ["2022"; "2023"]
     = Returns ([("2022", []); ("2023", [])],
                [("2022", []); ("2023", [])], []).
Proof. vm_compute. repeat split; reflexivity. Qed.

(** C2.  Each engine returns, for every text, a result whose missing items
    are the eleven items of the universe without those present under some
    period of its data; this includes the results without data. *)
Theorem C2_missing_items_complement (text : string) :
  (exists r, FreeExtractor.extract text = Returns r /\ missing_items_ok r)
  /\
  (exists r, PatternExtractor.extract text = Returns r /\ missing_items_ok r).
Proof.
  split.
  - destruct (free_extract_returns text) as (r & E & Hm).
    exists r. split; [exact E | now apply assembled_missing_items_ok].
  - destruct (pattern_extract_returns text) as (r & E).
    exists r. split; [exact E|].
    apply assembled_missing_items_ok.
    now apply (pattern_extract_assembled text).
Qed.

(** On its own the key-value method reads the scenario as specified. *)
Lemma free_key_value_scenario :
  FreeExtractor._extract_key_value_format (split "010" key_value_scenario)
  = Returns
      ([("Current",
         [(REVENUE, FreeExtractor.high (Fin 1234.5) "Revenue: 1234.5");
          (NET_INCOME, FreeExtractor.high (Fin 88.1) "Net Income: 88.1")])],
       [("Current", [("Revenue", "Revenue: 1234.5");
                     ("Net Income", "Net Income: 88.1")])],
       []).
Proof. vm_compute. reflexivity. Qed.

(** C3.  On "Revenue: 1234.5\nNet Income: 88.1" the default engine does not
    reach the key-value method: the table method, tried first, names
    "Revenue" on the first line and reads "1234.5" as the two numbers 123
    and 4.5; the result has the periods "2023" and "2022" with Revenue 123
    and 4.5, and no period "Current". *)
Theorem C3_key_value_scenario_read_as_table :
  findall1 FreeExtractor.table_number_re "Revenue: 1234.5" = ["123"; "4.5"]
  /\ exists r,
       FreeExtractor.extract key_value_scenario = Returns r /\
       data r
       = [("2023", [(REVENUE, FreeExtractor.high (Fin 123) "Revenue: 1234.5")]);
          ("2022", [(REVENUE, FreeExtractor.high (Fin 4.5) "Revenue: 1234.5")])]
       /\ get (data r) "Current" = None.
Proof.
  split; [vm_compute; reflexivity|].
  eexists. split; [vm_compute; reflexivity|].
  split; vm_compute; reflexivity.
Qed.

(** C4.  The pattern engine's parser removes every comma before it looks for
    the European form, so the token "1.234,56" reaches [float] as "1.23456"
    and is read as 1.23456, where the specification expects 1234.56. *)
Theorem C4_european_token_read_as_1_23456 :
  PatternExtractor._parse_number "1.234,56" = Returns (Some (Fin 1.23456)).
Proof. vm_compute. reflexivity. Qed.

(** The default engine's parser raises on what [float] rejects. *)
Lemma C5_free_parser_raises :
  FreeExtractor._parse_number "abc" = Raises ValueError
  /\ FreeExtractor._parse_number "" = Raises ValueError
  /\ FreeExtractor._parse_number "(1,234)" = Raises ValueError.
Proof. vm_compute. repeat split; reflexivity. Qed.

(** C5, amended.  The pattern engine's parser returns a float or [None] on
    every string and never raises; it returns -1234 for "(1,234)" and [None]
    for "abc" and for the empty string.  The default engine's parser has no
    such guard, but on every token its table pattern finds it returns a
    float. *)
Theorem C5_parse_number_fail_soft :
  (forall s, exists r, PatternExtractor._parse_number s = Returns r)
  /\ PatternExtractor._parse_number "(1,234)" = Returns (Some (Fin (-1234)))
  /\ PatternExtractor._parse_number "abc" = Returns None
  /\ PatternExtractor._parse_number "" = Returns None
  /\ (forall line tok,
        In tok (findall1 FreeExtractor.table_number_re line) ->
        exists q, FreeExtractor._parse_number tok = Returns (Fin q)).
Proof.
  split; [apply pattern_parse_number_returns|].
  split; [vm_compute; reflexivity|].
  split; [vm_compute; reflexivity|].
  split; [vm_compute; reflexivity|].
  apply table_tokens_parse.
Qed.

(** C5 at the first token of the row "Revenue $1,100.2 $1,234.5". *)
Lemma C5_parse_number_fail_soft_witness :
  exists q, FreeExtractor._parse_number "1,100.2" = Returns (Fin q).
Proof.
  apply (proj2 (proj2 (proj2 (proj2 C5_parse_number_fail_soft)))
           "Revenue $1,100.2 $1,234.5" "1,100.2").
  vm_compute. left. reflexivity.
Defined.

(** The label "cost of goods" holds no phrase of the table, so the code finds
    nothing; it is a substring of the phrase "cost of goods sold", so the
    lookup worded by the specification answers Cost of Revenue. *)
Lemma C6_label_inside_a_phrase :
  _normalize_line_item "cost of goods" = None
  /\ normalize_either_way "cost of goods" = Some COST_OF_REVENUE.
Proof. vm_compute. split; reflexivity. Qed.

(** C6, amended.  The normalizer lower-cases and trims the label and returns
    the item of the first entry of the table whose phrase is a substring of
    the label.  Only when no phrase occurs in the label do the catch-all
    rules apply: "r&d" or "research" gives R&D, else "sg&a" or "selling"
    gives SG&A, else there is no match.  An item is returned in no other
    way. *)
Theorem C6_normalizer_first_phrase_in_label (text : string) :
  let t := strip (lower text) in
  (forall i phrase item,
     first_hit mappings t i phrase item ->
     _normalize_line_item text = Some item)
  /\ (no_hit mappings t ->
      _normalize_line_item text
      = if contains "r&d" t || contains "research" t then Some RND
        else if contains "sg&a" t || contains "selling" t then Some SGNA
        else None)
  /\ (forall item,
        _normalize_line_item text = Some item ->
        (exists i phrase, first_hit mappings t i phrase item)
        \/ (no_hit mappings t /\ (item = RND \/ item = SGNA))).
Proof.
  intros t. split; [|split].
  - intros i phrase item Hhit. unfold _normalize_line_item. fold t.
    now rewrite (lookup_mappings_first t mappings i phrase item Hhit).
  - intros Hno. unfold _normalize_line_item. fold t.
    now rewrite (lookup_mappings_none t mappings Hno).
  - intros item. unfold _normalize_line_item. fold t.
    destruct (lookup_mappings mappings t) as [found|] eqn:E.
    + intros [= <-]. left. now apply lookup_mappings_some.
    + apply lookup_mappings_none_inv in E. intros H. right.
      split; [exact E|].
      destruct (contains "r&d" t || contains "research" t);
        [left; congruence|].
      destruct (contains "sg&a" t || contains "selling" t);
        [right; congruence | discriminate].
Qed.

(** C6 at the labels "Cost of revenue", first matched by the phrase
    "revenue", and "Selling costs", which holds no phrase of the table. *)
Lemma C6_normalizer_first_phrase_in_label_witness :
  _normalize_line_item "Cost of revenue" = Some REVENUE
  /\ _normalize_line_item "Selling costs" = Some SGNA
  /\ ((exists i phrase,
         first_hit mappings (strip (lower "Cost of revenue")) i phrase REVENUE)
      \/ (no_hit mappings (strip (lower "Cost of revenue"))
          /\ (REVENUE = RND \/ REVENUE = SGNA))).
Proof.
  destruct (C6_normalizer_first_phrase_in_label "Cost of revenue")
    as (Hfirst & _ & Honly).
  destruct (C6_normalizer_first_phrase_in_label "Selling costs")
    as (_ & Hnone & _).
  split; [|split].
  - apply (Hfirst 0 "revenue" REVENUE).
    repeat split; try reflexivity. intros j p i Hj. lia.
  - rewrite Hnone.
    + reflexivity.
    + intros phrase item Hin. cbn [In mappings] in Hin.
      repeat (destruct Hin as [Hin | Hin];
              [inversion Hin; subst; reflexivity|]).
      contradiction.
  - apply Honly. reflexivity.
Defined.

(** The pattern engine never reports LOW: the data it returns always hold
    at least one period, be it the empty "Current". *)
Lemma pattern_confidence_is_medium (text : string)
  (r : FinancialExtractionResult) :
  PatternExtractor.extract text = Returns r -> confidence_overall r = MEDIUM.
Proof.
  unfold PatternExtractor.extract. cbv zeta.
  destruct (PatternExtractor._detect_currency text) as [c|]; cbn [bind];
    [|discriminate].
  destruct (PatternExtractor._detect_unit text) as [u|]; cbn [bind];
    [|discriminate].
  match goal with |- context [bind ?c _] =>
    destruct c as [[[d1 r1] w1]|] end; cbn [bind]; [|discriminate].
  destruct (extract_simple_key_value_ok (split "010" text))
    as (c3 & rc3 & ->).
  destruct d1 as [|period1 d1]; cbn [truthy negb orb bind].
  - intros H. apply Returns_inj in H. subst r. reflexivity.
  - match goal with
    | |- context [PatternExtractor.all_empty ?d ?y] =>
        destruct (PatternExtractor.all_empty d y)
    end;
      cbn [bind]; intros H; apply Returns_inj in H; subst r; reflexivity.
Qed.

(** C7.  For the empty text the pipeline returns a result, with no extracted
    value and all eleven items missing, but its overall confidence is MEDIUM:
    the default engine finds nothing, the pattern engine's fallback returns
    the dictionary with the one empty period "Current", and that dictionary
    counts as data when the confidence is chosen.  The specification expects
    LOW.
    The same happens for a text without any figure. *)
Theorem C7_empty_text_has_medium_confidence (filename now : string) :
  (exists r,
     DocumentProcessor._extract_financial_data "" filename now = Returns r
     /\ confidence_overall r = MEDIUM
     /\ data r = [("Current", [])]
     /\ missing_items r = all_items)
  /\
  (exists r,
     DocumentProcessor._extract_financial_data "no figures here" filename now
     = Returns r
     /\ confidence_overall r = MEDIUM
     /\ data r = [("Current", [])]
     /\ missing_items r = all_items).
Proof. split; eexists; repeat split. Qed.

(** A text that says "millions" after "thousands" is in thousands. *)
Lemma C8_millions_after_thousands :
  contains "millions" "amounts in thousands, shares in millions" = true
  /\ PatternExtractor._detect_unit "amounts in thousands, shares in millions"
     = Returns THOUSANDS.
Proof. vm_compute. split; reflexivity. Qed.

(** C8, amended.  Currency and unit detection never fail, and the first
    entry of the table whose pattern matches the lower-cased text decides.
    A text with "$" is in USD.  A text with "millions" is in MILLIONS when
    none of the words for thousands ("thousand", "k", "000's") occurs in it.
    A text that matches no pattern has UNKNOWN for both. *)
Theorem C8_detection_first_match_wins (text : string) :
  (exists c, PatternExtractor._detect_currency text = Returns c)
  /\ (exists u, PatternExtractor._detect_unit text = Returns u)
  /\ (forall i name pattern,
        nth_error PatternExtractor.currency_patterns i = Some (name, pattern) ->
        PatternExtractor.is_some (search pattern (lower text)) = true ->
        (forall j name' pattern',
           j < i ->
           nth_error PatternExtractor.currency_patterns j
           = Some (name', pattern') ->
           PatternExtractor.is_some (search pattern' (lower text)) = false) ->
        PatternExtractor._detect_currency text
        = PatternExtractor.Currency_of_value name)
  /\ (forall i name pattern,
        nth_error PatternExtractor.unit_patterns i = Some (name, pattern) ->
        PatternExtractor.is_some (search pattern (lower text)) = true ->
        (forall j name' pattern',
           j < i ->
           nth_error PatternExtractor.unit_patterns j
           = Some (name', pattern') ->
           PatternExtractor.is_some (search pattern' (lower text)) = false) ->
        PatternExtractor._detect_unit text
        = PatternExtractor.Unit_of_value name)
  /\ (contains "$" text = true ->
      PatternExtractor._detect_currency text = Returns USD)
  /\ (contains "millions" (lower text) = true ->
      contains "thousand" (lower text) = false ->
      contains "k" (lower text) = false ->
      contains "000's" (lower text) = false ->
      PatternExtractor._detect_unit text = Returns MILLIONS)
  /\ ((forall name pattern,
         In (name, pattern) PatternExtractor.currency_patterns ->
         PatternExtractor.is_some (search pattern (lower text)) = false) ->
      PatternExtractor._detect_currency text = Returns Currency_UNKNOWN)
  /\ ((forall name pattern,
         In (name, pattern) PatternExtractor.unit_patterns ->
         PatternExtractor.is_some (search pattern (lower text)) = false) ->
      PatternExtractor._detect_unit text = Returns Unit_UNKNOWN).
Proof.
  split; [apply detect_currency_returns|].
  split; [apply detect_unit_returns|].
  split; [intros i name pattern; apply first_match_first|].
  split; [intros i name pattern; apply first_match_first|].
  split; [apply detect_currency_dollar|].
  split; [apply detect_unit_millions|].
  split; apply first_match_none.
Qed.

(** C8 at: a text in euros, a text in billions, a text with a dollar sign, a
    text in millions, and a text that matches no pattern. *)
Lemma C8_detection_first_match_wins_witness :
  PatternExtractor._detect_currency "5 euros" = Returns EUR
  /\ PatternExtractor._detect_unit "in billions" = Returns BILLIONS
  /\ PatternExtractor._detect_currency "Total: $ 5" = Returns USD
  /\ PatternExtractor._detect_unit "In Millions" = Returns MILLIONS
  /\ PatternExtractor._detect_currency "12 34" = Returns Currency_UNKNOWN
  /\ PatternExtractor._detect_unit "12 34" = Returns Unit_UNKNOWN.
Proof.
  split; [|split; [|split; [|split; [|split]]]].
  - destruct (C8_detection_first_match_wins "5 euros")
      as (_ & _ & H & _).
    apply (H 1 "EUR" (alts [PatternExtractor.word "€";
                            PatternExtractor.word_s "euro";
                            PatternExtractor.word "eur"])).
    + reflexivity.
    + vm_compute. reflexivity.
    + intros [|j] n p Hj Hn; [|lia].
      inversion Hn; subst. vm_compute. reflexivity.
  - destruct (C8_detection_first_match_wins "in billions")
      as (_ & _ & _ & H & _).
    apply (H 2 "billions" (alts [PatternExtractor.word "billion";
                                 PatternExtractor.word "billions";
                                 PatternExtractor.word "b";
                                 PatternExtractor.word "bn"])).
    + reflexivity.
    + vm_compute. reflexivity.
    + intros [|[|j]] n p Hj Hn; [| |lia];
        inversion Hn; subst; vm_compute; reflexivity.
  - destruct (C8_detection_first_match_wins "Total: $ 5")
      as (_ & _ & _ & _ & H & _).
    apply H. vm_compute. reflexivity.
  - destruct (C8_detection_first_match_wins "In Millions")
      as (_ & _ & _ & _ & _ & H & _).
    apply H; vm_compute; reflexivity.
  - destruct (C8_detection_first_match_wins "12 34")
      as (_ & _ & _ & _ & _ & _ & H & _).
    apply H. intros name pattern Hin. simpl in Hin.
    repeat (destruct Hin as [Hin | Hin];
            [inversion Hin; subst; vm_compute; reflexivity|]).
    contradiction.
  - destruct (C8_detection_first_match_wins "12 34")
      as (_ & _ & _ & _ & _ & _ & _ & H).
    apply H. intros name pattern Hin. simpl in Hin.
    repeat (destruct Hin as [Hin | Hin];
            [inversion Hin; subst; vm_compute; reflexivity|]).
    contradiction.
Defined.

(** No line of the document holds two years, yet the pattern engine takes
    the two years from the whole text, its table method reads the row and the
    engine returns that data; the default engine's table method reads a row
    without any header. *)
Lemma C9_table_without_header_line :
  (forall line, In line (split "010" separate_years_scenario) ->
     search PatternExtractor.table_year_pattern line = None)
  /\ PatternExtractor._extract_years separate_years_scenario
     = ["2022"; "2023"]
  /\ PatternExtractor._extract_from_table
       (split "010" separate_years_scenario)
       (PatternExtractor._extract_years separate_years_scenario)
     = Returns
         ([("2022", [(REVENUE, PatternExtractor.extracted (Some (Fin 200))
                                 "Revenue 100 200")]);
           ("2023", [(REVENUE, PatternExtractor.extracted (Some (Fin 100))
                                 "Revenue 100 200")])],
          [("2022", [("Revenue", "Revenue 100 200")]);
           ("2023", [("Revenue", "Revenue 100 200")])],
          [])
  /\ (exists r,
        PatternExtractor.extract separate_years_scenario = Returns r
        /\ data r
          = [("2022", [(REVENUE, PatternExtractor.extracted (Some (Fin 200))
                                   "Revenue 100 200")]);
             ("2023", [(REVENUE, PatternExtractor.extracted (Some (Fin 100))
                                   "Revenue 100 200")])])
  /\ FreeExtractor._extract_table_format ["Revenue $100 $200"]
     = Returns
         ([("2023", [(REVENUE, FreeExtractor.high (Fin 100)
                                 "Revenue $100 $200")]);
           ("2022", [(REVENUE, FreeExtractor.high (Fin 200)
                                 "Revenue $100 $200")])],
          [("2023", [("Revenue", "Revenue $100 $200")]);
           ("2022", [("Revenue", "Revenue $100 $200")])],
          []).
Proof.
  split.
  - intros line Hin. vm_compute in Hin.
    repeat (destruct Hin as [<- | Hin]; [vm_compute; reflexivity|]).
    contradiction.
  - split; [vm_compute; reflexivity|].
    split; [vm_compute; reflexivity|].
    split; [|vm_compute; reflexivity].
    eexists. split; vm_compute; reflexivity.
Qed.

(** C9, amended.  In the pattern engine, when no line holds two years
    separated by whitespace the years are those of the whole text; when these
    are fewer than two the table method yields no data (and is not run), and
    the engine goes on to the simple key-value method, whose data it
    returns. *)
Theorem C9_fewer_than_two_years_skips_the_table (text : string) :
  let lines := split "010" text in
  (forall line, In line lines ->
     search PatternExtractor.table_year_pattern line = None) ->
  List.length (PatternExtractor._extract_years text) < 2 ->
  PatternExtractor._extract_from_table lines
    (PatternExtractor._extract_years text)
  = Returns ([], [], ["No years found in table"])
  /\ exists c rc r,
       PatternExtractor._extract_simple_key_value lines
       = Returns ([("Current", c)], [("Current", rc)], [])
       /\ PatternExtractor.extract text = Returns r
       /\ data r = [("Current", c)]
       /\ raw_extracts r = [("Current", rc)].
Proof.
  intros lines Hnone Hfew. split.
  - unfold PatternExtractor._extract_from_table.
    destruct (PatternExtractor._extract_years text) as [|y0 [|y1 ys]];
      [reflexivity | reflexivity | simpl in Hfew; lia].
  - apply extract_years_from_table_none in Hnone.
    destruct (pattern_extract_without_years text Hnone Hfew)
      as (c & rc & r & E1 & E2 & E3 & E4 & _).
    exists c, rc, r. auto.
Qed.

(** C9 at a document that names one year and holds no header line. *)
Lemma C9_fewer_than_two_years_skips_the_table_witness :
  exists c rc r,
    PatternExtractor._extract_simple_key_value ["Sales in 2023: 100"]
    = Returns ([("Current", c)], [("Current", rc)], [])
    /\ PatternExtractor.extract "Sales in 2023: 100" = Returns r
    /\ data r = [("Current", c)]
    /\ raw_extracts r = [("Current", rc)].
Proof.
  apply (C9_fewer_than_two_years_skips_the_table "Sales in 2023: 100").
  - intros line Hin. vm_compute in Hin.
    destruct Hin as [<- | []]. vm_compute. reflexivity.
  - vm_compute. lia.
Defined.

(** Whatever years head the document, the periods are "2023" and "2022". *)
Lemma free_table_other_years :
  FreeExtractor._extract_table_format ["2019 2018"; "Revenue $7 $5"]
  = Returns
      ([("2023", [(REVENUE, FreeExtractor.high (Fin 7) "Revenue $7 $5")]);
        ("2022", [(REVENUE, FreeExtractor.high (Fin 5) "Revenue $7 $5")])],
       [("2023", [("Revenue", "Revenue $7 $5")]);
        ("2022", [("Revenue", "Revenue $7 $5")])],
       []).
Proof. vm_compute. reflexivity. Qed.

(** C10.  For every list of lines, the default engine's table method returns
    data with exactly the two periods "2023" and "2022", in this order; an
    item is under both or under neither, and when present its "2023" value is
    the first number and its "2022" value the second number of one line that
    names the item. *)
Theorem C10_table_format_fixed_periods (lines : list string) :
  exists d2023 d2022 raw,
    FreeExtractor._extract_table_format lines
    = Returns ([("2023", d2023); ("2022", d2022)], raw, [])
    /\ table_data_ok lines d2023 d2022.
Proof. apply extract_table_format_ok. Qed.

(* ================================================================== *)
(** * Further properties of the code *)
(* ================================================================== *)

Section FreeEntries.

Lemma key_value_lines_inv (all : list string) :
  forall lines, incl lines all ->
  forall c rc, key_value_data_ok all c ->
  exists c' rc',
    FreeExtractor.key_value_lines lines ([("Current", c)], [("Current", rc)])
    = Returns ([("Current", c')], [("Current", rc')]) /\
    key_value_data_ok all c'.
Proof.
  induction lines as [|line lines IH]; intros Hincl c rc Hok;
    cbn [FreeExtractor.key_value_lines].
  - eauto.
  - assert (Hincl' : incl lines all).
    { intros x Hx. apply Hincl. now right. }
    destruct (contains ":" line) eqn:Hc; [|now apply IH].
    destruct (split1_two_parts ":" line Hc) as (p0 & p1 & Hs). rewrite Hs.
    destruct (findall1 FreeExtractor.kv_number_re (strip p1))
      as [|n0 rest] eqn:F; [now apply IH|].
    destruct (kv_tokens_parse (strip p1) n0) as [q E];
      [rewrite F; simpl; auto|].
    rewrite E. cbn [bind].
    destruct (get FreeExtractor.key_mapping (strip p0)) as [item|] eqn:G;
      [|now apply IH].
    cbn. apply IH; [assumption|].
    intros i v Hget.
    destruct (item_eqb item i) eqn:Ei.
    + apply (key_eqb_eq (K := IncomeStatementItem)) in Ei. subst i.
      rewrite get_setitem_same in Hget. inversion Hget; subst v.
      exists line. split; [apply Hincl; now left|].
      exists p0, p1, n0, rest, (Fin q). auto.
    + assert (Hne : item <> i) by (intros ->; destruct i; discriminate Ei).
      rewrite (get_setitem_other _ _ _ _ Hne) in Hget. now apply Hok.
Qed.

Lemma extract_key_value_format_inv (lines : list string) :
  exists c rc,
    FreeExtractor._extract_key_value_format lines
    = Returns ([("Current", c)], [("Current", rc)], []) /\
    key_value_data_ok lines c.
Proof.
  unfold FreeExtractor._extract_key_value_format.
  destruct (key_value_lines_inv lines lines (incl_refl _) [] [])
    as (c & rc & E & Hok).
  - intros i v H. discriminate H.
  - cbv zeta. rewrite_call FreeExtractor.key_value_lines E.
    cbn [bind fst snd]. eauto.
Qed.

End FreeEntries.

Section FreeCascade.

(** The three ways [_try_all_methods] ends. *)
Lemma try_all_methods_cases (lines : list string) :
  exists p,
    FreeExtractor._try_all_methods lines = Returns p /\
    ((exists a b raw,
        FreeExtractor._extract_table_format lines = Returns p /\
        p = ([("2023", a); ("2022", b)], raw, []) /\
        table_data_ok lines a b /\ (a <> [] \/ b <> []))
     \/
     (exists c rc,
        FreeExtractor._extract_key_value_format lines = Returns p /\
        p = ([("Current", c)], [("Current", rc)], []) /\
        key_value_data_ok lines c /\ c <> [])
     \/
     p = ([], [], ["Using basic line-by-line extraction"])).
Proof.
  unfold FreeExtractor._try_all_methods.
  destruct (extract_table_format_ok lines) as (a & b & raw & E & Hok).
  rewrite E. cbn [bind].
  destruct (FreeExtractor.found_any ([("2023", a); ("2022", b)], raw, []))
    eqn:Hf.
  - eexists. split; [reflexivity|]. left. exists a, b, raw.
    repeat split; auto.
    unfold FreeExtractor.found_any, any_values in Hf. cbn in Hf.
    destruct a; [|left; discriminate]. destruct b; [discriminate|].
    right. discriminate.
  - destruct (extract_key_value_format_inv lines) as (c & rc & E' & Hok').
    rewrite E'. cbn [bind].
    destruct (FreeExtractor.found_any
                ([("Current", c)], [("Current", rc)], [])) eqn:Hf'.
    + eexists. split; [reflexivity|]. right. left. exists c, rc.
      repeat split; auto.
      unfold FreeExtractor.found_any, any_values in Hf'. cbn in Hf'.
      destruct c; [discriminate | discriminate].
    + eexists. split; [reflexivity|]. right. right. reflexivity.
Qed.

End FreeCascade.

Section FreeTheorems.

Lemma table_data_both (lines : list string) (a b : period_data) :
  table_data_ok lines a b -> (a <> [] \/ b <> []) -> a <> [] /\ b <> [].
Proof.
  intros Hok [Ha | Hb].
  - split; [assumption|]. destruct a as [|[k v] a]; [congruence|].
    destruct (Hok k) as [[H _] | (line & v1 & v2 & _ & _ & H & _)].
    + cbn in H. rewrite (key_eqb_refl (K := IncomeStatementItem)) in H.
      discriminate.
    + intros ->. discriminate H.
  - split; [|assumption]. destruct b as [|[k v] b]; [congruence|].
    destruct (Hok k) as [[_ H] | (line & v1 & v2 & _ & H & _ & _)].
    + cbn in H. rewrite (key_eqb_refl (K := IncomeStatementItem)) in H.
      discriminate.
    + intros ->. discriminate H.
Qed.

Lemma free_extract_cases (text : string) :
  exists r,
    FreeExtractor.extract text = Returns r /\
    ((exists a b,
        FreeExtractor._extract_table_format (split "010" text)
        = Returns (data r, raw_extracts r, warnings r) /\
        data r = [("2023", a); ("2022", b)] /\ a <> [] /\ b <> [] /\
        confidence_overall r = HIGH)
     \/
     (exists c,
        FreeExtractor._extract_key_value_format (split "010" text)
        = Returns (data r, raw_extracts r, warnings r) /\
        data r = [("Current", c)] /\ c <> [] /\
        confidence_overall r = HIGH)
     \/
     (data r = [] /\ raw_extracts r = [] /\
      warnings r = ["Using basic line-by-line extraction"] /\
      confidence_overall r = LOW /\ missing_items r = all_items)).
Proof.
  unfold FreeExtractor.extract. cbv zeta.
  destruct (try_all_methods_cases (split "010" text)) as (p & E & Hcases).
  rewrite E. cbn [bind].
  destruct Hcases as [(a & b & raw & Et & -> & Hok & Hne)
                     | [(c & rc & Ek & -> & Hok & Hne) | ->]].
  - eexists. split; [reflexivity|]. left. exists a, b.
    destruct (table_data_both _ _ _ Hok Hne) as [Ha Hb].
    cbn [data raw_extracts warnings confidence_overall truthy].
    repeat split; auto.
  - eexists. split; [reflexivity|]. right. left. exists c.
    cbn [data raw_extracts warnings confidence_overall truthy].
    repeat split; auto.
  - eexists. split; [reflexivity|]. right. right.
    repeat split.
Qed.


Lemma free_extract_marks (text : string) :
  exists r,
    FreeExtractor.extract text = Returns r /\
    forall period item v,
      entry (data r) period item v ->
      confidence v = HIGH /\ notes v = None /\
      (exists q, value v = Some (Fin q)) /\
      exists line,
        In line (split "010" text) /\
        (original_text v = Some line \/ original_text v = Some (strip line)).
Proof.
  unfold FreeExtractor.extract. cbv zeta.
  destruct (try_all_methods_cases (split "010" text)) as (p & E & Hcases).
  rewrite E. cbn [bind].
  destruct Hcases as [(a & b & raw & Et & -> & Hok & Hne)
                     | [(c & rc & Ek & -> & Hok & Hne) | ->]];
    (eexists; split; [reflexivity|]); cbn [data];
    intros period item v (yd & Hp & Hv).
  - assert (Hrow : exists line v1 v2,
               In line (map strip (split "010" text)) /\
               table_row line item v1 v2 /\ (v = v1 \/ v = v2)).
    { cbn [get] in Hp.
      destruct (key_eqb "2023" period).
      - inversion Hp; subst yd.
        destruct (Hok item) as [[H _] | (line & v1 & v2 & Hl & H1 & H2 & Hr)];
          [congruence|].
        exists line, v1, v2. repeat split; auto. left. congruence.
      - destruct (key_eqb "2022" period); [|discriminate].
        inversion Hp; subst yd.
        destruct (Hok item) as [[_ H] | (line & v1 & v2 & Hl & H1 & H2 & Hr)];
          [congruence|].
        exists line, v1, v2. repeat split; auto. right. congruence. }
    destruct Hrow as (line & v1 & v2 & Hl & Hr & Hv12).
    apply in_map_iff in Hl. destruct Hl as (raw_line & <- & Hl).
    destruct Hr as (item_text & n0 & n1 & rest & x0 & x1 &
                    _ & _ & F & E0 & E1 & -> & ->).
    destruct (table_tokens_parse (strip raw_line) n0) as [q0 E0'];
      [rewrite F; simpl; auto|].
    destruct (table_tokens_parse (strip raw_line) n1) as [q1 E1'];
      [rewrite F; simpl; auto|].
    rewrite E0' in E0. rewrite E1' in E1.
    apply Returns_inj in E0, E1. subst x0 x1.
    destruct Hv12 as [-> | ->]; cbn; repeat split; eauto.
  - cbn [get] in Hp. destruct (key_eqb "Current" period); [|discriminate].
    inversion Hp; subst yd.
    destruct (Hok item v Hv) as (line & Hl & Hr).
    destruct Hr as (p0 & p1 & n0 & rest & x & Hs & G & F & Ef & ->).
    destruct (kv_tokens_parse (strip p1) n0) as [q Ef'];
      [rewrite F; simpl; auto|].
    rewrite Ef' in Ef. apply Returns_inj in Ef. subst x.
    cbn; repeat split; eauto.
  - discriminate Hp.
Qed.


End FreeTheorems.

Section FreeTableWins.

Lemma setitem_nonempty {K V} `{Eqb K} (d : dict K V) (k : K) (v : V) :
  setitem d k v <> [].
Proof.
  destruct d as [|[k' v'] d]; cbn [setitem]; [discriminate|].
  destruct (key_eqb k' k); discriminate.
Qed.

Lemma table_items_grows (line : string) :
  forall items a b ra rb,
  exists a' b' ra' rb',
    FreeExtractor.table_items items line (table_state a b ra rb)
    = Returns (table_state a' b' ra' rb') /\
    (a <> [] -> a' <> []) /\
    ((exists item_text item,
        In (item_text, item) items /\ contains item_text line = true) ->
     2 <= List.length (findall1 FreeExtractor.table_number_re line) ->
     a' <> []).
Proof.
  induction items as [|[item_text standard_item] items IH];
    intros a b ra rb; cbn [FreeExtractor.table_items].
  - exists a, b, ra, rb. split; [reflexivity|]. split; [auto|].
    intros (it & i & [] & _).
  - destruct (contains item_text line) eqn:Hc.
    + destruct (findall1 FreeExtractor.table_number_re line)
        as [|n0 [|n1 rest]] eqn:F.
      * destruct (IH a b ra rb) as (a' & b' & ra' & rb' & E & Hk & _).
        exists a', b', ra', rb'. split; [exact E|]. split; [exact Hk|].
        intros _ Hlen. cbn in Hlen. lia.
      * destruct (IH a b ra rb) as (a' & b' & ra' & rb' & E & Hk & _).
        exists a', b', ra', rb'. split; [exact E|]. split; [exact Hk|].
        intros _ Hlen. cbn in Hlen. lia.
      * destruct (table_tokens_parse line n0) as [q0 E0];
          [rewrite F; cbn [In]; auto|].
        destruct (table_tokens_parse line n1) as [q1 E1];
          [rewrite F; cbn [In]; auto|].
        rewrite E0, E1. simpl.
        eexists _, _, _, _. split; [reflexivity|].
        split; intros; apply setitem_nonempty.
    + destruct (IH a b ra rb) as (a' & b' & ra' & rb' & E & Hk & Hhit).
      exists a', b', ra', rb'. split; [exact E|]. split; [exact Hk|].
      intros (it & i & [Hin | Hin] & Hit) Hlen.
      * inversion Hin; subst. congruence.
      * apply Hhit; eauto.
Qed.

Lemma item_mapping_names (item_text : string) (item : IncomeStatementItem) :
  In (item_text, item) FreeExtractor.item_mapping ->
  contains item_text EmptyString = false.
Proof.
  unfold FreeExtractor.item_mapping. cbn [In].
  intros H.
  repeat (destruct H as [H | H]; [inversion H; reflexivity|]).
  contradiction.
Qed.

Lemma table_lines_grows (line0 : string) :
  (exists item_text item,
     In (item_text, item) FreeExtractor.item_mapping /\
     contains item_text (strip line0) = true) ->
  contains "CONSOLIDATED" (strip line0) = false ->
  contains "In millions" (strip line0) = false ->
  2 <= List.length (findall1 FreeExtractor.table_number_re (strip line0)) ->
  forall lines a b ra rb,
  exists a' b' ra' rb',
    FreeExtractor.table_lines lines (table_state a b ra rb)
    = Returns (table_state a' b' ra' rb') /\
    (a <> [] -> a' <> []) /\
    (In line0 lines -> a' <> []).
Proof.
  intros Hnamed Hc Hm Hlen.
  induction lines as [|line lines IH]; intros a b ra rb;
    cbn [FreeExtractor.table_lines].
  - exists a, b, ra, rb. split; [reflexivity|]. split; [auto|]. intros [].
  - cbv zeta.
    destruct (negb (nonempty (strip line))
              || contains "CONSOLIDATED" (strip line)
              || contains "In millions" (strip line)) eqn:Eskip.
    + destruct (IH a b ra rb) as (a' & b' & ra' & rb' & E & Hk & Hin).
      exists a', b', ra', rb'. split; [exact E|]. split; [exact Hk|].
      intros [<- | H]; [|auto]. exfalso.
      rewrite Hc, Hm, !orb_false_r in Eskip.
      destruct (strip line) eqn:Es; [|discriminate].
      destruct Hnamed as (it & i & Hin' & Hit).
      rewrite (item_mapping_names it i Hin') in Hit. discriminate.
    + destruct (table_items_grows (strip line) FreeExtractor.item_mapping
                  a b ra rb)
        as (a1 & b1 & ra1 & rb1 & E1 & Hk1 & Hhit1).
      rewrite E1. cbn [bind].
      destruct (IH a1 b1 ra1 rb1) as (a' & b' & ra' & rb' & E & Hk & Hin).
      exists a', b', ra', rb'. split; [exact E|].
      split; [auto|].
      intros [<- | H]; [|auto]. apply Hk. now apply Hhit1.
Qed.

(** X3.  The default engine reads a document as a table as soon as one of
    its lines, other than a heading, names an item of the table method and
    holds two number tokens: the result then has the periods "2023" and
    "2022", both filled, and the key-value method is not consulted. *)
Theorem free_table_wins_on_a_named_row
  (text line item_text : string) (item : IncomeStatementItem) :
  In line (split "010" text) ->
  In (item_text, item) FreeExtractor.item_mapping ->
  contains item_text (strip line) = true ->
  contains "CONSOLIDATED" (strip line) = false ->
  contains "In millions" (strip line) = false ->
  2 <= List.length (findall1 FreeExtractor.table_number_re (strip line)) ->
  exists r a b,
    FreeExtractor.extract text = Returns r /\
    FreeExtractor._extract_table_format (split "010" text)
    = Returns (data r, raw_extracts r, warnings r) /\
    data r = [("2023", a); ("2022", b)] /\ a <> [] /\ b <> [] /\
    confidence_overall r = HIGH.
Proof.
  intros Hline Hitem Hc Hcons Hmill Hlen.
  destruct (extract_table_format_ok (split "010" text))
    as (a & b & raw & E & Hok).
  assert (Ha : a <> []).
  { destruct (table_lines_grows line (ex_intro _ item_text
                 (ex_intro _ item (conj Hitem Hc))) Hcons Hmill Hlen
                (split "010" text) [] [] [] [])
      as (a' & b' & ra' & rb' & E' & _ & Hin).
    revert E. unfold FreeExtractor._extract_table_format. cbv zeta.
    rewrite_call FreeExtractor.table_lines E'.
    cbn [bind fst snd table_state]. intros E. apply Returns_inj in E.
    inversion E; subst. now apply Hin. }
  destruct (table_data_both _ a b Hok (or_introl Ha)) as [_ Hb].
  unfold FreeExtractor.extract, FreeExtractor._try_all_methods. cbv zeta.
  rewrite E. cbn [bind FreeExtractor.found_any].
  destruct a as [|x a]; [congruence|].
  cbn [truthy any_values values map snd existsb orb andb bind].
  eexists. exists (x :: a), b. split; [reflexivity|].
  cbn [data raw_extracts warnings confidence_overall truthy].
  repeat split; auto.
Qed.

Lemma free_table_wins_on_a_named_row_witness :
  exists r a b,
    FreeExtractor.extract "Revenue: 1234.5" = Returns r /\
    FreeExtractor._extract_table_format (split "010" "Revenue: 1234.5")
    = Returns (data r, raw_extracts r, warnings r) /\
    data r = [("2023", a); ("2022", b)] /\ a <> [] /\ b <> [] /\
    confidence_overall r = HIGH.
Proof.
  apply (free_table_wins_on_a_named_row
           "Revenue: 1234.5" "Revenue: 1234.5" "Revenue" REVENUE).
  - left. reflexivity.
  - left. reflexivity.
  - reflexivity.
  - reflexivity.
  - reflexivity.
  - vm_compute. lia.
Defined.

End FreeTableWins.

Section FreeKeyValue.

(** X4.  The default engine's key-value method fills the one period
    "Current" and nothing else; it can only yield Revenue, Operating Expenses
    and Net Income, each read from a line of the form key, colon, value whose
    key is one of its three keys and whose first number is the value. *)
Theorem free_key_value_three_items (lines : list string) :
  exists c rc,
    FreeExtractor._extract_key_value_format lines
    = Returns ([("Current", c)], [("Current", rc)], []) /\
    forall item v,
      get c item = Some v ->
      (item = REVENUE \/ item = OPERATING_EXPENSES \/ item = NET_INCOME) /\
      exists line, In line lines /\ key_value_row line item v.
Proof.
  destruct (extract_key_value_format_inv lines) as (c & rc & E & Hok).
  exists c, rc. split; [exact E|].
  intros item v Hget. destruct (Hok item v Hget) as (line & Hl & Hr).
  split; [|eauto].
  destruct Hr as (p0 & p1 & n0 & rest & x & _ & G & _).
  unfold FreeExtractor.key_mapping in G. cbn [get] in G.
  repeat match type of G with
         | (if ?b then _ else _) = _ => destruct b
         end; inversion G; auto.
Qed.

End FreeKeyValue.

Section ParseNumberFacts.

Lemma lacks_remove_char (c : ascii) (s : string) :
  lacks c (remove_char c s) = true.
Proof.
  induction s as [|d s IH]; [reflexivity|]. cbn [remove_char].
  destruct (Ascii.eqb d c) eqn:E; [exact IH|].
  cbn [lacks]. now rewrite E, IH.
Qed.

Lemma lacks_remove_other (c d : ascii) (s : string) :
  lacks c s = true -> lacks c (remove_char d s) = true.
Proof.
  induction s as [|e s IH]; [reflexivity|]. cbn [lacks remove_char].
  intros H. apply andb_true_iff in H. destruct H as [He Hs].
  destruct (Ascii.eqb e d); [auto|]. cbn [lacks]. now rewrite He, IH.
Qed.

Lemma lacks_not_contains (c : ascii) (s : string) :
  lacks c s = true -> contains (String c EmptyString) s = false.
Proof.
  induction s as [|d s IH]; [reflexivity|]. cbn [lacks contains startswith].
  intros H. apply andb_true_iff in H. destruct H as [Hd Hs].
  apply negb_true_iff in Hd. rewrite Ascii.eqb_sym, Hd. cbn. auto.
Qed.

Lemma lacks_substring (c : ascii) (s : string) :
  lacks c s = true ->
  forall i n, lacks c (String.substring i n s) = true.
Proof.
  induction s as [|d s IH]; intros H i n.
  - destruct i, n; reflexivity.
  - cbn [lacks] in H. apply andb_true_iff in H. destruct H as [Hd Hs].
    destruct i as [|i]; destruct n as [|n]; cbn [String.substring lacks];
      auto.
    now rewrite Hd, IH.
Qed.

Lemma pattern_parse_number_eq (s : string) :
  let t := remove_char " " (remove_char "," s) in
  let u := if startswith "(" t && endswith ")" t
           then ("-" ++ slice_1_m1 t)%string else t in
  PatternExtractor._parse_number s
  = Returns (match float u with
             | Returns v => Some v
             | Raises _ => None
             end).
Proof.
  intros t u. unfold PatternExtractor._parse_number. cbv zeta. fold t. fold u.
  assert (Hl : lacks "," u = true).
  { assert (Ht : lacks "," t = true)
      by (apply lacks_remove_other, lacks_remove_char).
    unfold u. destruct (startswith "(" t && endswith ")" t); [|exact Ht].
    cbn [append lacks]. unfold slice_1_m1, slice.
    now rewrite lacks_substring. }
  rewrite (lacks_not_contains "," u Hl), andb_false_r. cbn [bind].
  destruct (float u) as [v|e] eqn:F; cbn [bind try_except_ValueError].
  - reflexivity.
  - now rewrite (float_only_ValueError u e F).
Qed.

(** X5.  The pattern engine's parser never applies its rule for the
    European form: on every string it removes the commas and the blanks,
    turns surrounding parentheses into a minus sign and gives the rest to
    [float]; what [float] rejects becomes [None]. *)
Theorem pattern_parse_number_without_european_rule (s : string) :
  let t := remove_char " " (remove_char "," s) in
  let u := if startswith "(" t && endswith ")" t
           then ("-" ++ slice_1_m1 t)%string else t in
  PatternExtractor._parse_number s
  = Returns (match float u with
             | Returns v => Some v
             | Raises _ => None
             end).
Proof. exact (pattern_parse_number_eq s). Qed.

Lemma digits_val_nonneg (s : string) (acc : Z) :
  (0 <= acc)%Z -> (0 <= digits_val acc s)%Z.
Proof.
  revert acc. induction s as [|c s IH]; intros acc H; cbn [digits_val];
    [exact H|].
  apply IH. unfold digit_val. lia.
Qed.

Lemma scale10_nonneg (m e : Z) : (0 <= m)%Z -> (0 <= scale10 m e)%Q.
Proof.
  intros H. unfold scale10. destruct (0 <=? e)%Z eqn:E; unfold Qle; cbn.
  - apply Z.leb_le in E. assert (0 < 10 ^ e)%Z by (apply Z.pow_pos_nonneg; lia).
    nia.
  - lia.
Qed.

Lemma parse_decimal_nonneg (s : string) (q : Q) :
  parse_decimal s = Some q -> (0 <= q)%Q.
Proof.
  unfold parse_decimal. destruct (span_digits s) as [ip r].
  destruct (match r with
            | String c r1 =>
                if Ascii.eqb c "." then span_digits r1 else (EmptyString, r)
            | EmptyString => (EmptyString, r)
            end) as [fp r'].
  destruct (String.length ip + String.length fp); [discriminate|].
  destruct (parse_exponent r'); [|discriminate].
  intros [= <-]. apply scale10_nonneg, digits_val_nonneg. lia.
Qed.

Lemma plain_lacks (c : ascii) (ip fp' : string) :
  is_digit c = false -> Ascii.eqb "." c = false ->
  all_digits ip = true -> fraction_part fp' -> lacks c (ip ++ fp') = true.
Proof.
  intros Hc Hd Hip Hfp. rewrite lacks_app, (all_digits_lacks c ip Hc Hip).
  destruct Hfp as [-> | (fp & -> & Hfp)]; [reflexivity|].
  cbn [lacks andb]. rewrite Hd. cbn. now apply all_digits_lacks.
Qed.

(** [float] of a plain numeral with an optional minus sign. *)
Lemma float_signed_plain (ip fp' : string) (q : Q) :
  all_digits ip = true -> ip <> EmptyString -> fraction_part fp' ->
  parse_decimal (ip ++ fp') = Some q ->
  float (ip ++ fp') = Returns (Fin q) /\
  float ("-" ++ ip ++ fp') = Returns (Fin (Qopp q)).
Proof.
  intros Hip Hne Hfp Hq.
  pose proof (plain_no_space ip fp' Hip Hfp) as Hns.
  pose proof (plain_lacks "_" ip fp' eq_refl eq_refl Hip Hfp) as Hu.
  split; unfold float.
  - rewrite (strip_no_space _ Hns), (strip_underscores_lacks _ Hu None eq_refl).
    unfold parse_float_literal, take_sign.
    destruct ip as [|c ip]; [congruence|]. cbn [all_digits] in Hip.
    apply andb_true_iff in Hip. destruct Hip as [Hc _].
    change ((String c ip ++ fp')%string) with (String c (ip ++ fp')) in *.
    cbv iota.
    rewrite (digit_neq c "-" Hc eq_refl), (digit_neq c "+" Hc eq_refl).
    now rewrite Hq.
  - rewrite (strip_no_space ("-" ++ ip ++ fp')) by (cbn; exact Hns).
    rewrite (strip_underscores_lacks ("-" ++ ip ++ fp')) by
      (try reflexivity; cbn; exact Hu).
    unfold parse_float_literal. cbn [append take_sign].
    replace (Ascii.eqb "-" "-") with true by reflexivity.
    now rewrite Hq.
Qed.

Lemma endswith_app (p a : string) : endswith p (a ++ p) = true.
Proof.
  induction a as [|c a IH]; cbn [append].
  - destruct p; cbn [endswith]; now rewrite String.eqb_refl.
  - cbn [endswith]. rewrite IH. apply orb_true_r.
Qed.

Lemma slice_1_m1_wrapped (c : ascii) (t e : string) :
  String.length e = 1 -> slice_1_m1 (String c (t ++ e)) = t.
Proof.
  intros He. unfold slice_1_m1, slice. cbn [String.length String.substring].
  rewrite length_append, He.
  replace (S (String.length t + 1) - 1 - 1) with (String.length t) by lia.
  apply substring_prefix.
Qed.

(** X6.  Accounting negatives: where the pattern engine's parser reads a
    numeral, with or without thousands separators, as [q], it reads the same
    numeral in parentheses as [- q]; [q] itself is never negative. *)
Theorem pattern_parse_number_parentheses (w ip fp' : string) :
  remove_char " " (remove_char "," w) = (ip ++ fp')%string ->
  all_digits ip = true -> ip <> EmptyString -> fraction_part fp' ->
  exists q,
    (0 <= q)%Q /\
    PatternExtractor._parse_number w = Returns (Some (Fin q)) /\
    PatternExtractor._parse_number ("(" ++ w ++ ")")
    = Returns (Some (Fin (Qopp q))).
Proof.
  intros Hw Hip Hne Hfp.
  destruct (parse_decimal_plain ip fp' Hip Hne Hfp) as [q Hq].
  destruct (float_signed_plain ip fp' q Hip Hne Hfp Hq) as [F1 F2].
  exists q. split; [exact (parse_decimal_nonneg _ _ Hq)|].
  split; rewrite pattern_parse_number_eq; cbv zeta.
  - rewrite Hw.
    destruct ip as [|c ip]; [congruence|]. cbn [all_digits] in Hip.
    apply andb_true_iff in Hip. destruct Hip as [Hc _].
    change ((String c ip ++ fp')%string) with (String c (ip ++ fp')) in *.
    cbn [startswith]. rewrite Ascii.eqb_sym, (digit_neq c "(" Hc eq_refl).
    cbn [andb]. now rewrite F1.
  - rewrite !remove_char_app, Hw.
    change (remove_char " " (remove_char "," "(")) with "(".
    change (remove_char " " (remove_char "," ")")) with ")".
    change ("(" ++ (ip ++ fp') ++ ")")%string
      with (String "(" ((ip ++ fp') ++ ")")).
    rewrite slice_1_m1_wrapped by reflexivity.
    cbn [startswith]. replace (Ascii.eqb "(" "(") with true by reflexivity.
    change (String "(" ((ip ++ fp') ++ ")"))
      with ("(" ++ (ip ++ fp') ++ ")")%string.
    rewrite <- append_assoc, endswith_app. cbn [andb].
    now rewrite F2.
Qed.

Lemma pattern_parse_number_parentheses_witness :
  exists q,
    (0 <= q)%Q /\
    PatternExtractor._parse_number "1,234.50" = Returns (Some (Fin q)) /\
    PatternExtractor._parse_number "(1,234.50)"
    = Returns (Some (Fin (Qopp q))).
Proof.
  apply (pattern_parse_number_parentheses "1,234.50" "1234" ".50").
  - reflexivity.
  - reflexivity.
  - discriminate.
  - right. exists "50". split; reflexivity.
Defined.

End ParseNumberFacts.

Section Years.

Lemma ascii_compare_lt_trans (a b c : ascii) :
  Ascii.compare a b = Lt -> Ascii.compare b c = Lt -> Ascii.compare a c = Lt.
Proof.
  unfold Ascii.compare. rewrite !N.compare_lt_iff. apply N.lt_trans.
Qed.

Lemma string_compare_lt_trans (x : string) :
  forall y z,
    String.compare x y = Lt -> String.compare y z = Lt ->
    String.compare x z = Lt.
Proof.
  induction x as [|a x IH]; intros [|b y] [|c z]; cbn [String.compare];
    try discriminate; try reflexivity.
  destruct (Ascii.compare a b) eqn:Eab; try discriminate;
    destruct (Ascii.compare b c) eqn:Ebc; try discriminate; intros H1 H2.
  - apply Ascii.compare_eq_iff in Eab, Ebc. subst b c.
    replace (Ascii.compare a a) with Eq
      by (unfold Ascii.compare; now rewrite N.compare_refl).
    eauto.
  - apply Ascii.compare_eq_iff in Eab. subst b. now rewrite Ebc.
  - apply Ascii.compare_eq_iff in Ebc. subst c. now rewrite Eab.
  - now rewrite (ascii_compare_lt_trans a b c Eab Ebc).
Qed.

Lemma ltb_trans (x y z : string) :
  String.ltb x y = true -> String.ltb y z = true -> String.ltb x z = true.
Proof.
  unfold String.ltb. intros H1 H2.
  destruct (String.compare x y) eqn:E1; try discriminate.
  destruct (String.compare y z) eqn:E2; try discriminate.
  now rewrite (string_compare_lt_trans x y z E1 E2).
Qed.

Lemma ltb_total (x y : string) :
  String.eqb x y = false -> String.ltb x y = false -> String.ltb y x = true.
Proof.
  unfold String.ltb. intros He Hl. rewrite (String.compare_antisym y x).
  destruct (String.compare x y) eqn:E; try discriminate; [|reflexivity].
  apply String.compare_eq_iff in E. subst y.
  now rewrite String.eqb_refl in He.
Qed.

Lemma in_insert_sorted (x y : string) (l : list string) :
  In y (insert_sorted x l) <-> y = x \/ In y l.
Proof.
  induction l as [|z l IH]; cbn [insert_sorted In].
  - intuition congruence.
  - destruct (String.eqb x z) eqn:E.
    + apply String.eqb_eq in E. subst z. cbn [In]. intuition congruence.
    + destruct (String.ltb x z); cbn [In]; rewrite ?IH; intuition congruence.
Qed.

Lemma in_sorted_set (y : string) (l : list string) :
  In y (sorted_set l) <-> In y l.
Proof.
  induction l as [|x l IH]; cbn [sorted_set fold_right In]; [reflexivity|].
  fold (sorted_set l). rewrite in_insert_sorted, IH. intuition congruence.
Qed.

Lemma insert_sorted_increasing (x : string) (l : list string) :
  StronglySorted (fun a b => String.ltb a b = true) l ->
  StronglySorted (fun a b => String.ltb a b = true) (insert_sorted x l).
Proof.
  induction 1 as [|z l Hs IH Hz]; cbn [insert_sorted].
  - repeat constructor.
  - destruct (String.eqb x z) eqn:E; [now constructor|].
    destruct (String.ltb x z) eqn:L.
    + constructor; [now constructor|].
      constructor; [exact L|].
      rewrite Forall_forall in *. intros y Hy.
      apply (ltb_trans x z y L), Hz, Hy.
    + constructor; [exact IH|].
      rewrite Forall_forall in *. intros y Hy.
      apply in_insert_sorted in Hy. destruct Hy as [-> | Hy]; [|auto].
      now apply ltb_total.
Qed.

Lemma sorted_set_increasing (l : list string) :
  StronglySorted (fun a b => String.ltb a b = true) (sorted_set l).
Proof.
  induction l as [|x l IH]; cbn [sorted_set fold_right]; [constructor|].
  now apply insert_sorted_increasing.
Qed.

Lemma startswith_app (w post : string) : startswith w (w ++ post) = true.
Proof.
  induction w as [|c w IH]; [reflexivity|]. cbn [append startswith].
  now rewrite Ascii.eqb_refl, IH.
Qed.

Lemma contains_app (w pre post : string) :
  contains w (pre ++ w ++ post) = true.
Proof.
  induction pre as [|c pre IH]; cbn [append].
  - destruct (w ++ post)%string eqn:E; cbn [contains];
      rewrite <- E, startswith_app; reflexivity.
  - cbn [contains]. rewrite IH. apply orb_true_r.
Qed.

(** Every match of [finditer] is an occurrence of a word of the pattern. *)
Lemma matches_from_occurs (r : regex) (s : string) :
  (forall w, lang r w -> w <> EmptyString) ->
  forall fuel done rest m,
    s = (done ++ rest)%string ->
    In m (matches_from fuel r rest (String.length done)) ->
    exists pre post, s = (pre ++ group0 s m ++ post)%string.
Proof.
  intros Hne. induction fuel as [|fuel IH]; intros done rest m Hs Hin.
  - contradiction.
  - cbn [matches_from] in Hin.
    destruct (search_from r rest (String.length done)) as [m0|] eqn:E;
      [|contradiction].
    apply search_from_span in E.
    destruct E as (pre & w & post & -> & HL & Hst & Hen).
    destruct Hin as [<- | Hin].
    + exists (done ++ pre)%string, post.
      unfold group0. rewrite Hen, Hst, Hs.
      replace (String.length done + String.length pre + String.length w
               - (String.length done + String.length pre))
        with (String.length w) by lia.
      rewrite <- length_append, <- append_assoc, substring_skip.
      now rewrite substring_prefix.
    + assert (Hw : 0 < String.length w).
      { specialize (Hne w HL). destruct w; [congruence | simpl; lia]. }
      replace (Nat.max (m_end m0) (S (m_start m0))) with (m_end m0) in Hin
        by lia.
      apply (IH (done ++ pre ++ w)%string post m).
      * now rewrite Hs, !append_assoc.
      * rewrite !length_append.
        replace (String.length done + (String.length pre + String.length w))
          with (m_end m0) by lia.
        replace (m_end m0 - String.length done)
          with (String.length (pre ++ w)) in Hin
          by (rewrite length_append; lia).
        rewrite <- append_assoc, drop_app in Hin. exact Hin.
Qed.

Lemma findall0_occurs (r : regex) (s tok : string) :
  (forall w, lang r w -> w <> EmptyString) ->
  In tok (findall0 r s) -> contains tok s = true.
Proof.
  intros Hne H. unfold findall0, finditer in H.
  apply in_map_iff in H. destruct H as (m & <- & H).
  destruct (matches_from_occurs r s Hne _ EmptyString s m eq_refl H)
    as (pre & post & E).
  rewrite E at 2. apply contains_app.
Qed.

Lemma lang_year_shape (y : string) :
  lang PatternExtractor.year_pattern y ->
  exists d, (y = "20" ++ d \/ y = "19" ++ d)%string /\
            all_digits d = true /\ String.length d = 2.
Proof.
  unfold PatternExtractor.year_pattern. cbn [lang].
  intros [H | H]; destruct H as (a & b & -> & Ha & Hb);
    apply lang_word in Ha; subst a; exists b;
    pose proof (lang_digit_2 b Hb) as Hd; (split; [auto|]);
    (split; [exact Hd|]).
  all: cbn [digit_2 lang] in Hb;
    destruct Hb as (x1 & x2 & -> & (c1 & _ & ->) & (c2 & _ & ->));
    reflexivity.
Qed.

(** X7.  The years the pattern engine reads from a text come in strictly
    increasing order, so without repetition and the earliest first; each is
    a four-character year 19dd or 20dd that occurs in the text. *)
Theorem extract_years_increasing_years_of_text (text : string) :
  StronglySorted (fun a b => String.ltb a b = true)
    (PatternExtractor._extract_years text) /\
  forall y, In y (PatternExtractor._extract_years text) ->
    contains y text = true /\
    exists d, (y = "20" ++ d \/ y = "19" ++ d)%string /\
              all_digits d = true /\ String.length d = 2.
Proof.
  unfold PatternExtractor._extract_years. split.
  - apply sorted_set_increasing.
  - intros y Hy. apply (proj1 (in_sorted_set _ _)) in Hy.
    assert (Hne : forall w, lang PatternExtractor.year_pattern w ->
                            w <> EmptyString)
      by (intros w Hw; apply (lang_year_pattern w Hw)).
    split.
    + exact (findall0_occurs _ _ _ Hne Hy).
    + apply lang_year_shape. exact (findall0_lang _ _ _ Hne Hy).
Qed.

End Years.

Section Groups.
Context {A : Type}.

Lemma star_loop_keeps (L : string -> Prop)
  (step : string -> nat -> captures -> @cont A -> option A) greedy :
  keeps_groups L step ->
  forall fuel,
    keeps_groups (star_lang L)
      (fun rest pos caps k => star_loop step greedy k fuel rest pos caps).
Proof.
  intros Hstep fuel.
  induction fuel as [|fuel IH]; intros rest pos caps k0 x H.
  - cbn [star_loop] in H. exists EmptyString, rest.
    rewrite Nat.add_0_r. repeat split; auto. constructor.
  - cbn [star_loop] in H.
    assert (Hcases :
      step rest pos caps
        (fun rest' pos' caps' =>
           if Nat.ltb pos pos'
           then star_loop step greedy k0 fuel rest' pos' caps'
           else None) = Some x
      \/ k0 rest pos caps = Some x).
    { destruct greedy; apply first_of_some in H; tauto. }
    destruct Hcases as [Hstep1 | Hk].
    + apply Hstep in Hstep1.
      destruct Hstep1 as (w1 & rest1 & -> & HL & Hnext).
      destruct (Nat.ltb pos (pos + String.length w1)); [|discriminate].
      apply IH in Hnext.
      destruct Hnext as (w2 & rest2 & -> & HL2 & Hk).
      exists (w1 ++ w2)%string, rest2.
      rewrite append_assoc, length_append, Nat.add_assoc.
      repeat split; auto. now constructor.
    + exists EmptyString, rest.
      rewrite Nat.add_0_r. repeat split; auto. constructor.
Qed.

Lemma rmatch_keeps (r : regex) :
  group_free r = true -> keeps_groups (A := A) (lang r) (rmatch r).
Proof.
  induction r as [|p|r1 IH1 r2 IH2|r1 IH1 r2 IH2|g r1 IH1|n r1 IH1| |];
    intros Hg rest pos caps k x H; cbn [group_free] in Hg; cbn [rmatch] in H.
  - exists EmptyString, rest. rewrite Nat.add_0_r. cbn. auto.
  - destruct rest as [|c rest']; [discriminate|].
    destruct (p c) eqn:Hp; [|discriminate].
    exists (String c EmptyString), rest'. cbn.
    rewrite Nat.add_1_r. repeat split; eauto.
  - apply andb_true_iff in Hg. destruct Hg as [Hg1 Hg2].
    apply (IH1 Hg1) in H. destruct H as (w1 & rest1 & -> & HL1 & H).
    apply (IH2 Hg2) in H. destruct H as (w2 & rest2 & -> & HL2 & H).
    exists (w1 ++ w2)%string, rest2.
    rewrite append_assoc, length_append, Nat.add_assoc.
    repeat split; auto. cbn. eauto.
  - apply andb_true_iff in Hg. destruct Hg as [Hg1 Hg2].
    apply first_of_some in H. destruct H as [H | H].
    + apply (IH1 Hg1) in H. destruct H as (w & rest' & -> & HL & H).
      exists w, rest'. cbn. auto.
    + apply (IH2 Hg2) in H. destruct H as (w & rest' & -> & HL & H).
      exists w, rest'. cbn. auto.
  - apply (star_loop_keeps (lang r1) (rmatch r1) g (IH1 Hg)) in H.
    exact H.
  - discriminate.
  - destruct (Nat.eqb pos 0); [|discriminate].
    exists EmptyString, rest. rewrite Nat.add_0_r. cbn. auto.
  - assert (Hk : k rest pos caps = Some x).
    { destruct rest as [|c [|d rest']]; auto.
      - destruct c as [[] [] [] [] [] [] [] []]; try discriminate; auto.
      - destruct c as [[] [] [] [] [] [] [] []]; discriminate. }
    exists EmptyString, rest. rewrite Nat.add_0_r. cbn. auto.
Qed.

(** A group around a pattern without groups records the word consumed. *)
Lemma rmatch_group (n : nat) (r : regex) (rest : string) (pos : nat)
  (caps : captures) (k : @cont A) (x : A) :
  group_free r = true ->
  rmatch (Group n r) rest pos caps k = Some x ->
  exists w rest',
    rest = (w ++ rest')%string /\ lang r w /\
    k rest' (pos + String.length w) (set_group n w caps) = Some x.
Proof.
  intros Hg H. cbn [rmatch] in H.
  apply (rmatch_keeps r Hg) in H. destruct H as (w & rest' & -> & HL & H).
  exists w, rest'. repeat split; auto.
  replace (pos + String.length w - pos) with (String.length w) in H by lia.
  now rewrite substring_prefix in H.
Qed.

Lemma rmatch_seq_group (n : nat) (r r2 : regex) (rest : string) (pos : nat)
  (caps : captures) (k : @cont A) (x : A) :
  group_free r = true ->
  rmatch (Seq (Group n r) r2) rest pos caps k = Some x ->
  exists w rest',
    rest = (w ++ rest')%string /\ lang r w /\
    rmatch r2 rest' (pos + String.length w) (set_group n w caps) k = Some x.
Proof.
  intros Hg H.
  change (rmatch (Group n r) rest pos caps
            (fun rest' pos' caps' => rmatch r2 rest' pos' caps' k) = Some x)
    in H.
  exact (rmatch_group n r rest pos caps _ x Hg H).
Qed.

Lemma rmatch_seq_keeps (r r2 : regex) (rest : string) (pos : nat)
  (caps : captures) (k : @cont A) (x : A) :
  group_free r = true ->
  rmatch (Seq r r2) rest pos caps k = Some x ->
  exists w rest',
    rest = (w ++ rest')%string /\ lang r w /\
    rmatch r2 rest' (pos + String.length w) caps k = Some x.
Proof.
  intros Hg H.
  change (rmatch r rest pos caps
            (fun rest' pos' caps' => rmatch r2 rest' pos' caps' k) = Some x)
    in H.
  exact (rmatch_keeps r Hg rest pos caps _ x H).
Qed.

End Groups.

Section GroupFacts.

Lemma search_from_suffix (r : regex) (rest : string) :
  forall pos m,
    search_from r rest pos = Some m ->
    exists pre rest',
      rest = (pre ++ rest')%string /\
      match_at r rest' (pos + String.length pre) = Some m.
Proof.
  induction rest as [|c rest IH]; intros pos m H; cbn [search_from] in H.
  - destruct (match_at r EmptyString pos) as [m0|] eqn:E; [|discriminate].
    exists EmptyString, EmptyString. cbn. now rewrite Nat.add_0_r, E.
  - destruct (match_at r (String c rest) pos) as [m0|] eqn:E.
    + exists EmptyString, (String c rest). cbn. now rewrite Nat.add_0_r, E.
    + apply IH in H. destruct H as (pre & rest' & -> & H).
      exists (String c pre), rest'. cbn [append String.length].
      split; [reflexivity|]. now rewrite Nat.add_succ_r.
Qed.

Lemma lang_star_space (g : bool) (w : string) :
  lang (Star g space) w -> all_space w = true.
Proof.
  cbn [lang]. induction 1 as [|w1 w2 H1 _ IH]; [reflexivity|].
  destruct H1 as (c & Hc & ->). cbn [append all_space]. now rewrite Hc, IH.
Qed.

Lemma lang_plus_space (w : string) :
  lang (plus space) w -> all_space w = true /\ w <> EmptyString.
Proof.
  unfold plus. intros H. apply lang_seq in H.
  destruct H as (a & b & -> & Ha & Hb).
  destruct Ha as (c & Hc & ->). apply lang_star_space in Hb.
  cbn [append all_space]. rewrite Hc, Hb. split; [reflexivity|discriminate].
Qed.

Lemma lang_header_year (y : string) :
  lang (Seq (PatternExtractor.word "20") digit_2) y -> header_year y.
Proof.
  intros H. apply lang_seq in H. destruct H as (a & b & -> & Ha & Hb).
  apply lang_word in Ha. subst a. exists b.
  split; [reflexivity|]. split; [exact (lang_digit_2 b Hb)|].
  cbn [digit_2 lang] in Hb.
  destruct Hb as (x1 & x2 & -> & (c1 & _ & ->) & (c2 & _ & ->)).
  reflexivity.
Qed.

(** What a match of the header pattern tells. *)
Lemma table_year_match (line : string) (m : rmatch_obj) :
  search PatternExtractor.table_year_pattern line = Some m ->
  exists pre ws post,
    line = (pre ++ group 1 m ++ ws ++ group 2 m ++ post)%string /\
    header_year (group 1 m) /\ header_year (group 2 m) /\
    all_space ws = true /\ ws <> EmptyString.
Proof.
  unfold search. intros H. apply search_from_suffix in H.
  destruct H as (pre & rest' & -> & H).
  unfold match_at, PatternExtractor.table_year_pattern in H.
  cbn [seqs fold_right] in H.
  apply rmatch_seq_group in H; [|reflexivity].
  destruct H as (a & r1 & -> & Ha & H).
  apply rmatch_seq_keeps in H; [|reflexivity].
  destruct H as (ws & r2 & -> & Hws & H).
  apply rmatch_seq_group in H; [|reflexivity].
  destruct H as (b & r3 & -> & Hb & H).
  cbn [rmatch] in H. inversion H; subst m; clear H.
  unfold group. cbn [m_groups].
  cbn [get_group Nat.eqb].
  exists pre, ws, r3. split; [reflexivity|].
  split; [exact (lang_header_year a Ha)|].
  split; [exact (lang_header_year b Hb)|].
  exact (lang_plus_space ws Hws).
Qed.

(** X8.  The header of a table, for the pattern engine, is the first line
    that the header pattern matches, and such a line holds two years 20dd
    with nothing but whitespace between them; the two years are returned as
    they stand in that line, left one first.  When the pattern matches no
    line the result is empty. *)
Theorem extract_years_from_table_first_header (lines : list string) :
  (PatternExtractor._extract_years_from_table lines = [] /\
   forall line, In line lines ->
     search PatternExtractor.table_year_pattern line = None)
  \/
  exists before line after a b pre ws post,
    lines = before ++ line :: after /\
    (forall l, In l before ->
       search PatternExtractor.table_year_pattern l = None) /\
    PatternExtractor._extract_years_from_table lines = [a; b] /\
    line = (pre ++ a ++ ws ++ b ++ post)%string /\
    header_year a /\ header_year b /\
    all_space ws = true /\ ws <> EmptyString.
Proof.
  induction lines as [|l lines IH];
    cbn [PatternExtractor._extract_years_from_table].
  - left. split; [reflexivity|]. intros line [].
  - destruct (search PatternExtractor.table_year_pattern l) as [m|] eqn:E.
    + right. destruct (table_year_match l m E)
        as (pre & ws & post & El & Ha & Hb & Hws).
      exists [], l, lines, (group 1 m), (group 2 m), pre, ws, post.
      split; [reflexivity|]. split; [intros ? []|].
      split; [reflexivity|]. auto.
    + destruct IH as [[E0 Hnone] | IH].
      * left. split; [exact E0|]. intros line [<- | Hin]; auto.
      * right.
        destruct IH as (before & line & after & a & b & pre & ws & post
                        & -> & Hbefore & Er & Hrest).
        exists (l :: before), line, after, a, b, pre, ws, post.
        split; [reflexivity|].
        split; [intros l' [<- | Hin]; auto|].
        split; [exact Er | exact Hrest].
Qed.

End GroupFacts.

Section PatternTable.

Lemma lstrip_first (s : string) (c : ascii) (t : string) :
  lstrip s = String c t -> is_space c = false.
Proof.
  induction s as [|d s IH]; cbn [lstrip]; [discriminate|].
  destruct (is_space d) eqn:E; [exact IH|].
  intros [= <- _]. exact E.
Qed.

Lemma rstrip_first (s : string) (c : ascii) (t : string) :
  rstrip s = String c t -> exists t', s = String c t'.
Proof.
  destruct s as [|d s]; cbn [rstrip]; [discriminate|].
  destruct (rstrip s); [destruct (is_space d); [discriminate|] |];
    intros [= <- _]; eauto.
Qed.

Lemma strip_first (s : string) (c : ascii) (t : string) :
  strip s = String c t -> is_space c = false.
Proof.
  unfold strip. intros H. apply rstrip_first in H. destruct H as [t' H].
  exact (lstrip_first s c t' H).
Qed.

Lemma rstrip_last (s : string) :
  forall x c, rstrip s = (x ++ String c EmptyString)%string ->
              is_space c = false.
Proof.
  induction s as [|d s IH]; intros x c; cbn [rstrip].
  - destruct x; discriminate.
  - destruct (rstrip s) as [|e t] eqn:E.
    + destruct (is_space d) eqn:Ed; [destruct x; discriminate|].
      destruct x as [|a [|b x]]; cbn [append]; intros [= ]; subst; auto.
    + destruct x as [|a x]; cbn [append].
      * intros [= ].
      * intros [= <- H]. exact (IH x c H).
Qed.

Lemma strip_last (s x : string) (c : ascii) :
  strip s = (x ++ String c EmptyString)%string -> is_space c = false.
Proof. unfold strip. apply rstrip_last. Qed.

Lemma rmatch_seq_bol {A} (r2 : regex) (rest : string) (pos : nat)
  (caps : captures) (k : @cont A) (x : A) :
  rmatch (Seq Bol r2) rest pos caps k = Some x ->
  pos = 0 /\ rmatch r2 rest pos caps k = Some x.
Proof.
  cbn [rmatch]. destruct (Nat.eqb pos 0) eqn:E; [|discriminate].
  apply Nat.eqb_eq in E. auto.
Qed.

Lemma rmatch_eol_end {A} (rest : string) (pos : nat)
  (caps : captures) (k : @cont A) (x : A) :
  rmatch (Seq Eol Eps) rest pos caps k = Some x ->
  (rest = EmptyString \/ rest = nl) /\ k rest pos caps = Some x.
Proof.
  cbn [rmatch]. destruct rest as [|c [|d rest']]; auto.
  - destruct c as [[] [] [] [] [] [] [] []]; try discriminate. auto.
  - destruct c as [[] [] [] [] [] [] [] []]; discriminate.
Qed.

Lemma lang_opt_dollar (w : string) :
  lang (opt (chr "$")) w -> w = EmptyString \/ w = "$".
Proof.
  intros H. apply lang_opt in H. destruct H as [H | ->]; [|auto].
  right. destruct H as (c & Hc & ->). apply Ascii.eqb_eq in Hc. now subst c.
Qed.

(** The words of a match of the row pattern. *)
Lemma row_pattern_match (line : string) (m : rmatch_obj) :
  search PatternExtractor.row_pattern line = Some m ->
  exists ws1 c1 ws2 c2 tail,
    line = (group 1 m ++ ws1 ++ c1 ++ group 2 m
            ++ ws2 ++ c2 ++ group 3 m ++ tail)%string /\
    (tail = EmptyString \/ tail = nl) /\
    (all_space ws1 = true /\ ws1 <> EmptyString) /\
    (all_space ws2 = true /\ ws2 <> EmptyString) /\
    (c1 = EmptyString \/ c1 = "$") /\ (c2 = EmptyString \/ c2 = "$") /\
    lang PatternExtractor.number_token (group 2 m) /\
    lang PatternExtractor.number_token (group 3 m).
Proof.
  unfold search. intros H. apply search_from_suffix in H.
  destruct H as (pre & rest' & -> & H).
  unfold match_at, PatternExtractor.row_pattern in H.
  cbn [seqs fold_right] in H.
  apply rmatch_seq_bol in H. destruct H as [Hpos H].
  destruct pre as [|c pre]; [|discriminate]. cbn [append String.length] in *.
  apply rmatch_seq_group in H; [|reflexivity].
  destruct H as (label & r1 & -> & _ & H).
  apply rmatch_seq_keeps in H; [|reflexivity].
  destruct H as (ws1 & r2 & -> & Hws1 & H).
  apply rmatch_seq_keeps in H; [|reflexivity].
  destruct H as (c1 & r3 & -> & Hc1 & H).
  apply rmatch_seq_group in H; [|reflexivity].
  destruct H as (n1 & r4 & -> & Hn1 & H).
  apply rmatch_seq_keeps in H; [|reflexivity].
  destruct H as (ws2 & r5 & -> & Hws2 & H).
  apply rmatch_seq_keeps in H; [|reflexivity].
  destruct H as (c2 & r6 & -> & Hc2 & H).
  apply rmatch_seq_group in H; [|reflexivity].
  destruct H as (n0 & r7 & -> & Hn0 & H).
  apply rmatch_eol_end in H. destruct H as [Htail H].
  inversion H; subst m; clear H.
  unfold group. cbn [m_groups get_group set_group Nat.eqb].
  exists ws1, c1, ws2, c2, r7.
  split; [reflexivity|]. split; [exact Htail|].
  split; [exact (lang_plus_space ws1 Hws1)|].
  split; [exact (lang_plus_space ws2 Hws2)|].
  split; [exact (lang_opt_dollar c1 Hc1)|].
  split; [exact (lang_opt_dollar c2 Hc2)|].
  split; assumption.
Qed.

(** The pattern for indented rows needs a blank at the start of the line,
    and the lines it is tried on were stripped. *)
Lemma indented_row_never_matches (row : string) :
  search PatternExtractor.indented_row_pattern (strip row) = None.
Proof.
  destruct (search PatternExtractor.indented_row_pattern (strip row))
    as [m|] eqn:E; [|reflexivity]. exfalso.
  unfold search in E. apply search_from_suffix in E.
  destruct E as (pre & rest' & Hl & H).
  unfold match_at, PatternExtractor.indented_row_pattern in H.
  cbn [seqs fold_right] in H.
  apply rmatch_seq_bol in H. destruct H as [Hpos H].
  destruct pre as [|c pre]; [|discriminate]. cbn [append] in Hl.
  apply rmatch_seq_keeps in H; [|reflexivity].
  destruct H as (ws & r1 & -> & Hws & _).
  unfold plus in Hws. apply lang_seq in Hws.
  destruct Hws as (a & b & -> & (c & Hc & ->) & _).
  cbn [append] in Hl. apply strip_first in Hl. congruence.
Qed.

Lemma append_inj_l (a b c : string) :
  (a ++ b)%string = (a ++ c)%string -> b = c.
Proof. induction a as [|x a IH]; cbn [append]; [auto|]. intros [= H]. auto. Qed.

Lemma stripped_row_match (row : string) (m : rmatch_obj) :
  search PatternExtractor.row_pattern (strip row) = Some m ->
  exists ws1 c1 ws2 c2,
    strip row = (group 1 m ++ ws1 ++ c1 ++ group 2 m
                 ++ ws2 ++ c2 ++ group 3 m)%string /\
    (all_space ws1 = true /\ ws1 <> EmptyString) /\
    (all_space ws2 = true /\ ws2 <> EmptyString) /\
    (c1 = EmptyString \/ c1 = "$") /\ (c2 = EmptyString \/ c2 = "$") /\
    lang PatternExtractor.number_token (group 2 m) /\
    lang PatternExtractor.number_token (group 3 m).
Proof.
  intros H. apply row_pattern_match in H.
  destruct H as (ws1 & c1 & ws2 & c2 & tail & E & Htail & Hrest).
  exists ws1, c1, ws2, c2. split; [|exact Hrest].
  destruct Htail as [-> | ->].
  - now rewrite append_nil_r in E.
  - exfalso. unfold nl in E.
    rewrite <- !append_assoc in E. apply strip_last in E. discriminate.
Qed.

End PatternTable.

Section PatternTablePairs.

Lemma dict_of_empty_get {V} (ks : list string) (p : string) (yd : list V) :
  get (dict_of_empty (V := V) ks) p = Some yd -> yd = [].
Proof.
  unfold dict_of_empty.
  assert (G : forall ks (acc : dict string (list V)),
             (forall q v, get acc q = Some v -> v = []) ->
             forall q v,
               get (fold_left (fun d k => setitem d k []) ks acc) q = Some v ->
               v = []).
  { induction ks0 as [|k ks0 IH]; intros acc Hacc q v; cbn [fold_left].
    - apply Hacc.
    - apply IH. intros q' v'.
      destruct (String.eqb_spec k q') as [<- | Hne].
      + rewrite get_setitem_same. now intros [= <-].
      + rewrite (get_setitem_other acc k q' [] Hne). apply Hacc. }
  apply (G ks []). intros q v. discriminate.
Qed.

Lemma dict_of_empty_get_in {V} (ks : list string) (y : string) :
  In y ks -> get (dict_of_empty (V := V) ks) y = Some [].
Proof.
  intros Hin. pose proof (dict_of_empty_has_key (V := V) ks y Hin) as Hk.
  unfold has_key in Hk.
  destruct (get (dict_of_empty ks) y) as [yd|] eqn:E; [|discriminate].
  now rewrite (dict_of_empty_get ks y yd E).
Qed.

Lemma setitem2_get {K I V} `{EqbLaws K} `{Eqb I}
  (d : dict K (dict I V)) (k : K) (i : I) (v : V) (inner : dict I V) :
  get d k = Some inner ->
  setitem2 d k i v = Returns (setitem d k (setitem inner i v)).
Proof. unfold setitem2, getitem. now intros ->. Qed.

Variables (all : list string) (y0 y1 : string).
Hypothesis Hy : y0 <> y1.

(** The loop over the rows keeps every item paired. *)
Lemma table_rows_pairs (rows : list string) :
  incl rows all ->
  forall (d : data_t) (r : raw_t) (a b : period_data),
    get d y0 = Some a -> get d y1 = Some b ->
    has_key r y0 = true -> has_key r y1 = true ->
    (forall p yd, get d p = Some yd -> p = y0 \/ p = y1 \/ yd = []) ->
    pattern_table_ok all a b ->
    exists d' r' a' b',
      PatternExtractor.table_rows rows y0 y1 (d, r) = Returns (d', r') /\
      get d' y0 = Some a' /\ get d' y1 = Some b' /\
      (forall p yd, get d' p = Some yd -> p = y0 \/ p = y1 \/ yd = []) /\
      pattern_table_ok all a' b'.
Proof.
  induction rows as [|row rows IH]; intros Hincl d r a b Ha Hb Hr0 Hr1 Ho Hok;
    cbn [PatternExtractor.table_rows].
  - exists d, r, a, b. auto.
  - assert (Hrows : incl rows all)
      by (intros x Hx; apply Hincl; now right).
    assert (Hrow : In (strip row) (map strip all))
      by (apply in_map, Hincl; now left).
    pose proof (IH Hrows d r a b Ha Hb Hr0 Hr1 Ho Hok) as Hskip.
    cbv zeta.
    destruct (negb (nonempty (strip row))
              || Nat.ltb (String.length (strip row)) 5);
      [exact Hskip|].
    destruct (existsb (fun x => contains x (lower (strip row)))
                PatternExtractor.header_words);
      [exact Hskip|].
    rewrite (indented_row_never_matches row).
    destruct (search PatternExtractor.row_pattern (strip row))
      as [m|] eqn:Em; [|exact Hskip].
    destruct (pattern_parse_number_returns (group 2 m)) as [val1 E1].
    destruct (pattern_parse_number_returns (group 3 m)) as [val0 E0].
    rewrite E1, E0. cbn [bind fst snd].
    destruct (_normalize_line_item (strip (group 1 m))) as [item|] eqn:En;
      [|exact Hskip].
    rewrite (setitem2_get d y1 item _ b Hb). cbn [bind].
    assert (Ha1 : get (setitem d y1
                         (setitem b item
                            (PatternExtractor.extracted val1 (strip row))))
                    y0 = Some a).
    { rewrite get_setitem_other by congruence. exact Ha. }
    rewrite (setitem2_get _ y0 item _ a Ha1). cbn [bind].
    destruct (setitem2_returns r y1 (item_value item) (strip row) Hr1)
      as (r1 & -> & Hk1).
    cbn [bind].
    destruct (setitem2_returns r1 y0 (item_value item) (strip row)
                (Hk1 _ Hr0))
      as (r2 & -> & Hk2).
    cbn [bind].
    apply (IH Hrows _ r2
             (setitem a item (PatternExtractor.extracted val0 (strip row)))
             (setitem b item (PatternExtractor.extracted val1 (strip row)))).
    + apply get_setitem_same.
    + rewrite get_setitem_other by exact Hy. apply get_setitem_same.
    + auto.
    + auto.
    + intros p yd.
      destruct (String.eqb_spec y0 p) as [<- | H0]; [auto|].
      destruct (String.eqb_spec y1 p) as [<- | H1]; [auto|].
      rewrite !get_setitem_other by assumption. apply Ho.
    + intros item'.
      destruct (key_eqb item item') eqn:Ei.
      * apply (key_eqb_eq (K := IncomeStatementItem)) in Ei. subst item'.
        right.
        exists (strip row), (PatternExtractor.extracted val1 (strip row)),
               (PatternExtractor.extracted val0 (strip row)).
        split; [exact Hrow|].
        split; [apply get_setitem_same|].
        split; [apply get_setitem_same|].
        destruct (stripped_row_match row m Em)
          as (ws1 & c1 & ws2 & c2 & El & Hw1 & Hw2 & Hc1 & Hc2 & Hn1 & Hn0).
        exists m, ws1, c1, ws2, c2, val1, val0.
        repeat (split; [assumption|]). split; reflexivity.
      * assert (Hne : item <> item').
        { intros ->. rewrite key_eqb_refl in Ei. discriminate. }
        rewrite !get_setitem_other by exact Hne. apply Hok.
Qed.

End PatternTablePairs.

Section PatternTableTheorem.

Lemma incl_skipn {A} (n : nat) (l : list A) : incl (skipn n l) l.
Proof.
  revert l. induction n as [|n IH]; intros l; [apply incl_refl|].
  destruct l as [|x l]; [apply incl_refl|]. cbn [skipn].
  intros y Hy. right. now apply IH.
Qed.

Lemma extract_from_table_pairs
  (lines more : list string) (y0 y1 : string) :
  y0 <> y1 ->
  exists d raw a b,
    PatternExtractor._extract_from_table lines (y0 :: y1 :: more)
    = Returns (d, raw, []) /\
    get d y0 = Some a /\ get d y1 = Some b /\
    (forall p yd, get d p = Some yd -> p = y0 \/ p = y1 \/ yd = []) /\
    pattern_table_ok lines a b.
Proof.
  intros Hy. unfold PatternExtractor._extract_from_table. cbv zeta.
  destruct (table_rows_pairs lines y0 y1 Hy
              (skipn (PatternExtractor.find_table_start lines
                        (y0 :: y1 :: more) 0) lines)
              (incl_skipn _ lines)
              (dict_of_empty (y0 :: y1 :: more))
              (dict_of_empty (y0 :: y1 :: more)) [] [])
    as (d' & r' & a' & b' & E & Ha & Hb & Ho & Hok).
  - apply dict_of_empty_get_in. cbn [In]. auto.
  - apply dict_of_empty_get_in. cbn [In]. auto.
  - apply dict_of_empty_has_key. cbn [In]. auto.
  - apply dict_of_empty_has_key. cbn [In]. auto.
  - intros p yd Hp. right. right. exact (dict_of_empty_get _ p yd Hp).
  - intros item. left. split; reflexivity.
  - match type of E with
    | ?lhs = _ =>
        match goal with
        | |- context [PatternExtractor.table_rows ?rows ?u ?v ?st] =>
            change (PatternExtractor.table_rows rows u v st) with lhs
        end
    end.
    rewrite E. cbn [bind fst snd].
    exists d', r', a', b'. auto.
Qed.

(** X9.  The pattern engine's table method, given two different periods,
    never raises and writes under those two periods only; it reads an item
    for both periods or for neither, and both values come from one stripped
    line of the form label, first number, second number: the first number is
    filed under the second period and the second number under the first.
    The pattern for indented rows never takes part. *)
Theorem pattern_table_pairs_the_periods
  (lines more : list string) (y0 y1 : string) :
  y0 <> y1 ->
  exists d raw a b,
    PatternExtractor._extract_from_table lines (y0 :: y1 :: more)
    = Returns (d, raw, []) /\
    get d y0 = Some a /\ get d y1 = Some b /\
    (forall p yd, get d p = Some yd -> p = y0 \/ p = y1 \/ yd = []) /\
    pattern_table_ok lines a b.
Proof. exact (extract_from_table_pairs lines more y0 y1). Qed.

Lemma pattern_table_pairs_the_periods_witness :
  exists d raw a b,
    PatternExtractor._extract_from_table
      ["2022 2023"; "Revenue 100.00 200.00"] ["2022"; "2023"]
    = Returns (d, raw, []) /\
    get d "2022" = Some a /\ get d "2023" = Some b /\
    (forall p yd, get d p = Some yd ->
       p = "2022" \/ p = "2023" \/ yd = []) /\
    pattern_table_ok ["2022 2023"; "Revenue 100.00 200.00"] a b.
Proof.
  apply (pattern_table_pairs_the_periods
           ["2022 2023"; "Revenue 100.00 200.00"] [] "2022" "2023").
  discriminate.
Defined.

End PatternTableTheorem.

Section SimpleKeyValue.

Lemma simple_kv_lines_inv (all : list string) :
  forall lines, incl lines all ->
  forall c rc,
    simple_kv_ok all c ->
    exists c' rc',
      PatternExtractor.simple_kv_lines lines
        ([("Current", c)], [("Current", rc)])
      = Returns ([("Current", c')], [("Current", rc')]) /\
      simple_kv_ok all c'.
Proof.
  induction lines as [|line lines IH]; intros Hincl c rc Hok;
    cbn [PatternExtractor.simple_kv_lines].
  - eauto.
  - assert (Hlines : incl lines all)
      by (intros x Hx; apply Hincl; now right).
    assert (Hline : In (strip line) (map strip all))
      by (apply in_map, Hincl; now left).
    pose proof (IH Hlines c rc Hok) as Hskip. cbv zeta.
    destruct (negb (nonempty (strip line))
              || negb (contains ":" (strip line))); [exact Hskip|].
    destruct (split1 ":" (strip line)) as [|p0 [|p1 [|p2 ps]]] eqn:Es;
      try exact Hskip.
    destruct (negb (nonempty
                      (keep PatternExtractor.numeric_char (strip p1))));
      cbn [try_except_ValueError bind]; [exact Hskip|].
    destruct (float (keep PatternExtractor.numeric_char (strip p1)))
      as [x|e] eqn:F; cbn [bind].
    + destruct (_normalize_line_item (strip p0)) as [item|] eqn:En;
        cbn [try_except_ValueError bind]; [|exact Hskip].
      unfold setitem2, getitem. cbn [fst snd get].
      replace (key_eqb "Current" "Current") with true by reflexivity.
      cbn [bind setitem].
      replace (key_eqb "Current" "Current") with true by reflexivity.
      cbn [try_except_ValueError bind].
      apply (IH Hlines). intros item' v'.
      destruct (key_eqb item item') eqn:Ei.
      * apply (key_eqb_eq (K := IncomeStatementItem)) in Ei. subst item'.
        rewrite get_setitem_same. intros [= <-].
        exists (strip line). split; [exact Hline|].
        exists p0, p1, x. auto.
      * assert (Hne : item <> item').
        { intros ->. rewrite key_eqb_refl in Ei. discriminate. }
        rewrite get_setitem_other by exact Hne. apply Hok.
    + rewrite (float_only_ValueError _ e F).
      cbn [try_except_ValueError bind]. exact Hskip.
Qed.

Lemma extract_simple_key_value_inv (lines : list string) :
  exists c rc,
    PatternExtractor._extract_simple_key_value lines
    = Returns ([("Current", c)], [("Current", rc)], []) /\
    simple_kv_ok lines c.
Proof.
  unfold PatternExtractor._extract_simple_key_value.
  destruct (simple_kv_lines_inv lines lines (incl_refl _) [] [])
    as (c & rc & E & Hok).
  { intros item v. discriminate. }
  cbv zeta. rewrite_call PatternExtractor.simple_kv_lines E.
  cbn [bind fst snd]. exists c, rc. split; [reflexivity | exact Hok].
Qed.

(** X10.  The pattern engine's simple key-value method never raises and
    fills the one period "Current"; each value it holds was read from a
    stripped line of the form key, colon, value text: the key names the item
    and the number is [float] of the digits, points and minus signs of the
    whole value text, whatever stands between them. *)
Theorem pattern_simple_key_value_rows (lines : list string) :
  exists c rc,
    PatternExtractor._extract_simple_key_value lines
    = Returns ([("Current", c)], [("Current", rc)], []) /\
    forall item v, get c item = Some v ->
      exists line parts0 parts1 x,
        In line (map strip lines) /\
        split1 ":" line = [parts0; parts1] /\
        _normalize_line_item (strip parts0) = Some item /\
        float (keep PatternExtractor.numeric_char (strip parts1))
        = Returns x /\
        v = PatternExtractor.extracted (Some x) line.
Proof.
  destruct (extract_simple_key_value_inv lines) as (c & rc & E & Hok).
  exists c, rc. split; [exact E|].
  intros item v Hget. destruct (Hok item v Hget) as (line & Hin & Hrow).
  destruct Hrow as (p0 & p1 & x & H1 & H2 & H3 & H4).
  exists line, p0, p1, x. auto.
Qed.

End SimpleKeyValue.

Section Pipeline.

Lemma pipeline_cases (text filename now : string) :
  exists r,
    DocumentProcessor._extract_financial_data text filename now = Returns r /\
    document_name r = filename /\ extraction_date r = now /\
    ((exists r0,
        FreeExtractor.extract text = Returns r0 /\ data r0 <> [] /\
        r = set_extraction_date (set_document_name r0 filename) now /\
        confidence_overall r = HIGH)
     \/
     (exists r0 r1,
        FreeExtractor.extract text = Returns r0 /\ data r0 = [] /\
        PatternExtractor.extract text = Returns r1 /\
        r = set_extraction_date (set_document_name r1 filename) now /\
        confidence_overall r = MEDIUM)).
Proof.
  unfold DocumentProcessor._extract_financial_data.
  destruct (free_extract_cases text) as (r0 & E & Hcases). rewrite E.
  destruct r0 as [dn ed cu un co d w mi re].
  cbn [data raw_extracts warnings confidence_overall missing_items] in Hcases.
  cbn [bind set_document_name set_extraction_date data extraction_date
       currency unit confidence_overall warnings missing_items raw_extracts
       document_name].
  destruct Hcases as [(a & b & _ & -> & Ha & _ & ->)
                     | [(c & _ & -> & Hc & ->) | (-> & _ & _ & -> & _)]].
  - destruct a as [|x a]; [congruence|].
    cbn [truthy any_values values map snd existsb orb andb
         try_except_Exception bind].
    eexists. split; [reflexivity|]. split; [reflexivity|].
    split; [reflexivity|]. left. eexists. split; [reflexivity|].
    cbn [data]. repeat split. discriminate.
  - destruct c as [|x c]; [congruence|].
    cbn [truthy any_values values map snd existsb orb andb
         try_except_Exception bind].
    eexists. split; [reflexivity|]. split; [reflexivity|].
    split; [reflexivity|]. left. eexists. split; [reflexivity|].
    cbn [data]. repeat split. discriminate.
  - cbn [truthy andb try_except_Exception bind].
    destruct (pattern_extract_returns text) as (r1 & E1).
    pose proof (pattern_confidence_is_medium text r1 E1) as Hm.
    rewrite E1. cbn [bind].
    eexists. split; [reflexivity|].
    destruct r1 as [dn1 ed1 cu1 un1 co1 d1 w1 mi1 re1].
    cbn [confidence_overall] in Hm. subst co1.
    split; [reflexivity|]. split; [reflexivity|].
    right. eexists. eexists. split; [reflexivity|].
    split; [reflexivity|]. split; [reflexivity|]. split; reflexivity.
Qed.

Lemma pipeline_returns (text filename now : string) :
  exists r,
    DocumentProcessor._extract_financial_data text filename now = Returns r /\
    missing_items_ok r.
Proof.
  destruct (pipeline_cases text filename now)
    as (r & E & _ & _
        & [(r0 & E0 & _ & -> & _) | (r0 & r1 & _ & _ & E1 & -> & _)]).
  - exists (set_extraction_date (set_document_name r0 filename) now).
    split; [exact E|]. apply assembled_missing_items_ok.
    destruct (free_extract_returns text) as (r0' & E0' & Hm).
    rewrite E0 in E0'. apply Returns_inj in E0'. subst r0'.
    exact Hm.
  - exists (set_extraction_date (set_document_name r1 filename) now).
    split; [exact E|]. apply assembled_missing_items_ok.
    exact (pattern_extract_assembled text r1 E1).
Qed.

(** X11.  The pipeline never raises and stamps the document name and the
    date on what it returns.  Its overall confidence tells the engine: HIGH
    when the default engine found data, whose result is then returned, and
    MEDIUM otherwise, when the pattern engine's result is returned; it is
    never LOW. *)
Theorem pipeline_confidence_tells_the_engine (text filename now : string) :
  exists r,
    DocumentProcessor._extract_financial_data text filename now = Returns r /\
    document_name r = filename /\ extraction_date r = now /\
    ((exists r0,
        FreeExtractor.extract text = Returns r0 /\ data r0 <> [] /\
        r = set_extraction_date (set_document_name r0 filename) now /\
        confidence_overall r = HIGH)
     \/
     (exists r0 r1,
        FreeExtractor.extract text = Returns r0 /\ data r0 = [] /\
        PatternExtractor.extract text = Returns r1 /\
        r = set_extraction_date (set_document_name r1 filename) now /\
        confidence_overall r = MEDIUM)).
Proof. exact (pipeline_cases text filename now). Qed.

End Pipeline.

Section NormalizerShadow.

Lemma startswith_inv (w s : string) :
  startswith w s = true -> exists post, s = (w ++ post)%string.
Proof.
  revert s. induction w as [|c w IH]; intros s H.
  - exists s. reflexivity.
  - destruct s as [|d s]; [discriminate|]. cbn [startswith] in H.
    apply andb_true_iff in H. destruct H as [Hc Hw].
    apply Ascii.eqb_eq in Hc. subst d.
    destruct (IH s Hw) as [post ->]. exists post. reflexivity.
Qed.

Lemma contains_inv (w s : string) :
  contains w s = true -> exists pre post, s = (pre ++ w ++ post)%string.
Proof.
  induction s as [|c s IH]; cbn [contains]; intros H;
    apply orb_true_iff in H; destruct H as [H | H]; try discriminate.
  - apply startswith_inv in H. destruct H as [post ->].
    exists EmptyString, post. reflexivity.
  - apply startswith_inv in H. destruct H as [post ->].
    exists EmptyString, post. reflexivity.
  - destruct (IH H) as (pre & post & ->).
    exists (String c pre), post. reflexivity.
Qed.

(** A part of a part is a part. *)
Lemma contains_trans (a b t : string) :
  contains a b = true -> contains b t = true -> contains a t = true.
Proof.
  intros Hab Hbt.
  apply contains_inv in Hab. destruct Hab as (p1 & p2 & ->).
  apply contains_inv in Hbt. destruct Hbt as (pre & post & ->).
  rewrite !append_assoc. rewrite <- (append_assoc pre p1).
  apply contains_app.
Qed.

Lemma contains_false_mono (a b t : string) :
  contains a b = true -> contains a t = false -> contains b t = false.
Proof.
  intros Hab Hat. destruct (contains b t) eqn:E; [|reflexivity].
  now rewrite (contains_trans a b t Hab E) in Hat.
Qed.

Lemma lookup_mappings_app (a b : list (string * IncomeStatementItem))
  (t : string) :
  lookup_mappings (a ++ b) t
  = match lookup_mappings a t with
    | Some item => Some item
    | None => lookup_mappings b t
    end.
Proof.
  induction a as [|[p i] a IH]; cbn [app lookup_mappings]; [reflexivity|].
  now destruct (contains p t).
Qed.

Lemma lookup_mappings_in (table : list (string * IncomeStatementItem))
  (t : string) (item : IncomeStatementItem) :
  lookup_mappings table t = Some item -> In item (map snd table).
Proof.
  induction table as [|[p i] table IH]; cbn [lookup_mappings map snd In];
    [discriminate|].
  destruct (contains p t); [intros [= ->]; auto | auto].
Qed.

Lemma normalize_cost_of_revenue (t : string) :
  let result :=
    match lookup_mappings mappings t with
    | Some value => Some value
    | None =>
        if contains "r&d" t || contains "research" t then Some RND
        else if contains "sg&a" t || contains "selling" t then Some SGNA
        else None
    end in
  result = Some COST_OF_REVENUE <->
  contains "revenue" t = false /\ contains "sales" t = false /\
  (contains "cost of goods sold" t = true \/ contains "cogs" t = true).
Proof.
  cbv zeta.
  assert (Hsplit : mappings
                   = [ ("revenue", REVENUE); ("sales", REVENUE);
                       ("total revenue", REVENUE);
                       ("operating revenue", REVENUE);
                       ("cost of revenue", COST_OF_REVENUE);
                       ("cost of sales", COST_OF_REVENUE);
                       ("cost of goods sold", COST_OF_REVENUE);
                       ("cogs", COST_OF_REVENUE) ] ++ skipn 8 mappings)
    by reflexivity.
  rewrite Hsplit, lookup_mappings_app. cbn [lookup_mappings].
  destruct (contains "revenue" t) eqn:Er.
  { split; [discriminate | intros (H & _); discriminate]. }
  destruct (contains "sales" t) eqn:Es.
  { split; [discriminate | intros (_ & H & _); discriminate]. }
  rewrite (contains_false_mono "revenue" "total revenue" t eq_refl Er).
  rewrite (contains_false_mono "revenue" "operating revenue" t eq_refl Er).
  rewrite (contains_false_mono "revenue" "cost of revenue" t eq_refl Er).
  rewrite (contains_false_mono "sales" "cost of sales" t eq_refl Es).
  destruct (contains "cost of goods sold" t); [tauto|].
  destruct (contains "cogs" t); [tauto|].
  split; [|intros (_ & _ & [H | H]); discriminate].
  destruct (lookup_mappings (skipn 8 mappings) t) as [item|] eqn:E.
  - intros [= ->]. apply lookup_mappings_in in E. exfalso.
    cbn in E. intuition discriminate.
  - destruct (contains "r&d" t || contains "research" t); [discriminate|].
    destruct (contains "sg&a" t || contains "selling" t); discriminate.
Qed.

(** X12.  The normalizer gives Cost of Revenue exactly for the labels that
    hold "cost of goods sold" or "cogs" and neither "revenue" nor "sales":
    its phrases "cost of revenue" and "cost of sales" are never reached, a
    label that holds one of them is Revenue. *)
Theorem normalizer_cost_of_revenue_only_by_cogs (text : string) :
  let t := strip (lower text) in
  (_normalize_line_item text = Some COST_OF_REVENUE <->
   contains "revenue" t = false /\ contains "sales" t = false /\
   (contains "cost of goods sold" t = true \/ contains "cogs" t = true))
  /\
  (contains "cost of revenue" t = true \/ contains "cost of sales" t = true ->
   _normalize_line_item text = Some REVENUE).
Proof.
  intros t. split.
  - exact (normalize_cost_of_revenue t).
  - intros H. unfold _normalize_line_item. fold t.
    change mappings
      with (("revenue", REVENUE) :: ("sales", REVENUE) :: skipn 2 mappings).
    cbn [lookup_mappings].
    destruct H as [H | H].
    + now rewrite (contains_trans "revenue" "cost of revenue" t eq_refl H).
    + rewrite (contains_trans "sales" "cost of sales" t eq_refl H).
      now destruct (contains "revenue" t).
Qed.

Lemma normalizer_cost_of_revenue_only_by_cogs_witness :
  _normalize_line_item "Cost of Revenue" = Some REVENUE.
Proof.
  apply (normalizer_cost_of_revenue_only_by_cogs "Cost of Revenue").
  left. reflexivity.
Defined.

End NormalizerShadow.

Section Marks.
Variable P : ExtractedValue -> Prop.

Lemma period_setitem (yd : period_data) (i : IncomeStatementItem)
  (v0 : ExtractedValue) :
  (forall item v, get yd item = Some v -> P v) -> P v0 ->
  forall item v, get (setitem yd i v0) item = Some v -> P v.
Proof.
  intros Hyd H0 item v.
  destruct (key_eqb i item) eqn:E.
  - apply (key_eqb_eq (K := IncomeStatementItem)) in E. subst item.
    rewrite get_setitem_same. now intros [= <-].
  - assert (Hne : i <> item).
    { intros ->. rewrite key_eqb_refl in E. discriminate. }
    rewrite get_setitem_other by exact Hne. apply Hyd.
Qed.

Lemma all_entries_setitem (d : data_t) (k : string) (yd : period_data) :
  all_entries P d -> (forall item v, get yd item = Some v -> P v) ->
  all_entries P (setitem d k yd).
Proof.
  intros Hd Hyd period yd' item v.
  destruct (String.eqb_spec k period) as [<- | Hne].
  - rewrite get_setitem_same. intros [= <-]. apply Hyd.
  - rewrite get_setitem_other by exact Hne. apply Hd.
Qed.

Lemma all_entries_setitem2 (d d' : data_t) (k : string)
  (i : IncomeStatementItem) (v0 : ExtractedValue) :
  all_entries P d -> P v0 -> setitem2 d k i v0 = Returns d' ->
  all_entries P d'.
Proof.
  intros Hd H0. unfold setitem2, getitem.
  match goal with
  | |- context [match ?g with Some _ => _ | None => _ end] =>
      destruct g as [inner|] eqn:E
  end; cbn [bind]; [|discriminate].
  intros H. apply Returns_inj in H. subst d'.
  apply all_entries_setitem; [exact Hd|].
  apply period_setitem; [|exact H0]. intros item v. exact (Hd k inner item v E).
Qed.

Lemma all_entries_nil : all_entries P [].
Proof. intros period yd item v. discriminate. Qed.

Lemma all_entries_dict_of_empty (years : list string) :
  all_entries P (dict_of_empty years).
Proof.
  intros period yd item v Hp. rewrite (dict_of_empty_get years period yd Hp).
  discriminate.
Qed.

End Marks.

Section PatternMarks.

Lemma extracted_marked (x : option pyfloat) (line : string) :
  marked_high (PatternExtractor.extracted x line).
Proof. unfold marked_high. cbn. eauto. Qed.

Lemma table_rows_marks (y0 y1 : string) (rows : list string) :
  forall st st',
    all_entries marked_high (fst st) ->
    PatternExtractor.table_rows rows y0 y1 st = Returns st' ->
    all_entries marked_high (fst st').
Proof.
  induction rows as [|row rows IH]; intros [d r] st' Hd;
    cbn [fst snd] in *; cbn [PatternExtractor.table_rows].
  - intros H. apply Returns_inj in H. now subst st'.
  - cbv zeta.
    destruct (negb (nonempty (strip row))
              || Nat.ltb (String.length (strip row)) 5);
      [now apply IH|].
    destruct (existsb (fun x => contains x (lower (strip row)))
                PatternExtractor.header_words);
      [now apply IH|].
    destruct (match search PatternExtractor.row_pattern (strip row) with
              | Some m => Some m
              | None => search PatternExtractor.indented_row_pattern
                          (strip row)
              end) as [m|]; [|now apply IH].
    destruct (PatternExtractor._parse_number (group 2 m)) as [val1|];
      cbn [bind]; [|discriminate].
    destruct (PatternExtractor._parse_number (group 3 m)) as [val2|];
      cbn [bind]; [|discriminate].
    cbn [fst snd].
    destruct (_normalize_line_item (strip (group 1 m))) as [item|];
      [|now apply IH].
    destruct (setitem2 d y1 item (PatternExtractor.extracted val1 (strip row)))
      as [d1|] eqn:E1; cbn [bind]; [|discriminate].
    destruct (setitem2 d1 y0 item (PatternExtractor.extracted val2 (strip row)))
      as [d2|] eqn:E2; cbn [bind]; [|discriminate].
    destruct (setitem2 r y1 (item_value item) (strip row)) as [r1|];
      cbn [bind]; [|discriminate].
    destruct (setitem2 r1 y0 (item_value item) (strip row)) as [r2|];
      cbn [bind]; [|discriminate].
    apply IH. cbn [fst].
    apply (all_entries_setitem2 marked_high d1 d2 y0 item _
             (all_entries_setitem2 marked_high d d1 y1 item _ Hd
                (extracted_marked _ _) E1)
             (extracted_marked _ _) E2).
Qed.

Lemma extract_from_table_marks (lines years : list string) (p : partial) :
  PatternExtractor._extract_from_table lines years = Returns p ->
  all_entries marked_high (fst (fst p)).
Proof.
  unfold PatternExtractor._extract_from_table. cbv zeta.
  destruct years as [|y0 [|y1 ys]];
    try (intros H; apply Returns_inj in H; subst p; apply all_entries_nil).
  match goal with
  | |- context [PatternExtractor.table_rows ?rows ?a ?b ?st] =>
      destruct (PatternExtractor.table_rows rows a b st) as [st'|] eqn:E
  end; cbn [bind]; [|discriminate].
  intros H. apply Returns_inj in H. subst p. cbn [fst].
  refine (table_rows_marks _ _ _ _ st' _ E). cbn [fst].
  apply all_entries_dict_of_empty.
Qed.

Lemma try_variations_marks (context year : string)
  (variations : list string) (x : pyfloat) (c : ConfidenceLevel)
  (t : option string) :
  PatternExtractor.try_variations variations context year
  = Returns (Some x, c, t) ->
  c = HIGH /\ exists t', t = Some t'.
Proof.
  induction variations as [|v vs IH];
    cbn [PatternExtractor.try_variations]; [discriminate|].
  destruct (search (PatternExtractor.line_item_pattern v) context) as [m|];
    [|exact IH].
  destruct (PatternExtractor._parse_number (group 1 m)) as [value|];
    cbn [bind]; [|discriminate].
  cbv zeta.
  match goal with
  | |- bind ?c0 _ = _ -> _ => destruct c0 as [[|]|]
  end; cbn [bind]; [|exact IH|discriminate].
  intros H. apply Returns_inj in H. inversion H; subst. eauto.
Qed.

Lemma for_year_items_marks (year_context year : string)
  (items : list IncomeStatementItem) :
  forall st st',
    (forall item v, get (fst st) item = Some v -> marked_high v) ->
    PatternExtractor.for_year_items items year_context year st = Returns st' ->
    forall item v, get (fst st') item = Some v -> marked_high v.
Proof.
  induction items as [|i items IH]; intros st st' Hst;
    cbn [PatternExtractor.for_year_items].
  - intros H. apply Returns_inj in H. now subst st'.
  - unfold PatternExtractor._extract_line_item.
    destruct (PatternExtractor.try_variations
                (PatternExtractor._get_item_variations i) year_context year)
      as [[[value c] t]|] eqn:E; cbn [bind]; [|discriminate].
    destruct value as [x|]; [|now apply IH].
    apply IH. cbn [fst].
    destruct (try_variations_marks _ _ _ x c t E) as [-> [t' ->]].
    apply period_setitem; [exact Hst|]. unfold marked_high. cbn. eauto.
Qed.

Lemma line_by_line_years_marks (text : string) (years : list string) :
  forall st st',
    all_entries marked_high (fst st) ->
    PatternExtractor.line_by_line_years years text st = Returns st' ->
    all_entries marked_high (fst st').
Proof.
  induction years as [|year years IH]; intros st st' Hst;
    cbn [PatternExtractor.line_by_line_years].
  - intros H. apply Returns_inj in H. now subst st'.
  - unfold PatternExtractor._extract_for_year. cbv zeta.
    match goal with
    | |- context [PatternExtractor.for_year_items ?i ?c ?y ?s] =>
        destruct (PatternExtractor.for_year_items i c y s)
          as [[year_data year_raw]|] eqn:E
    end; cbn [bind]; [|discriminate].
    destruct (truthy year_data); [|now apply IH].
    apply IH. cbn [fst]. apply all_entries_setitem; [exact Hst|].
    refine (for_year_items_marks _ _ _ _ _ _ E).
    intros item v H. discriminate H.
Qed.

Lemma extract_line_by_line_marks (text : string) (years : list string)
  (p : partial) :
  PatternExtractor._extract_line_by_line text years = Returns p ->
  all_entries marked_high (fst (fst p)).
Proof.
  unfold PatternExtractor._extract_line_by_line.
  destruct (PatternExtractor.line_by_line_years years text ([], []))
    as [st|] eqn:E; cbn [bind]; [|discriminate].
  intros H. apply Returns_inj in H. subst p. cbn [fst].
  refine (line_by_line_years_marks text years _ st _ E). cbn [fst].
  apply all_entries_nil.
Qed.

End PatternMarks.

Section PatternEngineMarks.

Lemma extract_simple_key_value_marks (lines : list string) (p : partial) :
  PatternExtractor._extract_simple_key_value lines = Returns p ->
  all_entries marked_high (fst (fst p)).
Proof.
  destruct (extract_simple_key_value_inv lines) as (c & rc & E & Hok).
  rewrite E. intros H. apply Returns_inj in H. subst p. cbn [fst].
  intros period yd item v. cbn [get].
  destruct (key_eqb "Current" period); [|discriminate].
  intros [= <-] Hv. destruct (Hok item v Hv) as (line & _ & Hrow).
  destruct Hrow as (p0 & p1 & x & _ & _ & _ & ->).
  apply extracted_marked.
Qed.

Lemma pattern_extract_marks (text : string) (r : FinancialExtractionResult) :
  PatternExtractor.extract text = Returns r ->
  all_entries marked_high (data r).
Proof.
  unfold PatternExtractor.extract. cbv zeta.
  destruct (PatternExtractor._detect_currency text) as [c|]; cbn [bind];
    [|discriminate].
  destruct (PatternExtractor._detect_unit text) as [u|]; cbn [bind];
    [|discriminate].
  match goal with
  | |- bind ?c1 _ = _ -> _ =>
      assert (H1 : forall p1, c1 = Returns p1 ->
                              all_entries marked_high (fst (fst p1)));
      [|destruct c1 as [[[d1 r1] w1]|]; cbn [bind]; [|discriminate];
        specialize (H1 _ eq_refl); cbn [fst] in H1]
  end.
  { intros p1.
    match goal with |- (if ?b then _ else _) = _ -> _ => destruct b end.
    - match goal with
      | |- bind ?c0 _ = _ -> _ =>
          destruct c0 as [[[d0 r0] w0]|] eqn:E0
      end; cbn [bind]; [|discriminate].
      match goal with |- (if ?b then _ else _) = _ -> _ => destruct b end.
      + apply extract_line_by_line_marks.
      + intros H. apply Returns_inj in H. subst p1.
        exact (extract_from_table_marks _ _ _ E0).
    - intros H. apply Returns_inj in H. subst p1. apply all_entries_nil. }
  match goal with
  | |- bind (if ?b then ?kv else _) _ = _ -> _ =>
      destruct b; [destruct kv as [[[d2 r2] w2]|] eqn:E2|]
  end; cbn [bind]; try discriminate;
    intros H; apply Returns_inj in H; subst r; cbn [data].
  - exact (extract_simple_key_value_marks _ _ E2).
  - exact H1.
Qed.

(** X13.  Whatever the overall confidence of the result, every value the
    pipeline returns is itself marked HIGH, carries no note and has a
    provenance text. *)
Theorem pipeline_values_are_marked_high (text filename now : string) :
  exists r,
    DocumentProcessor._extract_financial_data text filename now = Returns r /\
    forall period item v,
      entry (data r) period item v ->
      confidence v = HIGH /\ notes v = None /\
      exists t, original_text v = Some t.
Proof.
  destruct (pipeline_cases text filename now)
    as (r & E & _ & _
        & [(r0 & E0 & _ & -> & _) | (r0 & r1 & _ & _ & E1 & -> & _)]);
    (eexists; split; [exact E|]);
    cbn [set_extraction_date set_document_name data];
    intros period item v (yd & Hp & Hv).
  - destruct (free_extract_marks text) as (r0' & E0' & Hm).
    rewrite E0 in E0'. apply Returns_inj in E0'. subst r0'.
    destruct (Hm period item v (ex_intro _ yd (conj Hp Hv)))
      as (Hc & Hn & _ & line & _ & [Ho | Ho]); eauto.
  - exact (pattern_extract_marks text r1 E1 period yd item v Hp Hv).
Qed.

End PatternEngineMarks.

Section PatternEngineTable.

(** X14.  When the text has a header line with two different years and the
    table method reads at least one row, the pattern engine returns the
    data of the table method and no other: each item read is filed under
    both years of the header, its first number under the right year and its
    second number under the left one. *)
Theorem pattern_engine_returns_the_table (text a b : string) :
  PatternExtractor._extract_years_from_table (split "010" text) = [a; b] ->
  a <> b ->
  exists r d raw da db,
    PatternExtractor.extract text = Returns r /\
    PatternExtractor._extract_from_table (split "010" text) [a; b]
    = Returns (d, raw, []) /\
    get d a = Some da /\ get d b = Some db /\
    pattern_table_ok (split "010" text) da db /\
    (da <> [] \/ db <> [] -> data r = d /\ raw_extracts r = raw).
Proof.
  intros Hyears Hab.
  destruct (pattern_extract_returns text) as (r & E).
  destruct (extract_from_table_pairs (split "010" text) [] a b Hab)
    as (d & raw & da & db & Et & Ha & Hb & Ho & Hok).
  exists r, d, raw, da, db.
  split; [exact E|]. split; [exact Et|]. split; [exact Ha|].
  split; [exact Hb|]. split; [exact Hok|].
  intros Hne.
  assert (Hempty : PatternExtractor.all_empty d [a; b] = false).
  { unfold PatternExtractor.all_empty. cbn [forallb]. rewrite Ha, Hb.
    destruct Hne as [H | H].
    - destruct da; [congruence|]. reflexivity.
    - destruct db; [congruence|]. cbn [List.length Nat.eqb].
      now rewrite andb_false_r. }
  assert (Htruthy : truthy d = true).
  { destruct d; [discriminate Ha | reflexivity]. }
  revert E. unfold PatternExtractor.extract. cbv zeta.
  rewrite Hyears. cbn [truthy andb List.length Nat.leb].
  destruct (PatternExtractor._detect_currency text) as [c|]; cbn [bind];
    [|discriminate].
  destruct (PatternExtractor._detect_unit text) as [u|]; cbn [bind];
    [|discriminate].
  rewrite Et. cbn [bind]. rewrite Htruthy, Hempty. cbn [negb orb bind].
  rewrite Htruthy, Hempty. cbn [negb orb bind].
  intros E. apply Returns_inj in E. subst r. cbn [data raw_extracts].
  split; reflexivity.
Qed.

Lemma pattern_engine_returns_the_table_witness :
  exists r d raw da db,
    PatternExtractor.extract
      ("2022 2023" ++ nl ++ "Revenue 100.00 200.00") = Returns r /\
    PatternExtractor._extract_from_table
      (split "010" ("2022 2023" ++ nl ++ "Revenue 100.00 200.00"))
      ["2022"; "2023"]
    = Returns (d, raw, []) /\
    get d "2022" = Some da /\ get d "2023" = Some db /\
    pattern_table_ok
      (split "010" ("2022 2023" ++ nl ++ "Revenue 100.00 200.00")) da db /\
    (da <> [] \/ db <> [] -> data r = d /\ raw_extracts r = raw).
Proof.
  apply (pattern_engine_returns_the_table
           ("2022 2023" ++ nl ++ "Revenue 100.00 200.00") "2022" "2023").
  - reflexivity.
  - discriminate.
Defined.

End PatternEngineTable.

Section TableStart.

Lemma find_table_start_cases (years lines : list string) :
  forall i,
    (PatternExtractor.find_table_start lines years i = 0 /\
     forall line, In line lines ->
       forallb (fun year => contains year line) years = false)
    \/
    exists before line after,
      lines = before ++ line :: after /\
      forallb (fun year => contains year line) years = true /\
      (forall l, In l before ->
         forallb (fun year => contains year l) years = false) /\
      PatternExtractor.find_table_start lines years i
      = S (i + List.length before).
Proof.
  induction lines as [|l lines IH]; intros i;
    cbn [PatternExtractor.find_table_start].
  - left. split; [reflexivity|]. intros line [].
  - destruct (forallb (fun year => contains year l) years) eqn:E.
    + right. exists [], l, lines. cbn [app List.length].
      split; [reflexivity|]. split; [exact E|]. split; [intros ? []|]. lia.
    + destruct (IH (S i)) as [[E0 Hnone] | (before & line & after & -> & Hl
                                            & Hbefore & En)].
      * left. split; [exact E0|]. intros line [<- | Hin]; auto.
      * right. exists (l :: before), line, after. cbn [app List.length].
        split; [reflexivity|]. split; [exact Hl|].
        split; [intros l' [<- | Hin]; auto|]. rewrite En. lia.
Qed.

Lemma skipn_app_length {A} (a b : list A) :
  skipn (List.length a) (a ++ b) = b.
Proof. induction a as [|x a IH]; [reflexivity | exact IH]. Qed.

(** X15.  The rows the table method reads are the lines after the first
    line that names every year; when no line names them all, it reads every
    line from the first. *)
Theorem table_rows_start_after_the_header (lines years : list string) :
  let start_idx := PatternExtractor.find_table_start lines years 0 in
  (skipn start_idx lines = lines /\
   forall line, In line lines ->
     forallb (fun year => contains year line) years = false)
  \/
  exists before line after,
    lines = before ++ line :: after /\
    forallb (fun year => contains year line) years = true /\
    (forall l, In l before ->
       forallb (fun year => contains year l) years = false) /\
    skipn start_idx lines = after.
Proof.
  cbv zeta.
  destruct (find_table_start_cases years lines 0)
    as [[E Hnone] | (before & line & after & -> & Hl & Hbefore & E)].
  - left. rewrite E. auto.
  - right. exists before, line, after.
    split; [reflexivity|]. split; [exact Hl|]. split; [exact Hbefore|].
    rewrite E. cbn [Nat.add].
    replace (S (List.length before))
      with (List.length (before ++ [line]))
      by (rewrite length_app; cbn [List.length]; lia).
    replace (before ++ line :: after) with ((before ++ [line]) ++ after)
      by (now rewrite <- app_assoc).
    apply skipn_app_length.
Qed.

End TableStart.

Section RecentYears.






End RecentYears.

Section ContextWindow.

Lemma group_free_lit (ci : bool) (w : string) : group_free (lit ci w) = true.
Proof. induction w as [|c w IH]; [reflexivity | exact IH]. Qed.

Lemma lang_lit_ci (v w : string) : lang (lit true v) w -> lower w = lower v.
Proof.
  revert w. induction v as [|c v IH]; intros w H; cbn [lit lang] in H.
  - now subst w.
  - destruct H as (a & b & -> & (d & Hd & ->) & Hb).
    apply Ascii.eqb_eq in Hd. cbn [append lower]. now rewrite Hd, (IH b Hb).
Qed.

Lemma lang_star_dot (g : bool) (w : string) :
  lang (Star g dot) w -> lacks "010" w = true.
Proof.
  cbn [lang]. induction 1 as [|w1 w2 H1 _ IH]; [reflexivity|].
  destruct H1 as (c & Hc & ->). cbn [append lacks]. now rewrite Hc, IH.
Qed.

(** The words of a match of the pattern of a line item. *)
Lemma line_item_match (variation context : string) (m : rmatch_obj) :
  search (PatternExtractor.line_item_pattern variation) context = Some m ->
  exists pre name gap post,
    context = (pre ++ name ++ gap ++ group 1 m ++ post)%string /\
    lower name = lower variation /\
    lacks "010" gap = true /\
    lang PatternExtractor.number_token (group 1 m) /\
    group0 context m = (name ++ gap ++ group 1 m)%string.
Proof.
  unfold search. intros H. apply search_from_suffix in H.
  destruct H as (pre & rest' & -> & H).
  unfold match_at, PatternExtractor.line_item_pattern in H.
  cbn [seqs fold_right] in H.
  apply rmatch_seq_keeps in H; [|apply group_free_lit].
  destruct H as (name & r1 & -> & Hname & H).
  apply rmatch_seq_keeps in H; [|reflexivity].
  destruct H as (gap & r2 & -> & Hgap & H).
  apply rmatch_seq_group in H; [|reflexivity].
  destruct H as (tok & r3 & -> & Htok & H).
  cbn [rmatch] in H. inversion H; subst m; clear H.
  unfold group, group0.
  cbn [m_groups m_start m_end get_group set_group Nat.eqb].
  exists pre, name, gap, r3.
  split; [reflexivity|]. split; [exact (lang_lit_ci _ _ Hname)|].
  split; [exact (lang_star_dot _ _ Hgap)|]. split; [exact Htok|].
  cbn [Nat.add].
  replace (String.length pre + String.length name + String.length gap
           + String.length tok - String.length pre)
    with (String.length (name ++ gap ++ tok))
    by (rewrite !length_append; lia).
  rewrite substring_skip.
  replace (name ++ gap ++ tok ++ r3)%string
    with ((name ++ gap ++ tok) ++ r3)%string
    by (now rewrite !append_assoc).
  apply substring_prefix.
Qed.

Lemma try_variations_hit (context year : string) (item : IncomeStatementItem)
  (variations : list string) (x : pyfloat) (c : ConfidenceLevel)
  (t : option string) :
  incl variations (PatternExtractor._get_item_variations item) ->
  PatternExtractor.try_variations variations context year
  = Returns (Some x, c, t) ->
  line_item_hit context year item (MkExtractedValue (Some x) t c None).
Proof.
  induction variations as [|v vs IH]; intros Hincl;
    cbn [PatternExtractor.try_variations]; [discriminate|].
  assert (Hvs : incl vs (PatternExtractor._get_item_variations item))
    by (intros z Hz; apply Hincl; now right).
  destruct (search (PatternExtractor.line_item_pattern v) context) as [m|]
    eqn:Em; [|exact (IH Hvs)].
  destruct (PatternExtractor._parse_number (group 1 m)) as [value|] eqn:Ep;
    cbn [bind]; [|discriminate].
  cbv zeta.
  destruct (contains year
              (slice (m_start m - 50)
                 (Nat.min (String.length context) (m_end m + 50)) context))
    eqn:Ey; cbn [bind].
  - intros H. apply Returns_inj in H. inversion H; subst value c t.
    destruct (line_item_match v context m Em)
      as (pre & name & gap & post & Hc & Hn & Hg & Ht & H0).
    exists v, m, x, pre, name, gap, post.
    split; [apply Hincl; now left|].
    repeat (split; [assumption|]).
    split; [cbv zeta; left; exact Ey | reflexivity].
  - destruct (PatternExtractor._is_recent_year
                (slice (m_start m - 50)
                   (Nat.min (String.length context) (m_end m + 50)) context))
      as [[|]|] eqn:Er; cbn [bind]; [|exact (IH Hvs)|discriminate].
    intros H. apply Returns_inj in H. inversion H; subst value c t.
    destruct (line_item_match v context m Em)
      as (pre & name & gap & post & Hc & Hn & Hg & Ht & H0).
    exists v, m, x, pre, name, gap, post.
    split; [apply Hincl; now left|].
    repeat (split; [assumption|]).
    split; [cbv zeta; right; exact Er | reflexivity].
Qed.

Lemma for_year_items_hits (year_context year : string)
  (items : list IncomeStatementItem) :
  forall st,
    (forall item v, get (fst st) item = Some v ->
       line_item_hit year_context year item v) ->
    exists st',
      PatternExtractor.for_year_items items year_context year st
      = Returns st' /\
      forall item v, get (fst st') item = Some v ->
        line_item_hit year_context year item v.
Proof.
  induction items as [|i items IH]; intros st Hst;
    cbn [PatternExtractor.for_year_items].
  - eauto.
  - unfold PatternExtractor._extract_line_item. cbv zeta.
    destruct (try_variations_returns year_context year
                (PatternExtractor._get_item_variations i))
      as [[[value c] t] E].
    rewrite E. cbn [bind].
    destruct value as [x|]; [|exact (IH st Hst)].
    apply IH. cbn [fst]. intros item v.
    destruct (key_eqb i item) eqn:Ei.
    + apply (key_eqb_eq (K := IncomeStatementItem)) in Ei. subst item.
      rewrite get_setitem_same. intros [= <-].
      exact (try_variations_hit _ _ i _ x c t (incl_refl _) E).
    + assert (Hne : i <> item).
      { intros ->. rewrite key_eqb_refl in Ei. discriminate. }
      rewrite get_setitem_other by exact Hne. apply Hst.
Qed.

Lemma line_by_line_years_hits (text : string) (all : list string) :
  forall years, incl years all ->
  forall st,
    (forall period yd, get (fst st) period = Some yd ->
       In period all /\ yd <> [] /\
       forall item v, get yd item = Some v ->
         line_item_hit (PatternExtractor._get_year_context text period)
           period item v) ->
    exists st',
      PatternExtractor.line_by_line_years years text st = Returns st' /\
      forall period yd, get (fst st') period = Some yd ->
        In period all /\ yd <> [] /\
        forall item v, get yd item = Some v ->
          line_item_hit (PatternExtractor._get_year_context text period)
            period item v.
Proof.
  induction years as [|year years IH]; intros Hincl st Hst;
    cbn [PatternExtractor.line_by_line_years].
  - eauto.
  - assert (Hyears : incl years all)
      by (intros z Hz; apply Hincl; now right).
    unfold PatternExtractor._extract_for_year. cbv zeta.
    destruct (for_year_items_hits
                (PatternExtractor._get_year_context text year) year
                all_items ([], []))
      as ([year_data year_raw] & E & Hyd).
    { intros item v H. discriminate H. }
    rewrite E. cbn [bind fst].
    destruct year_data as [|e year_data]; cbn [truthy];
      [exact (IH Hyears st Hst)|].
    apply (IH Hyears). cbn [fst]. intros period yd.
    destruct (String.eqb_spec year period) as [<- | Hne].
    + rewrite get_setitem_same. intros [= <-].
      split; [apply Hincl; now left|]. split; [discriminate|].
      exact Hyd.
    + rewrite get_setitem_other by exact Hne. apply Hst.
Qed.

(** X17.  The pattern engine's context-window method never raises and
    gives no warning; it keeps a period only for a year it was given and
    only when it read something for it, and every value it keeps is a number
    read next to a variation of the item's name, on the same line, within
    the context of the year, with the text from the name to the number as
    provenance. *)
Theorem pattern_line_by_line_keeps_what_it_read (text : string)
  (years : list string) :
  exists d raw,
    PatternExtractor._extract_line_by_line text years = Returns (d, raw, [])
    /\
    forall period year_data,
      get d period = Some year_data ->
      In period years /\ year_data <> [] /\
      forall item v,
        get year_data item = Some v ->
        line_item_hit (PatternExtractor._get_year_context text period)
          period item v.
Proof.
  unfold PatternExtractor._extract_line_by_line.
  destruct (line_by_line_years_hits text years years (incl_refl _) ([], []))
    as ([d raw] & E & H).
  { intros period yd Hp. discriminate Hp. }
  match type of E with
  | ?lhs = _ =>
      match goal with
      | |- context [PatternExtractor.line_by_line_years ?ys ?t ?st] =>
          change (PatternExtractor.line_by_line_years ys t st) with lhs
      end
  end.
  rewrite E. cbn [bind fst snd]. exists d, raw. split; [reflexivity|].
  exact H.
Qed.

End ContextWindow.

Section Workbook.









End Workbook.

Section WorkbookOfPipeline.

Lemma get_in {K V} `{EqbLaws K} (d : dict K V) (k : K) (v : V) :
  get d k = Some v -> In (k, v) d.
Proof.
  induction d as [|[k' v'] d IH]; cbn [get In]; [discriminate|].
  destruct (key_eqb k' k) eqn:E.
  - apply key_eqb_eq in E. subst k'. intros [= ->]. now left.
  - intros Hg. right. exact (IH Hg).
Qed.

Lemma missing_item_has_no_cell (r : FinancialExtractionResult)
  (item : IncomeStatementItem) :
  missing_items_ok r -> In item (missing_items r) ->
  forall year,
    ExcelGenerator.cell_of r item year = ExcelGenerator.Text "N/A".
Proof.
  intros [_ Hok] Hin year. unfold ExcelGenerator.cell_of.
  destruct (get (data r) year) as [yd|] eqn:Ey; [|reflexivity].
  destruct (get yd item) as [v|] eqn:Ei; [|reflexivity].
  exfalso. apply (proj1 (Hok item) Hin).
  exists year, yd. split; [exact (get_in _ _ _ Ey)|].
  unfold keys. apply in_map_iff. exists (item, v).
  split; [reflexivity | exact (get_in _ _ _ Ei)].
Qed.

(** X19.  In the workbook of what the pipeline returns, every item listed on
    the Missing Items sheet has "N/A" in each period of the Financial Data
    sheet, and the Missing Items sheet is written exactly when an item is
    missing. *)
Theorem workbook_missing_items_are_blank (text filename now : string) :
  exists r,
    DocumentProcessor._extract_financial_data text filename now = Returns r /\
    (forall item,
       In item (missing_items r) ->
       In [ExcelGenerator.Text (item_value item)]
          (ExcelGenerator.rows (ExcelGenerator.missing_data r)) /\
       In (ExcelGenerator.Text (item_value item)
           :: map (fun _ => ExcelGenerator.Text "N/A")
                  (PyBuiltins.sorted (keys (data r))))
          (ExcelGenerator.rows (ExcelGenerator.financial_data r))) /\
    (In "Missing Items" (map fst (ExcelGenerator.sheets r)) <->
     missing_items r <> []).
Proof.
  destruct (pipeline_returns text filename now) as (r & E & Hok).
  exists r. split; [exact E|]. split.
  - intros item Hin. split.
    + unfold ExcelGenerator.missing_data. cbn [ExcelGenerator.rows].
      apply in_map_iff. exists item. auto.
    + unfold ExcelGenerator.financial_data, ExcelGenerator.data_rows.
      cbv zeta. cbn [tl ExcelGenerator.rows].
      apply in_map_iff. exists item. split; [|apply all_items_complete].
      f_equal. apply map_ext. intros year.
      exact (missing_item_has_no_cell r item Hok Hin year).
  - unfold ExcelGenerator.sheets.
    destruct (missing_items r) as [|i l]; cbn [truthy app map fst In].
    + split; [|congruence].
      intros [H | [H | []]]; discriminate.
    + split; [discriminate|]. auto.
Qed.

End WorkbookOfPipeline.

Section ProcessorFacts.
Variable sv : Processor.services.

Lemma extract_text_returns (file_path filename : string) :
  exists text, Processor._extract_text sv file_path filename = Returns text.
Proof.
  unfold Processor._extract_text. cbv zeta.
  destruct (String.eqb _ ".pdf").
  { destruct (Processor._extract_from_pdf sv file_path);
      cbn [bind try_except_Exception]; eauto. }
  destruct (String.eqb _ ".docx").
  { destruct (Processor._extract_from_docx sv file_path);
      cbn [bind try_except_Exception]; eauto. }
  destruct (String.eqb _ ".txt").
  { destruct (Processor._extract_from_txt sv file_path);
      cbn [bind try_except_Exception]; eauto. }
  cbn [try_except_Exception]. eauto.
Qed.

Lemma generate_returns (result : FinancialExtractionResult)
  (output_path : string) :
  exists b,
    ExcelGenerator.generate (Processor.write_workbook sv) result output_path
    = Returns b.
Proof.
  unfold ExcelGenerator.generate.
  destruct (Processor.write_workbook sv output_path
              (ExcelGenerator.sheets result));
    cbn [bind try_except_Exception]; eauto.
Qed.

Lemma process_document_cases (file_path filename : string) :
  exists text,
    Processor._extract_text sv file_path filename = Returns text /\
    Processor.process_document sv file_path filename
    = Returns (if Processor.no_text text then None
               else Some (Processor.uuid4 sv ++ "_extraction.xlsx")%string).
Proof.
  destruct (extract_text_returns file_path filename) as [text E].
  exists text. split; [exact E|].
  unfold Processor.process_document. rewrite E. cbn [bind].
  destruct (Processor.no_text text); [reflexivity|]. cbv zeta.
  destruct (pipeline_returns
              (match text with Some t => t | None => EmptyString end)
              filename (Processor.now sv)) as (r & Er & _).
  rewrite Er. cbn [bind].
  destruct (generate_returns r
              (PyPath.join (Processor.output_dir sv)
                 (Processor.uuid4 sv ++ "_extraction.xlsx")))
    as [b Eb].
  rewrite Eb. reflexivity.
Qed.

Lemma nonempty_pages_text (pages : list (option string)) :
  forall text,
    nonempty (Processor.pages_text pages text)
    = nonempty text
      || existsb (fun page => match page with
                              | Some t => nonempty t
                              | None => false
                              end) pages.
Proof.
  induction pages as [|[t|] pages IH]; intros text;
    cbn [Processor.pages_text existsb].
  - now rewrite orb_false_r.
  - destruct (nonempty t) eqn:Et.
    + rewrite IH. destruct text; [|reflexivity].
      cbn [append]. destruct t; [discriminate|]. reflexivity.
    + now rewrite IH.
  - now rewrite IH.
Qed.

End ProcessorFacts.

Section ProcessorTheorems.

(** X20.  Processing a document never raises and returns a file name
    exactly when the text read from the document is not empty; the name is
    then the identifier drawn followed by "_extraction.xlsx", whether or not
    the workbook could be written.  No engine failure can turn a document
    with text into a failure. *)
Theorem process_document_follows_the_text (sv : Processor.services)
  (file_path filename : string) :
  exists text output,
    Processor._extract_text sv file_path filename = Returns text /\
    Processor.process_document sv file_path filename = Returns output /\
    ((output = Some (Processor.uuid4 sv ++ "_extraction.xlsx")%string /\
      exists t, text = Some t /\ t <> EmptyString)
     \/
     (output = None /\ (text = None \/ text = Some EmptyString))).
Proof.
  destruct (process_document_cases sv file_path filename)
    as (text & E & Ep).
  exists text. eexists. split; [exact E|]. split; [exact Ep|].
  destruct text as [[|c t]|]; cbn [Processor.no_text nonempty negb].
  - right. auto.
  - left. split; [reflexivity|]. exists (String c t). split; [reflexivity|].
    discriminate.
  - right. auto.
Qed.

(** X21.  A file whose extension is ".pdf", in any case of the letters, is
    read as a PDF, and it yields a workbook exactly when the library could
    open it and at least one of its pages has text: a PDF without a text
    layer is a failure. *)
Theorem pdf_needs_a_page_with_text (sv : Processor.services)
  (file_path filename : string) :
  lower (snd (PyPath.splitext filename)) = ".pdf" ->
  Processor.process_document sv file_path filename
  = Returns
      (match Processor.pdf_pages sv file_path with
       | Returns pages =>
           if existsb (fun page => match page with
                                   | Some t => nonempty t
                                   | None => false
                                   end) pages
           then Some (Processor.uuid4 sv ++ "_extraction.xlsx")%string
           else None
       | Raises _ => None
       end).
Proof.
  intros Hext.
  destruct (process_document_cases sv file_path filename)
    as (text & E & ->).
  unfold Processor._extract_text in E. cbv zeta in E. rewrite Hext in E.
  cbn [String.eqb Ascii.eqb Bool.eqb] in E.
  unfold Processor._extract_from_pdf in E.
  destruct (Processor.pdf_pages sv file_path) as [pages|e];
    cbn [bind try_except_Exception] in E;
    apply Returns_inj in E; subst text; [|reflexivity].
  cbn [Processor.no_text].
  rewrite (nonempty_pages_text pages EmptyString). cbn [nonempty orb].
  now destruct (existsb _ pages).
Qed.

Lemma pdf_needs_a_page_with_text_witness :
  Processor.process_document Setting.one_page_pdf "uploads/7.pdf" "Report.PDF"
  = Returns (Some "0f8fad5b_extraction.xlsx").
Proof.
  apply (pdf_needs_a_page_with_text Setting.one_page_pdf
           "uploads/7.pdf" "Report.PDF").
  reflexivity.
Defined.

End ProcessorTheorems.

Section RoutesFacts.

Lemma find_file_name (exists_ : string -> bool) (file_id : string)
  (exts : list string) (file_path original_filename : string) :
  Routes.find_file exists_ file_id exts = Some (file_path, original_filename) ->
  exists ext,
    In ext exts /\
    file_path = PyPath.join Routes.upload_dir (file_id ++ ext) /\
    exists_ file_path = true /\
    original_filename = ("document" ++ ext)%string.
Proof.
  induction exts as [|ext exts IH]; cbn [Routes.find_file]; [discriminate|].
  cbv zeta.
  destruct (exists_ (PyPath.join Routes.upload_dir (file_id ++ ext))) eqn:E.
  - intros [= <- <-]. exists ext. cbn [In]. auto.
  - intros H. destruct (IH H) as (ext' & Hin & Hrest).
    exists ext'. cbn [In]. auto.
Qed.

Lemma nonempty_output_name (u : string) :
  nonempty (u ++ "_extraction.xlsx") = true.
Proof. destruct u; reflexivity. Qed.

End RoutesFacts.

Section RoutesTheorems.

(** X22.  An extraction task that was registered by the route never stays
    pending or processing and never raises: it ends COMPLETED, with the
    output file of the processor and the message of success, when the
    processor returned a file name, and FAILED with the message "Failed to
    extract data from document" otherwise.  The message "Processing error"
    is never stored, and the other tasks are left as they were. *)
Theorem registered_task_ends_completed_or_failed
  (sv : Processor.services) (describe : exn -> string)
  (exists_ : string -> bool) (new_id file_id : string)
  (tasks tasks1 : Routes.tasks_t) (response : Routes.ExtractionResponse)
  (task_id file_path original_filename : string) :
  Routes.extract_document exists_ new_id tasks file_id
  = Routes.Ok (tasks1, response, (task_id, file_path, original_filename)) ->
  exists output tasks2,
    Processor.process_document sv file_path original_filename
    = Returns output /\
    Routes.process_document_task sv describe tasks1
      task_id file_path original_filename
    = Returns tasks2 /\
    Routes.get_extraction_status tasks2 task_id
    = Routes.Ok
        (match output with
         | Some f =>
             Routes.MkResponse task_id Routes.COMPLETED
               (Some "Extraction completed successfully") (Some f)
         | None =>
             Routes.MkResponse task_id Routes.FAILED
               (Some "Failed to extract data from document") None
         end) /\
    (forall other, other <> task_id -> get tasks2 other = get tasks other).
Proof.
  unfold Routes.extract_document.
  destruct (Routes.find_file exists_ file_id Routes.allowed_extensions)
    as [[fp fn]|]; [|discriminate].
  destruct (negb (nonempty fp)); [discriminate|]. cbv zeta.
  intros [= <- _ <- <- <-].
  destruct (process_document_cases sv fp fn) as (text & _ & Ep).
  unfold Routes.process_document_task, Routes.set_status, Routes.update,
    getitem.
  cbv zeta. rewrite get_setitem_same. cbn [bind].
  rewrite Ep. cbn [bind].
  destruct (Processor.no_text text).
  - eexists. eexists. split; [reflexivity|].
    rewrite get_setitem_same. cbn [bind].
    split; [reflexivity|]. unfold Routes.get_extraction_status.
    rewrite get_setitem_same.
    cbn [Routes.status Routes.message Routes.output_file].
    split; [reflexivity|].
    intros other Hne. now rewrite !get_setitem_other by congruence.
  - eexists. eexists. split; [reflexivity|].
    rewrite nonempty_output_name, get_setitem_same. cbn [bind].
    split; [reflexivity|]. unfold Routes.get_extraction_status.
    rewrite get_setitem_same.
    cbn [Routes.status Routes.message Routes.output_file].
    split; [reflexivity|].
    intros other Hne. now rewrite !get_setitem_other by congruence.
Qed.

Lemma registered_task_ends_completed_or_failed_witness :
  exists output tasks2,
    Processor.process_document Setting.one_page_pdf
      "uploads/7.pdf" "document.pdf"
    = Returns output /\
    Routes.process_document_task Setting.one_page_pdf (fun _ => EmptyString)
      [("t1", Routes.MkTask Routes.PENDING "7" "uploads/7.pdf" "document.pdf"
                None None)]
      "t1" "uploads/7.pdf" "document.pdf"
    = Returns tasks2 /\
    Routes.get_extraction_status tasks2 "t1"
    = Routes.Ok
        (match output with
         | Some f =>
             Routes.MkResponse "t1" Routes.COMPLETED
               (Some "Extraction completed successfully") (Some f)
         | None =>
             Routes.MkResponse "t1" Routes.FAILED
               (Some "Failed to extract data from document") None
         end) /\
    (forall other, other <> "t1" -> get tasks2 other = get [] other).
Proof.
  apply (registered_task_ends_completed_or_failed
           Setting.one_page_pdf (fun _ => EmptyString) Setting.one_upload
           "t1" "7" []
           [("t1", Routes.MkTask Routes.PENDING "7" "uploads/7.pdf"
                     "document.pdf" None None)]
           (Routes.MkResponse "t1" Routes.PENDING
              (Some "Extraction started") None)).
  reflexivity.
Defined.

End RoutesTheorems.

Section Upload.

Lemma allowed_extension_cases (ext : string) :
  existsb (String.eqb ext) Routes.allowed_extensions = true ->
  ext = ".pdf" \/ ext = ".docx" \/ ext = ".txt".
Proof.
  unfold Routes.allowed_extensions. cbn [existsb].
  destruct (String.eqb_spec ext ".pdf"); [auto|].
  destruct (String.eqb_spec ext ".docx"); [auto|].
  destruct (String.eqb_spec ext ".txt"); [auto|].
  discriminate.
Qed.

Lemma find_file_finds (exists_ : string -> bool) (file_id ext : string)
  (exts : list string) :
  In ext exts ->
  exists_ (PyPath.join Routes.upload_dir (file_id ++ ext)) = true ->
  exists found,
    In found exts /\
    Routes.find_file exists_ file_id exts
    = Some (PyPath.join Routes.upload_dir (file_id ++ found),
            ("document" ++ found)%string).
Proof.
  induction exts as [|e exts IH]; intros Hin Hex; [contradiction|].
  cbn [Routes.find_file]. cbv zeta.
  destruct (exists_ (PyPath.join Routes.upload_dir (file_id ++ e))) eqn:E.
  - exists e. split; [now left | reflexivity].
  - destruct Hin as [-> | Hin]; [congruence|].
    destruct (IH Hin Hex) as (found & Hf & Ef).
    exists found. split; [now right | exact Ef].
Qed.

Lemma upload_path_nonempty (name : string) :
  nonempty (PyPath.join Routes.upload_dir name) = true.
Proof.
  unfold PyPath.join, Routes.upload_dir.
  destruct (startswith "/" name) eqn:E.
  - destruct name; [discriminate E | reflexivity].
  - reflexivity.
Qed.

(** X23.  An upload leaves the route with a response or with one of its
    three errors, never with an unhandled exception.  It is accepted only
    when its extension, in lower case, is one of ".pdf", ".docx" and ".txt"
    and its size is at most 10 MiB, and the document type of the response is
    that extension.  Once the accepted upload is on disk, the extraction
    route finds it: it answers PENDING, never 404, and the name it hands to
    the processor has an extension the processor reads. *)
Theorem accepted_upload_can_be_extracted
  (save : string -> outcome Datatypes.unit) (new_id now filename : string)
  (file_size : Z) :
  Routes.upload_document save new_id now filename file_size
  <> Routes.Unhandled /\
  forall response,
    Routes.upload_document save new_id now filename file_size
    = Routes.Ok response ->
    let ext := lower (snd (PyPath.splitext filename)) in
    In ext Routes.allowed_extensions /\
    (file_size <= Routes.max_file_size)%Z /\
    Routes.u_file_id response = new_id /\
    Routes.DocumentType_of_value
      (slice 1 (String.length ext) ext)
    = Some (Routes.u_document_type response) /\
    forall exists_ task_id tasks,
      exists_ (PyPath.join Routes.upload_dir (new_id ++ ext)) = true ->
      exists tasks1 file_path found,
        In found Routes.allowed_extensions /\
        Routes.extract_document exists_ task_id tasks
          (Routes.u_file_id response)
        = Routes.Ok
            (tasks1,
             Routes.MkResponse task_id Routes.PENDING
               (Some "Extraction started") None,
             (task_id, file_path, ("document" ++ found)%string)) /\
        lower (snd (PyPath.splitext ("document" ++ found))) = found.
Proof.
  unfold Routes.upload_document. cbv zeta.
  destruct (existsb (String.eqb (lower (snd (PyPath.splitext filename))))
              Routes.allowed_extensions) eqn:Eext; cbn [negb].
  2: { split; [discriminate | intros response H; discriminate H]. }
  destruct (Routes.max_file_size <? file_size)%Z eqn:Esize.
  { split; [discriminate | intros response H; discriminate H]. }
  destruct (save (PyPath.join Routes.upload_dir
                    (new_id ++ lower (snd (PyPath.splitext filename)))))
    as [[]|e].
  2: { split; [discriminate | intros response H; discriminate H]. }
  pose proof (allowed_extension_cases _ Eext) as Hcases.
  assert (Hin : In (lower (snd (PyPath.splitext filename)))
                   Routes.allowed_extensions).
  { unfold Routes.allowed_extensions. cbn [In].
    destruct Hcases as [-> | [-> | ->]]; auto. }
  assert (Hdoc : exists t,
             Routes.DocumentType_of_value
               (slice 1
                  (String.length (lower (snd (PyPath.splitext filename))))
                  (lower (snd (PyPath.splitext filename))))
             = Some t).
  { destruct Hcases as [-> | [-> | ->]]; eexists; reflexivity. }
  destruct Hdoc as [t Ht]. rewrite Ht.
  split; [discriminate|].
  intros response H. injection H as <-.
  cbn [Routes.u_file_id Routes.u_document_type].
  split; [exact Hin|]. split; [apply Z.ltb_ge; exact Esize|].
  split; [reflexivity|]. split; [reflexivity|].
  intros exists_ task_id tasks Hex.
  destruct (find_file_finds exists_ new_id _ Routes.allowed_extensions
              Hin Hex) as (found & Hfound & Ef).
  unfold Routes.extract_document. rewrite Ef.
  rewrite upload_path_nonempty. cbn [negb]. cbv zeta.
  eexists. eexists. exists found. split; [exact Hfound|].
  split; [reflexivity|].
  unfold Routes.allowed_extensions in Hfound. cbn [In] in Hfound.
  destruct Hfound as [<- | [<- | [<- | []]]]; reflexivity.
Qed.

Lemma accepted_upload_can_be_extracted_witness :
  exists tasks1 file_path found,
    In found Routes.allowed_extensions /\
    Routes.extract_document Setting.one_upload "t1" [] "7"
    = Routes.Ok
        (tasks1,
         Routes.MkResponse "t1" Routes.PENDING (Some "Extraction started")
           None,
         ("t1", file_path, ("document" ++ found)%string)) /\
    lower (snd (PyPath.splitext ("document" ++ found))) = found.
Proof.
  refine (proj2 (proj2 (proj2 (proj2
            (proj2 (accepted_upload_can_be_extracted
                      (fun _ => Returns tt) "7" "2024-01-01T00:00:00"
                      "Report.PDF" 1000%Z)
               (Routes.MkUpload "Report.PDF" "7" Routes.PDF 1000%Z
                  "2024-01-01T00:00:00" "File uploaded successfully")
               eq_refl))))
            Setting.one_upload "t1" [] _).
  reflexivity.
Defined.

End Upload.
